(** * The MMAL port core (interface/mmal/core/mmal_port.c)

    A shallow embedding of the port core: ports, buffer headers, pools and
    components live in a store addressed by handles (the C pointers), every
    function of the source is a state transformer over that store, and the
    operations of the collaborators the core calls into (the component's
    vtable, pools, queues, libc, VCOS) are supplied by an environment.

    Embedded here: allocation and release of a port, format commit, enable
    and disable with the connected case, send, the parameter functions with
    the core statistics, connect, event buffers and the pool callback of a
    connection.

    The embedding follows one thread of control.  A mutex is represented by
    its lifetime only (created by [mmal_port_alloc], deleted by
    [mmal_port_free]); taking and releasing it leaves the sequential state
    as it is.  The in-transit semaphore carries its count, and waiting on an
    unposted semaphore suspends the run.  Integers of the source are [Z]
    with the wrap-around written at the operations that can overflow. *)

From Stdlib Require Import ZArith Lia String.
From stdpp Require Import base option list gmap.

Local Open Scope Z_scope.

(** ** Machine integers *)

Definition to_uint32 (z : Z) : Z := z mod 2 ^ 32.
Definition to_int32 (z : Z) : Z := (z + 2 ^ 31) mod 2 ^ 32 - 2 ^ 31.
Definition is_int32 (z : Z) : Prop := - 2 ^ 31 <= z < 2 ^ 31.
Definition is_uint32 (z : Z) : Prop := 0 <= z < 2 ^ 32.

(** ** Handles *)

Definition port_id := nat.
Definition buf_id := nat.
Definition pool_id := nat.
Definition comp_id := nat.
Definition fmt_id := nat.
(** The address of a function supplied by a component. *)
Definition code_ptr := nat.

(** ** Enumerations *)

(** Modelled from the spec: the status codes of mmal_types.h, which is not
    part of the sources.  The spec's OK, INVALID, NOT_IMPLEMENTED, FAULT,
    NO_MEMORY, NO_SPACE, ALREADY_CONNECTED and NOT_CONNECTED are
    [MMAL_SUCCESS], [MMAL_EINVAL], [MMAL_ENOSYS], [MMAL_EFAULT],
    [MMAL_ENOMEM], [MMAL_ENOSPC], [MMAL_EISCONN] and [MMAL_ENOTCONN]; the
    others are statuses a hook may hand back. *)
Inductive MMAL_STATUS_T : Set :=
| MMAL_SUCCESS | MMAL_ENOMEM | MMAL_ENOSPC | MMAL_EINVAL | MMAL_ENOSYS
| MMAL_ENOENT | MMAL_ENXIO | MMAL_EIO | MMAL_ESPIPE | MMAL_ECORRUPT
| MMAL_ENOTREADY | MMAL_ECONFIG | MMAL_EISCONN | MMAL_ENOTCONN
| MMAL_EAGAIN | MMAL_EFAULT.

#[global] Instance MMAL_STATUS_T_eq_dec : EqDecision MMAL_STATUS_T.
Proof. solve_decision. Defined.

(** [status == MMAL_SUCCESS] *)
Definition is_success (st : MMAL_STATUS_T) : bool :=
  match st with MMAL_SUCCESS => true | _ => false end.

(** [status == MMAL_ENOSYS] *)
Definition is_enosys (st : MMAL_STATUS_T) : bool :=
  match st with MMAL_ENOSYS => true | _ => false end.

(** Modelled from the spec: port types "one of CONTROL, INPUT, OUTPUT"
    (mmal_port.h is not part of the sources); [MMAL_PORT_TYPE_UNKNOWN]
    stands for every other value of the field. *)
Inductive MMAL_PORT_TYPE_T : Set :=
| MMAL_PORT_TYPE_UNKNOWN | MMAL_PORT_TYPE_CONTROL
| MMAL_PORT_TYPE_INPUT | MMAL_PORT_TYPE_OUTPUT.

#[global] Instance MMAL_PORT_TYPE_T_eq_dec : EqDecision MMAL_PORT_TYPE_T.
Proof. solve_decision. Defined.

Definition is_input (t : MMAL_PORT_TYPE_T) : bool :=
  match t with MMAL_PORT_TYPE_INPUT => true | _ => false end.
Definition is_output (t : MMAL_PORT_TYPE_T) : bool :=
  match t with MMAL_PORT_TYPE_OUTPUT => true | _ => false end.

(** The direction of a statistics request; the switch of
    [mmal_port_get_core_stats] sends everything but RX to [default]. *)
Inductive MMAL_CORE_STATS_DIR : Set :=
| MMAL_CORE_STATS_RX | MMAL_CORE_STATS_TX | MMAL_CORE_STATS_MAX.

#[global] Instance MMAL_CORE_STATS_DIR_eq_dec : EqDecision MMAL_CORE_STATS_DIR.
Proof. solve_decision. Defined.

(** A value of type MMAL_PORT_BH_CB_T: a client callback, or one of the two
    callbacks this file defines. *)
Inductive MMAL_PORT_BH_CB_T : Set :=
| client_cb (f : code_ptr)
| mmal_port_connected_input_cb
| mmal_port_connected_output_cb.

#[global] Instance MMAL_PORT_BH_CB_T_eq_dec : EqDecision MMAL_PORT_BH_CB_T.
Proof. solve_decision. Defined.

(** A value of type MMAL_POOL_BH_CB_T. *)
Inductive MMAL_POOL_BH_CB_T : Set :=
| pool_client_cb (f : code_ptr)
| mmal_port_connected_pool_cb_ptr.

#[global] Instance MMAL_POOL_BH_CB_T_eq_dec : EqDecision MMAL_POOL_BH_CB_T.
Proof. solve_decision. Defined.

(** A value of the pf_connect slot: [mmal_port_connect_default], which
    [mmal_port_alloc] installs, or a function of the component. *)
Inductive pf_connect_fn : Set :=
| mmal_port_connect_default_ptr
| component_connect (f : code_ptr).

#[global] Instance pf_connect_fn_eq_dec : EqDecision pf_connect_fn.
Proof. solve_decision. Defined.

(** The VCOS objects of a port. *)
Inductive vcos_obj : Set :=
| obj_lock | obj_send_lock | obj_stats_lock | obj_transit_lock
| obj_transit_sema.

#[global] Instance vcos_obj_eq_dec : EqDecision vcos_obj.
Proof. solve_decision. Defined.

(** ** Structures *)

(** Modelled from the spec: "stats.rx, stats.tx: buffer count,
    first_buffer_time, last_buffer_time, max_delay" (the declaration is in
    a header that is not part of the sources). *)
Record MMAL_CORE_STATISTICS_T : Set := mkStats {
  buffer_count : Z;
  first_buffer_time : Z;
  last_buffer_time : Z;
  max_delay : Z }.

(** Modelled from the spec: the two directions, [rx] before [tx] as the
    spec lists them. *)
Record MMAL_CORE_PORT_STATISTICS_T : Set := mkPortStats {
  rx : MMAL_CORE_STATISTICS_T;
  tx : MMAL_CORE_STATISTICS_T }.

Definition stats_zero : MMAL_CORE_STATISTICS_T := mkStats 0 0 0 0.

#[global] Instance MMAL_CORE_STATISTICS_T_eq_dec : EqDecision MMAL_CORE_STATISTICS_T.
Proof. solve_decision. Defined.

(** The core's private structure for a port.  The four mutexes and the
    semaphore object are kept in the table of live VCOS objects of the
    state; [transit_sema] is the count of the semaphore.  [name] points to
    the name area of a port's allocation ([None] for a null pointer); the
    characters are the [name] of that port. *)
Module Core.
Record t : Type := mk {
    buffer_header_callback : option MMAL_PORT_BH_CB_T;
    transit_buffer_headers : Z;
    transit_sema : nat;
    format_ptr_copy : option fmt_id;
    connected_port : option port_id;
    core_owns_connection : Z;
    allocate_pool : Z;
    pool_for_connection : option pool_id;
    stats : MMAL_CORE_PORT_STATISTICS_T;
    name : option port_id;
    name_size : Z }.

Definition zero : t :=
    mk None 0 0%nat None None 0 0 None (mkPortStats stats_zero stats_zero) None 0.

Definition set_buffer_header_callback v (c : t) : t :=
    mk v (transit_buffer_headers c) (transit_sema c) (format_ptr_copy c)
       (connected_port c) (core_owns_connection c) (allocate_pool c)
       (pool_for_connection c) (stats c) (name c) (name_size c).
Definition set_transit_buffer_headers v (c : t) : t :=
    mk (buffer_header_callback c) v (transit_sema c) (format_ptr_copy c)
       (connected_port c) (core_owns_connection c) (allocate_pool c)
       (pool_for_connection c) (stats c) (name c) (name_size c).
Definition set_transit_sema v (c : t) : t :=
    mk (buffer_header_callback c) (transit_buffer_headers c) v (format_ptr_copy c)
       (connected_port c) (core_owns_connection c) (allocate_pool c)
       (pool_for_connection c) (stats c) (name c) (name_size c).
Definition set_format_ptr_copy v (c : t) : t :=
    mk (buffer_header_callback c) (transit_buffer_headers c) (transit_sema c) v
       (connected_port c) (core_owns_connection c) (allocate_pool c)
       (pool_for_connection c) (stats c) (name c) (name_size c).
Definition set_connected_port v (c : t) : t :=
    mk (buffer_header_callback c) (transit_buffer_headers c) (transit_sema c)
       (format_ptr_copy c) v (core_owns_connection c) (allocate_pool c)
       (pool_for_connection c) (stats c) (name c) (name_size c).
Definition set_core_owns_connection v (c : t) : t :=
    mk (buffer_header_callback c) (transit_buffer_headers c) (transit_sema c)
       (format_ptr_copy c) (connected_port c) v (allocate_pool c)
       (pool_for_connection c) (stats c) (name c) (name_size c).
Definition set_allocate_pool v (c : t) : t :=
    mk (buffer_header_callback c) (transit_buffer_headers c) (transit_sema c)
       (format_ptr_copy c) (connected_port c) (core_owns_connection c) v
       (pool_for_connection c) (stats c) (name c) (name_size c).
Definition set_pool_for_connection v (c : t) : t :=
    mk (buffer_header_callback c) (transit_buffer_headers c) (transit_sema c)
       (format_ptr_copy c) (connected_port c) (core_owns_connection c)
       (allocate_pool c) v (stats c) (name c) (name_size c).
Definition set_stats v (c : t) : t :=
    mk (buffer_header_callback c) (transit_buffer_headers c) (transit_sema c)
       (format_ptr_copy c) (connected_port c) (core_owns_connection c)
       (allocate_pool c) (pool_for_connection c) v (name c) (name_size c).
Definition set_name v (c : t) : t :=
    mk (buffer_header_callback c) (transit_buffer_headers c) (transit_sema c)
       (format_ptr_copy c) (connected_port c) (core_owns_connection c)
       (allocate_pool c) (pool_for_connection c) (stats c) v (name_size c).
Definition set_name_size v (c : t) : t :=
    mk (buffer_header_callback c) (transit_buffer_headers c) (transit_sema c)
       (format_ptr_copy c) (connected_port c) (core_owns_connection c)
       (allocate_pool c) (pool_for_connection c) (stats c) (name c) v.
End Core.

(** MMAL_PORT_PRIVATE_T: the core structure and the component's vtable.  A
    slot is [None] when the function pointer is null. *)
Module Priv.
Record t : Type := mk {
    core : Core.t;
    pf_set_format : option code_ptr;
    pf_enable : option code_ptr;
    pf_disable : option code_ptr;
    pf_send : option code_ptr;
    pf_parameter_set : option code_ptr;
    pf_parameter_get : option code_ptr;
    pf_connect : option pf_connect_fn }.

Definition zero : t := mk Core.zero None None None None None None None.

Definition set_core v (p : t) : t :=
    mk v (pf_set_format p) (pf_enable p) (pf_disable p) (pf_send p)
       (pf_parameter_set p) (pf_parameter_get p) (pf_connect p).
Definition set_pf_connect v (p : t) : t :=
    mk (core p) (pf_set_format p) (pf_enable p) (pf_disable p) (pf_send p)
       (pf_parameter_set p) (pf_parameter_get p) v.
End Priv.

(** MMAL_PORT_T, the fields the core reads or writes. *)
Module Port.
Record t : Type := mk {
    priv : option Priv.t;
    name : string;
    type : MMAL_PORT_TYPE_T;
    index : Z;
    is_enabled : Z;
    format : option fmt_id;
    buffer_num_min : Z;
    buffer_size_min : Z;
    buffer_num : Z;
    buffer_size : Z;
    component : comp_id;
    capabilities : Z }.

  (** The structure as [vcos_calloc] hands it out. *)
Definition zero : t :=
    mk None EmptyString MMAL_PORT_TYPE_UNKNOWN 0 0 None 0 0 0 0 0%nat 0.

Definition set_priv v (p : t) : t :=
    mk v (name p) (type p) (index p) (is_enabled p) (format p)
       (buffer_num_min p) (buffer_size_min p) (buffer_num p) (buffer_size p)
       (component p) (capabilities p).
Definition set_name v (p : t) : t :=
    mk (priv p) v (type p) (index p) (is_enabled p) (format p)
       (buffer_num_min p) (buffer_size_min p) (buffer_num p) (buffer_size p)
       (component p) (capabilities p).
Definition set_type v (p : t) : t :=
    mk (priv p) (name p) v (index p) (is_enabled p) (format p)
       (buffer_num_min p) (buffer_size_min p) (buffer_num p) (buffer_size p)
       (component p) (capabilities p).
Definition set_index v (p : t) : t :=
    mk (priv p) (name p) (type p) v (is_enabled p) (format p)
       (buffer_num_min p) (buffer_size_min p) (buffer_num p) (buffer_size p)
       (component p) (capabilities p).
Definition set_is_enabled v (p : t) : t :=
    mk (priv p) (name p) (type p) (index p) v (format p)
       (buffer_num_min p) (buffer_size_min p) (buffer_num p) (buffer_size p)
       (component p) (capabilities p).
Definition set_format v (p : t) : t :=
    mk (priv p) (name p) (type p) (index p) (is_enabled p) v
       (buffer_num_min p) (buffer_size_min p) (buffer_num p) (buffer_size p)
       (component p) (capabilities p).
Definition set_buffer_num v (p : t) : t :=
    mk (priv p) (name p) (type p) (index p) (is_enabled p) (format p)
       (buffer_num_min p) (buffer_size_min p) v (buffer_size p)
       (component p) (capabilities p).
Definition set_buffer_size v (p : t) : t :=
    mk (priv p) (name p) (type p) (index p) (is_enabled p) (format p)
       (buffer_num_min p) (buffer_size_min p) (buffer_num p) v
       (component p) (capabilities p).
Definition set_component v (p : t) : t :=
    mk (priv p) (name p) (type p) (index p) (is_enabled p) (format p)
       (buffer_num_min p) (buffer_size_min p) (buffer_num p) (buffer_size p)
       v (capabilities p).

  (** [port->priv->core], the zeroed structure when [priv] is null. *)
Definition core (p : t) : Core.t :=
    match priv p with Some pr => Priv.core pr | None => Core.zero end.
  (** An assignment through [port->priv->core]. *)
Definition upd_core (f : Core.t -> Core.t) (p : t) : t :=
    match priv p with
    | Some pr => set_priv (Some (Priv.set_core (f (Priv.core pr)) pr)) p
    | None => p
    end.
End Port.

(** MMAL_BUFFER_HEADER_T.  [data] is the payload the header points to
    ([None] for a null pointer). *)
Module BH.
Record t : Type := mk {
    cmd : Z;
    data : option (list Z);
    alloc_size : Z;
    length : Z;
    offset : Z;
    flags : Z;
    pts : Z;
    dts : Z }.

Definition zero : t := mk 0 None 0 0 0 0 0 0.

Definition set_cmd v (b : t) : t :=
    mk v (data b) (alloc_size b) (length b) (offset b) (flags b) (pts b) (dts b).
Definition set_data v (b : t) : t :=
    mk (cmd b) v (alloc_size b) (length b) (offset b) (flags b) (pts b) (dts b).
Definition set_length v (b : t) : t :=
    mk (cmd b) (data b) (alloc_size b) v (offset b) (flags b) (pts b) (dts b).
Definition set_offset v (b : t) : t :=
    mk (cmd b) (data b) (alloc_size b) (length b) v (flags b) (pts b) (dts b).
Definition set_flags v (b : t) : t :=
    mk (cmd b) (data b) (alloc_size b) (length b) (offset b) v (pts b) (dts b).
Definition set_pts v (b : t) : t :=
    mk (cmd b) (data b) (alloc_size b) (length b) (offset b) (flags b) v (dts b).
Definition set_dts v (b : t) : t :=
    mk (cmd b) (data b) (alloc_size b) (length b) (offset b) (flags b) (pts b) v.
End BH.

(** Modelled from the spec: a pool is "a restartable source of buffer
    headers" with a queue and a release callback with its userdata
    (mmal_pool.c and mmal_queue.c are not part of the sources). *)
Module Pool.
Record t : Type := mk {
    queue : list buf_id;
    callback : option MMAL_POOL_BH_CB_T;
    userdata : option port_id }.
Definition zero : t := mk [] None None.
Definition set_queue v (p : t) : t := mk v (callback p) (userdata p).
Definition set_callback v w (p : t) : t := mk (queue p) v w.
End Pool.

(** MMAL_COMPONENT_T, the fields the core reads. *)
Module Component.
Record t : Type := mk {
    name : string;
    output : list port_id;
    event_pool : pool_id }.
Definition zero : t := mk EmptyString [] 0%nat.
End Component.

(** MMAL_ES_FORMAT_T, the field the core reads. *)
Module Format.
Record t : Type := mk { encoding : Z }.
Definition zero : t := mk 0.
End Format.

(** The parameter block a client passes, seen through
    MMAL_PARAMETER_CORE_STATISTICS_T: the header, then [dir], [reset] and
    [stats]. *)
Module Param.
Record t : Type := mk {
    id : Z;
    size : Z;
    dir : MMAL_CORE_STATS_DIR;
    reset : Z;
    stats : MMAL_CORE_STATISTICS_T }.
Definition set_stats v (p : t) : t := mk (id p) (size p) (dir p) (reset p) v.
End Param.

(** ** The state *)

(** A call the core makes into a collaborator.  The trace of a run lists
    them, latest first. *)
Inductive Call : Set :=
| call_pf_set_format (f : code_ptr) (port : port_id)
| call_pf_enable (f : code_ptr) (port : port_id) (cb : option MMAL_PORT_BH_CB_T)
| call_pf_disable (f : code_ptr) (port : port_id)
| call_pf_send (f : code_ptr) (port : port_id) (buffer : buf_id)
| call_pf_parameter_set (f : code_ptr) (port : port_id)
| call_pf_parameter_get (f : code_ptr) (port : port_id)
| call_pf_connect (f : pf_connect_fn) (port : port_id) (other : option port_id)
| call_buffer_header_release (buffer : buf_id)
| call_pool_create (port : port_id) (headers : Z) (payload_size : Z)
| call_pool_destroy (pool : pool_id)
| call_format_free (format : fmt_id).

#[global] Instance Call_eq_dec : EqDecision Call.
Proof. solve_decision. Defined.

Record State : Type := mkState {
  ports : gmap port_id Port.t;
  buffers : gmap buf_id BH.t;
  pools : gmap pool_id Pool.t;
  components : gmap comp_id Component.t;
  formats : gmap fmt_id Format.t;
  vcos_objs : list (port_id * vcos_obj);
  trace : list Call }.

Definition set_ports v (s : State) : State :=
  mkState v (buffers s) (pools s) (components s) (formats s) (vcos_objs s) (trace s).
Definition set_buffers v (s : State) : State :=
  mkState (ports s) v (pools s) (components s) (formats s) (vcos_objs s) (trace s).
Definition set_pools v (s : State) : State :=
  mkState (ports s) (buffers s) v (components s) (formats s) (vcos_objs s) (trace s).
Definition set_formats v (s : State) : State :=
  mkState (ports s) (buffers s) (pools s) (components s) v (vcos_objs s) (trace s).
Definition set_vcos_objs v (s : State) : State :=
  mkState (ports s) (buffers s) (pools s) (components s) (formats s) v (trace s).
Definition set_trace v (s : State) : State :=
  mkState (ports s) (buffers s) (pools s) (components s) (formats s) (vcos_objs s) v.

(** Reading through a handle.  A handle with no structure behind it reads
    as the zeroed structure, so that the public functions reject it at their
    [!port->priv] test. *)
Definition port_at (s : State) (p : port_id) : Port.t :=
  default Port.zero (ports s !! p).
Definition core_at (s : State) (p : port_id) : Core.t :=
  Port.core (port_at s p).
Definition buffer_at (s : State) (b : buf_id) : BH.t :=
  default BH.zero (buffers s !! b).
Definition pool_at (s : State) (q : pool_id) : Pool.t :=
  default Pool.zero (pools s !! q).
Definition component_at (s : State) (c : comp_id) : Component.t :=
  default Component.zero (components s !! c).
Definition format_at (s : State) (f : fmt_id) : Format.t :=
  default Format.zero (formats s !! f).

(** Writing through a handle. *)
Definition upd_port (p : port_id) (f : Port.t -> Port.t) (s : State) : State :=
  set_ports (alter f p (ports s)) s.
Definition upd_core (p : port_id) (f : Core.t -> Core.t) (s : State) : State :=
  upd_port p (Port.upd_core f) s.
Definition upd_buffer (b : buf_id) (f : BH.t -> BH.t) (s : State) : State :=
  set_buffers (alter f b (buffers s)) s.
Definition upd_pool (q : pool_id) (f : Pool.t -> Pool.t) (s : State) : State :=
  set_pools (alter f q (pools s)) s.

(** ** Runs *)

(** Why a run does not return: it waits on a semaphore nobody in this
    thread will post, it calls through a null function pointer or writes
    through a null pointer, or the bound on nested calls and loop rounds is
    used up. *)
Inductive stuck : Set := sema_blocked | null_pointer | out_of_fuel.

Inductive Res (A : Type) : Type :=
| Done (a : A) (s : State)
| Stuck (why : stuck).
Arguments Done {A} a s.
Arguments Stuck {A} why.

Definition M (A : Type) : Type := State -> Res A.

Definition ret {A} (a : A) : M A := fun s => Done a s.
Definition bind {A B} (m : M A) (k : A -> M B) : M B :=
  fun s => match m s with Done a s' => k a s' | Stuck w => Stuck w end.
Definition gets {A} (f : State -> A) : M A := fun s => Done (f s) s.
Definition modify (f : State -> State) : M unit := fun s => Done tt (f s).
Definition halt {A} (w : stuck) : M A := fun _ => Stuck w.

Notation "'do' x <- m ; k" := (bind m (fun x => k))
  (at level 10, x name, m at level 100, k at level 200).
Notation "'run' m ; k" := (bind m (fun _ => k))
  (at level 10, m at level 100, k at level 200).

(** A call into a collaborator: the callee transforms the store, and the
    call is entered in the trace of the caller. *)
Definition call {A} (c : Call) (f : State -> A * State) : M A :=
  fun s => let '(a, s') := f s in Done a (set_trace (c :: trace s) s').

(** ** The environment *)

(** Constants and sizes declared in headers that are not part of the
    sources. *)
Record Constants : Type := mkConstants {
  MMAL_PORT_CAPABILITY_PASSTHROUGH : Z;
  MMAL_PORT_CAPABILITY_ALLOCATION : Z;
  MMAL_EVENT_FORMAT_CHANGED : Z;
  MMAL_PARAMETER_CORE_STATISTICS : Z;
  sizeof_MMAL_EVENT_FORMAT_CHANGED_T : Z;
  sizeof_MMAL_ES_FORMAT_T : Z;
  sizeof_MMAL_ES_SPECIFIC_FORMAT_T : Z }.

(** The collaborators: the functions behind the vtable slots, by address,
    and the library functions whose result the core cannot know.  All of
    them may change the store. *)
Record Externals : Type := mkExternals {
  run_set_format : code_ptr -> port_id -> State -> MMAL_STATUS_T * State;
  run_enable : code_ptr -> port_id -> option MMAL_PORT_BH_CB_T -> State -> MMAL_STATUS_T * State;
  run_disable : code_ptr -> port_id -> State -> MMAL_STATUS_T * State;
  run_send : code_ptr -> port_id -> buf_id -> State -> MMAL_STATUS_T * State;
  run_parameter_set : code_ptr -> port_id -> Param.t -> State -> MMAL_STATUS_T * State;
  run_parameter_get : code_ptr -> port_id -> Param.t -> State -> (MMAL_STATUS_T * Param.t) * State;
  run_connect : code_ptr -> port_id -> option port_id -> State -> MMAL_STATUS_T * State;
  buffer_header_release : buf_id -> State -> State;
  port_pool_create : port_id -> Z -> Z -> State -> option pool_id * State;
  pool_destroy : pool_id -> State -> State;
  getmicrosecs : State -> Z;
  calloc_port : State -> option port_id;
  create_succeeds : port_id -> vcos_obj -> State -> bool;
  format_alloc : State -> option fmt_id;
  snprintf_port_name : Z -> string -> string -> Z -> option Z -> string }.

(** The collaborators of the buffer return path.  The trace has no entry for
    calls into them.  [MMAL_COLLECT_PORT_STATS_ENABLED] is the build switch
    of the source; [run_client_cb] is the client's buffer callback, by
    address; [event_format_changed_get] gives the format an event buffer
    carries when it is a FORMAT_CHANGED event. *)
Record Collaborators : Type := mkCollaborators {
  MMAL_COLLECT_PORT_STATS_ENABLED : bool;
  run_client_cb : code_ptr -> port_id -> buf_id -> State -> State;
  event_format_changed_get : buf_id -> State -> option fmt_id;
  format_full_copy : option fmt_id -> fmt_id -> State -> MMAL_STATUS_T * State;
  event_error_send : comp_id -> MMAL_STATUS_T -> State -> State }.

(** ** The port core *)

Section PortCore.

Variable K : Constants.
Variable E : Externals.

(** *** VCOS *)

Definition vcos_mutex_lock (a : port_id) (o : vcos_obj) : M unit := ret tt.
Definition vcos_mutex_unlock (a : port_id) (o : vcos_obj) : M unit := ret tt.

Definition LOCK_PORT (a : port_id) : M unit := vcos_mutex_lock a obj_lock.
Definition UNLOCK_PORT (a : port_id) : M unit := vcos_mutex_unlock a obj_lock.
Definition LOCK_SENDING (a : port_id) : M unit := vcos_mutex_lock a obj_send_lock.
Definition UNLOCK_SENDING (a : port_id) : M unit := vcos_mutex_unlock a obj_send_lock.

(** The action lock of a component is a mutex as well. *)
Definition mmal_component_action_lock (c : comp_id) : M unit := ret tt.
Definition mmal_component_action_unlock (c : comp_id) : M unit := ret tt.

(** [vcos_semaphore_wait(&a->priv->core->transit_sema)] *)
Definition vcos_semaphore_wait (a : port_id) : M unit := fun s =>
  match Core.transit_sema (core_at s a) with
  | O => Stuck sema_blocked
  | S n => Done tt (upd_core a (Core.set_transit_sema n) s)
  end.

(** [vcos_semaphore_post(&a->priv->core->transit_sema)] *)
Definition vcos_semaphore_post (a : port_id) : M unit :=
  modify (fun s =>
    upd_core a (Core.set_transit_sema (S (Core.transit_sema (core_at s a)))) s).

(** Creation of one of the five objects of a port; the result is whether
    VCOS reported success. *)
Definition vcos_create (a : port_id) (o : vcos_obj) : M bool := fun s =>
  if create_succeeds E a o s
  then Done true (set_vcos_objs ((a, o) :: vcos_objs s) s)
  else Done false s.

Definition vcos_delete (a : port_id) (o : vcos_obj) : M unit :=
  modify (fun s =>
    set_vcos_objs (filter (fun x => x <> (a, o)) (vcos_objs s)) s).

Definition vcos_free (a : port_id) : M unit :=
  modify (fun s => set_ports (delete a (ports s)) s).

(** *** In-transit accounting *)

Definition IN_TRANSIT_COUNT (s : State) (a : port_id) : Z :=
  Core.transit_buffer_headers (core_at s a).

(** [if (!(a)->priv->core->transit_buffer_headers++) vcos_semaphore_wait(..)] *)
Definition IN_TRANSIT_INCREMENT (a : port_id) : M unit :=
  run vcos_mutex_lock a obj_transit_lock;
  do old <- gets (fun s => IN_TRANSIT_COUNT s a);
  run modify (upd_core a (Core.set_transit_buffer_headers (to_int32 (old + 1))));
  run (if old =? 0 then vcos_semaphore_wait a else ret tt);
  vcos_mutex_unlock a obj_transit_lock.

(** [if (!--(a)->priv->core->transit_buffer_headers) vcos_semaphore_post(..)] *)
Definition IN_TRANSIT_DECREMENT (a : port_id) : M unit :=
  run vcos_mutex_lock a obj_transit_lock;
  do old <- gets (fun s => IN_TRANSIT_COUNT s a);
  let new := to_int32 (old - 1) in
  run modify (upd_core a (Core.set_transit_buffer_headers new));
  run (if new =? 0 then vcos_semaphore_post a else ret tt);
  vcos_mutex_unlock a obj_transit_lock.

Definition IN_TRANSIT_WAIT (a : port_id) : M unit :=
  run vcos_semaphore_wait a;
  vcos_semaphore_post a.

(** *** Small helpers of the embedding *)

(** The test [!port || !port->priv] that opens the public functions: the
    handle and the private structure when it passes. *)
Definition valid_port (s : State) (port : option port_id) : option (port_id * Priv.t) :=
  match port with
  | None => None
  | Some p =>
      match Port.priv (port_at s p) with
      | None => None
      | Some pr => Some (p, pr)
      end
  end.

(** A vtable slot of a port, read from the store. *)
Definition slot {A} (f : Priv.t -> option A) (s : State) (p : port_id) : option A :=
  match Port.priv (port_at s p) with Some pr => f pr | None => None end.

Definition nonzero (z : Z) : bool := negb (z =? 0).

(** [memset(p, 0, n)] on the bytes at [p]; a write past what the store holds
    of the block is not represented. *)
Definition memset_zero (n : nat) (bytes : list Z) : list Z :=
  replicate (min n (Datatypes.length bytes)) 0 ++ drop n bytes.

(** *** Collaborators *)

(** Modelled from the spec: "release returns it (potentially invoking a
    release callback)"; mmal_buffer.c is not part of the sources. *)
Definition mmal_buffer_header_release (b : buf_id) : M unit :=
  call (call_buffer_header_release b) (fun s => (tt, buffer_header_release E b s)).

(** Modelled from the spec: "queue_get -> buffer|null"; the queue is the
    one of the pool. *)
Definition mmal_queue_get (q : pool_id) : M (option buf_id) := fun s =>
  match Pool.queue (pool_at s q) with
  | [] => Done None s
  | b :: rest => Done (Some b) (upd_pool q (Pool.set_queue rest) s)
  end.

(** Modelled from the spec: "callback_set(cb, userdata)". *)
Definition mmal_pool_callback_set (q : pool_id) (cb : option MMAL_POOL_BH_CB_T)
    (userdata : option port_id) : M unit :=
  modify (upd_pool q (Pool.set_callback cb userdata)).

Definition mmal_port_pool_create (p : port_id) (headers payload_size : Z) : M (option pool_id) :=
  call (call_pool_create p headers payload_size) (port_pool_create E p headers payload_size).

Definition mmal_pool_destroy (q : pool_id) : M unit :=
  call (call_pool_destroy q) (fun s => (tt, pool_destroy E q s)).

(** Modelled from the spec: free "releases format"; mmal_format.c is not
    part of the sources. *)
Definition mmal_format_free (f : option fmt_id) : M unit :=
  match f with
  | None => ret tt
  | Some f => call (call_format_free f) (fun s => (tt, set_formats (delete f (formats s)) s))
  end.

Definition mmal_format_alloc : M (option fmt_id) := fun s =>
  match format_alloc E s with
  | None => Done None s
  | Some f => Done (Some f) (set_formats (<[f := Format.zero]> (formats s)) s)
  end.

(** *** Names *)

(** sizeof(PORT_NAME_FORMAT) *)
Definition sizeof_PORT_NAME_FORMAT : Z :=
  Z.of_nat (String.length "%s:%.2222s:%i%c%4.4s)") + 1.

Definition mmal_port_name_update (port : port_id) : M unit := fun s =>
  let p := port_at s port in
  let core := Port.core p in
  let role :=
    match Port.type p with
    | MMAL_PORT_TYPE_CONTROL => "ctr"
    | MMAL_PORT_TYPE_INPUT => "in"
    | MMAL_PORT_TYPE_OUTPUT => "out"
    | _ => "invalid"
    end%string in
  let encoding :=
    match Port.format p with
    | Some f =>
        let e := Format.encoding (format_at s f) in
        if nonzero e then Some e else None
    | None => None
    end in
  match Core.name core with
  | None => Stuck null_pointer
  | Some area =>
      Done tt (upd_port area (Port.set_name
        (snprintf_port_name E (to_uint32 (Core.name_size core - 1))
           (Component.name (component_at s (Port.component p)))
           role (Port.index p) encoding)) s)
  end.

(** *** Statistics *)

Definition update_stats (stc : Z) (st : MMAL_CORE_STATISTICS_T) : MMAL_CORE_STATISTICS_T :=
  let count := to_uint32 (buffer_count st + 1) in
  if nonzero (first_buffer_time st)
  then mkStats count (first_buffer_time st) stc
         (Z.max (max_delay st) (to_uint32 (stc - last_buffer_time st)))
  else mkStats count stc stc (max_delay st).

(** Update the port stats, called per buffer. *)
Definition mmal_port_update_port_stats (port : port_id) (direction : MMAL_CORE_STATS_DIR) : M unit :=
  do stc <- gets (fun s => to_uint32 (getmicrosecs E s));
  run vcos_mutex_lock port obj_stats_lock;
  run modify (upd_core port (fun c =>
    let st := Core.stats c in
    match direction with
    | MMAL_CORE_STATS_RX => Core.set_stats (mkPortStats (update_stats stc (rx st)) (tx st)) c
    | _ => Core.set_stats (mkPortStats (rx st) (update_stats stc (tx st))) c
    end));
  vcos_mutex_unlock port obj_stats_lock.

(** [memset(src_stats, 0, sizeof(port->priv->core->stats))]: the size is
    that of the pair, twice that of the structure [src_stats] points to.
    From [&stats.rx] the write covers [rx] and [tx].  From [&stats.tx] it
    covers [tx] and as many bytes behind the pair: a MMAL_CORE_STATISTICS_T
    is four 32-bit counters, which reaches over [name] and [name_size] (the
    bytes it reaches behind the structure on a 32-bit target are not
    represented). *)
Definition memset_src_stats (dir : MMAL_CORE_STATS_DIR) (c : Core.t) : Core.t :=
  match dir with
  | MMAL_CORE_STATS_RX => Core.set_stats (mkPortStats stats_zero stats_zero) c
  | _ =>
      Core.set_name_size 0
        (Core.set_name None
           (Core.set_stats (mkPortStats (rx (Core.stats c)) stats_zero) c))
  end.

Definition mmal_port_get_core_stats (port : port_id) (param : Param.t) : M (MMAL_STATUS_T * Param.t) :=
  run vcos_mutex_lock port obj_stats_lock;
  do src_stats <- gets (fun s =>
    match Param.dir param with
    | MMAL_CORE_STATS_RX => rx (Core.stats (core_at s port))
    | _ => tx (Core.stats (core_at s port))
    end);
  let param := Param.set_stats src_stats param in
  run (if nonzero (Param.reset param)
       then modify (upd_core port (memset_src_stats (Param.dir param)))
       else ret tt);
  run vcos_mutex_unlock port obj_stats_lock;
  ret (MMAL_SUCCESS, param).

Definition mmal_port_private_parameter_get (port : port_id) (param : Param.t) : M (MMAL_STATUS_T * Param.t) :=
  if Param.id param =? MMAL_PARAMETER_CORE_STATISTICS K
  then mmal_port_get_core_stats port param
  else ret (MMAL_ENOSYS, param).

Definition mmal_port_private_parameter_set (port : port_id) (param : Param.t) : M MMAL_STATUS_T :=
  ret MMAL_ENOSYS.

(** *** Parameters *)

(** Set a parameter on a port. *)
Definition mmal_port_parameter_set (port : option port_id) (param : option Param.t) : M MMAL_STATUS_T :=
  match port with
  | None => ret MMAL_EINVAL
  | Some p =>
      match param with
      | None => ret MMAL_EINVAL
      | Some prm =>
          do priv <- gets (fun s => Port.priv (port_at s p));
          match priv with
          | None => ret MMAL_EINVAL
          | Some _ =>
              run LOCK_PORT p;
              do hook <- gets (fun s => slot Priv.pf_parameter_set s p);
              do status <-
                match hook with
                | Some f => call (call_pf_parameter_set f p) (run_parameter_set E f p prm)
                | None => ret MMAL_ENOSYS
                end;
              do status <-
                (if is_enosys status
                 then mmal_port_private_parameter_set p prm
                 else ret status);
              run UNLOCK_PORT p;
              ret status
          end
      end
  end.

(** Get a port parameter.  The second component of the result is the
    parameter block as the call leaves it. *)
Definition mmal_port_parameter_get (port : option port_id) (param : option Param.t)
    : M (MMAL_STATUS_T * option Param.t) :=
  do v <- gets (fun s => valid_port s port);
  match v with
  | None => ret (MMAL_EINVAL, param)
  | Some (p, _) =>
      match param with
      | None => ret (MMAL_EINVAL, None)
      | Some prm =>
          run LOCK_PORT p;
          do hook <- gets (fun s => slot Priv.pf_parameter_get s p);
          do r <-
            match hook with
            | Some f => call (call_pf_parameter_get f p) (run_parameter_get E f p prm)
            | None => ret (MMAL_ENOSYS, prm)
            end;
          do r <-
            (if is_enosys (fst r)
             then mmal_port_private_parameter_get p (snd r)
             else ret r);
          run UNLOCK_PORT p;
          ret (fst r, Some (snd r))
      end
  end.

(** *** Send *)

(** Send a buffer header to a port. *)
Definition mmal_port_send_buffer (port : option port_id) (buffer : buf_id) : M MMAL_STATUS_T :=
  do v <- gets (fun s => valid_port s port);
  match v with
  | None => ret MMAL_EINVAL
  | Some (p, _) =>
      do reject <- gets (fun s =>
        match BH.data (buffer_at s buffer) with
        | None =>
            negb (nonzero (Z.land (Port.capabilities (port_at s p))
                                  (MMAL_PORT_CAPABILITY_PASSTHROUGH K)))
        | Some _ => false
        end);
      if reject then ret MMAL_EINVAL else
      do hook <- gets (fun s => slot Priv.pf_send s p);
      match hook with
      | None => ret MMAL_ENOSYS
      | Some _ =>
          run LOCK_SENDING p;
          do enabled <- gets (fun s => nonzero (Port.is_enabled (port_at s p)));
          if negb enabled
          then (run UNLOCK_SENDING p; ret MMAL_EINVAL)
          else
            do clear <- gets (fun s =>
              is_output (Port.type (port_at s p))
              && nonzero (BH.length (buffer_at s buffer)));
            run (if clear then modify (upd_buffer buffer (BH.set_length 0)) else ret tt);
            run IN_TRANSIT_INCREMENT p;
            do hook <- gets (fun s => slot Priv.pf_send s p);
            do status <-
              match hook with
              | Some f => call (call_pf_send f p buffer) (run_send E f p buffer)
              | None => halt null_pointer
              end;
            run (if is_success status
                 then mmal_port_update_port_stats p MMAL_CORE_STATS_RX
                 else IN_TRANSIT_DECREMENT p);
            run UNLOCK_SENDING p;
            ret status
      end
  end.

(** *** Format commit *)

(** "Make sure the buffer size / num are sensible" *)
Definition clamp_to_minima (p : Port.t) : Port.t :=
  let p :=
    if Port.buffer_size p <? Port.buffer_size_min p
    then Port.set_buffer_size (Port.buffer_size_min p) p else p in
  if Port.buffer_num p <? Port.buffer_num_min p
  then Port.set_buffer_num (Port.buffer_num_min p) p else p.

(** Set format of a port. *)
Definition mmal_port_format_commit (port : option port_id) : M MMAL_STATUS_T :=
  do v <- gets (fun s => valid_port s port);
  match v with
  | None => ret MMAL_EINVAL
  | Some (p, _) =>
      do clobbered <- gets (fun s =>
        bool_decide (Port.format (port_at s p) <> Core.format_ptr_copy (core_at s p)));
      if clobbered
      then
        (run modify (fun s =>
           upd_port p (Port.set_format (Core.format_ptr_copy (core_at s p))) s);
         ret MMAL_EFAULT)
      else
        (* port->format->encoding is read for the trace message *)
        do format <- gets (fun s => Port.format (port_at s p));
        match format with
        | None => halt null_pointer
        | Some _ =>
            do hook <- gets (fun s => slot Priv.pf_set_format s p);
            match hook with
            | None => ret MMAL_ENOSYS
            | Some f =>
                run LOCK_PORT p;
                do status <- call (call_pf_set_format f p) (run_set_format E f p);
                run mmal_port_name_update p;
                run modify (upd_port p clamp_to_minima);
                (* The output port settings might have changed *)
                do input <- gets (fun s => is_input (Port.type (port_at s p)));
                run (if input
                     then modify (fun s =>
                       foldl (fun s o => upd_port o clamp_to_minima s) s
                         (Component.output (component_at s (Port.component (port_at s p)))))
                     else ret tt);
                run UNLOCK_PORT p;
                ret status
            end
        end
  end.

(** *** Connected ports: the pool callback *)

(** Callback for when a buffer from a connected output port is finally
    released. *)
Definition mmal_port_connected_pool_cb (pool : pool_id) (buffer : buf_id)
    (userdata : option port_id) : M bool :=
  let port := userdata in
  (* Reset buffer header *)
  run modify (upd_buffer buffer (BH.set_cmd 0));
  run modify (upd_buffer buffer (BH.set_length 0));
  run modify (upd_buffer buffer (BH.set_offset 0));
  run modify (upd_buffer buffer (BH.set_flags 0));
  run modify (upd_buffer buffer (BH.set_pts 0));
  run modify (upd_buffer buffer (BH.set_dts 0));
  (* Pipe the buffer back to the output port *)
  do status <- mmal_port_send_buffer port buffer;
  ret (negb (is_success status)).

(** Populate an output port with a pool of buffers.  [rounds] bounds the
    rounds of the loop. *)
Fixpoint populate_loop (rounds : nat) (port : port_id) (pool : pool_id) (buffer_idx : Z)
    : M MMAL_STATUS_T :=
  match rounds with
  | O => halt out_of_fuel
  | S rounds =>
      do more <- gets (fun s => buffer_idx <? Port.buffer_num (port_at s port));
      if negb more then ret MMAL_SUCCESS else
      do buffer <- mmal_queue_get pool;
      match buffer with
      | None => ret MMAL_ENOMEM
      | Some b =>
          do status <- mmal_port_send_buffer (Some port) b;
          if is_success status
          then populate_loop rounds port pool (to_uint32 (buffer_idx + 1))
          else (run mmal_buffer_header_release b; ret status)
      end
  end.

Definition mmal_port_populate_from_pool (rounds : nat) (port : port_id) (pool : pool_id)
    : M MMAL_STATUS_T :=
  do hook <- gets (fun s => slot Priv.pf_send s port);
  match hook with
  | None => ret MMAL_ENOSYS
  | Some _ => populate_loop rounds port pool 0
  end.

(** *** Enable and disable *)

(** A call through [port->priv->pf_disable]. *)
Definition call_disable (port : port_id) : M MMAL_STATUS_T :=
  do hook <- gets (fun s => slot Priv.pf_disable s port);
  match hook with
  | Some f => call (call_pf_disable f port) (run_disable E f port)
  | None => halt null_pointer
  end.

(** A call through [port->priv->pf_enable]. *)
Definition call_enable (port : port_id) (cb : option MMAL_PORT_BH_CB_T) : M MMAL_STATUS_T :=
  do hook <- gets (fun s => slot Priv.pf_enable s port);
  match hook with
  | Some f => call (call_pf_enable f port cb) (run_enable E f port cb)
  | None => halt null_pointer
  end.

(** "Ensure that the buffer numbers and sizes used are the maxima between
    connected ports." *)
Definition adopt_maxima (port connected_port : port_id) : M unit :=
  run LOCK_PORT connected_port;
  run modify (fun s =>
    if Port.buffer_num (port_at s connected_port) >? Port.buffer_num (port_at s port)
    then upd_port port (Port.set_buffer_num (Port.buffer_num (port_at s connected_port))) s
    else s);
  run modify (fun s =>
    if Port.buffer_size (port_at s connected_port) >? Port.buffer_size (port_at s port)
    then upd_port port (Port.set_buffer_size (Port.buffer_size (port_at s connected_port))) s
    else s);
  UNLOCK_PORT connected_port.

(** The four functions call each other; [fuel] bounds the depth of the
    nesting. *)
Fixpoint mmal_port_disable_locked (fuel : nat) (port : port_id) : M MMAL_STATUS_T :=
  match fuel with
  | O => halt out_of_fuel
  | S fuel =>
      do enabled <- gets (fun s => nonzero (Port.is_enabled (port_at s port)));
      if negb enabled then ret MMAL_EINVAL else
      run LOCK_SENDING port;
      run modify (upd_port port (Port.set_is_enabled 0));
      run UNLOCK_SENDING port;
      do component <- gets (fun s => Port.component (port_at s port));
      run mmal_component_action_lock component;
      do pool <- gets (fun s => Core.pool_for_connection (core_at s port));
      run match pool with
          | Some q => mmal_pool_callback_set q None None
          | None => ret tt
          end;
      do status <- call_disable port;
      do component <- gets (fun s => Port.component (port_at s port));
      run mmal_component_action_unlock component;
      if negb (is_success status)
      then
        (run LOCK_SENDING port;
         run modify (upd_port port (Port.set_is_enabled 1));
         run UNLOCK_SENDING port;
         ret status)
      else
        (* Wait for all the buffers to have come back from the component *)
        run IN_TRANSIT_WAIT port;
        run modify (upd_core port (Core.set_buffer_header_callback None));
        do peer <- gets (fun s => Core.connected_port (core_at s port));
        do output <- gets (fun s => is_output (Port.type (port_at s port)));
        run match peer with
            | Some cp =>
                if output
                then (run mmal_port_disable fuel (Some cp); ret tt)
                else ret tt
            | None => ret tt
            end;
        ret status
  end

(** Disable processing on a port. *)
with mmal_port_disable (fuel : nat) (port : option port_id) : M MMAL_STATUS_T :=
  match fuel with
  | O => halt out_of_fuel
  | S fuel =>
      do v <- gets (fun s => valid_port s port);
      match v with
      | None => ret MMAL_EINVAL
      | Some (p, pr) =>
          match Priv.pf_disable pr with
          | None => ret MMAL_ENOSYS
          | Some _ =>
              run LOCK_PORT p;
              do status <- mmal_port_disable_locked fuel p;
              do pool <- gets (fun s =>
                if is_success status
                then Core.pool_for_connection (core_at s p) else None);
              run modify (upd_core p (Core.set_pool_for_connection None));
              run UNLOCK_PORT p;
              run match pool with
                  | Some q => if is_success status then mmal_pool_destroy q else ret tt
                  | None => ret tt
                  end;
              ret status
          end
      end
  end.

Fixpoint mmal_port_enable_locked (fuel : nat) (port : port_id)
    (cb : option MMAL_PORT_BH_CB_T) : M MMAL_STATUS_T :=
  match fuel with
  | O => halt out_of_fuel
  | S fuel =>
      do connected_port <- gets (fun s => Core.connected_port (core_at s port));
      do enabled <- gets (fun s => nonzero (Port.is_enabled (port_at s port)));
      if enabled then ret MMAL_EINVAL else
      do output <- gets (fun s => is_output (Port.type (port_at s port)));
      run match connected_port with
          | Some cp => if output then adopt_maxima port cp else ret tt
          | None => ret tt
          end;
      (* Sanity check the buffer requirements *)
      do few <- gets (fun s =>
        Port.buffer_num (port_at s port) <? Port.buffer_num_min (port_at s port));
      if few then ret MMAL_EINVAL else
      do small <- gets (fun s =>
        Port.buffer_size (port_at s port) <? Port.buffer_size_min (port_at s port));
      if small then ret MMAL_EINVAL else
      (* !connected_port == !cb *)
      if Bool.eqb (negb (bool_decide (is_Some connected_port)))
                  (negb (bool_decide (is_Some cb)))
      then ret MMAL_EINVAL else
      run modify (upd_core port (Core.set_buffer_header_callback cb));
      do status <- call_enable port cb;
      if negb (is_success status) then ret status else
      run LOCK_SENDING port;
      run modify (upd_port port (Port.set_is_enabled 1));
      run UNLOCK_SENDING port;
      match connected_port with
      | Some cp =>
          do input <- gets (fun s => is_input (Port.type (port_at s port)));
          if input
          then
            (run modify (upd_core port
               (Core.set_buffer_header_callback (Some mmal_port_connected_input_cb)));
             ret status)
          else mmal_port_enable_locked_connected fuel port cp
      | None => ret status
      end
  end

with mmal_port_enable_locked_connected (fuel : nat) (output input : port_id)
    : M MMAL_STATUS_T :=
  match fuel with
  | O => halt out_of_fuel
  | S fuel =>
      run modify (upd_core output
        (Core.set_buffer_header_callback (Some mmal_port_connected_output_cb)));
      (* Output port already locked, lock input port *)
      run LOCK_PORT input;
      (* Disable connected port if its buffer config needs to change *)
      do differs <- gets (fun s =>
        nonzero (Port.is_enabled (port_at s input))
        && (negb (Port.buffer_size (port_at s input) =? Port.buffer_size (port_at s output))
            || negb (Port.buffer_num (port_at s input) =? Port.buffer_num (port_at s output))));
      do status <- (if differs then mmal_port_disable_locked fuel input else ret MMAL_SUCCESS);
      do status <-
        (if negb (is_success status) then ret status else
         (* Ensure the connected port has the same buffer configuration *)
         run modify (fun s =>
           upd_port input (Port.set_buffer_size (Port.buffer_size (port_at s output))) s);
         run modify (fun s =>
           upd_port input (Port.set_buffer_num (Port.buffer_num (port_at s output))) s);
         (* Enable other end of the connection, if not already enabled *)
         do enabled <- gets (fun s => nonzero (Port.is_enabled (port_at s input)));
         do status <- (if enabled then ret status else mmal_port_enable_locked fuel input None);
         if negb (is_success status) then ret status else
         do allocate <- gets (fun s => nonzero (Core.allocate_pool (core_at s output)));
         if negb allocate then ret status else
         (* Decide which port will be used to allocate the pool *)
         do pool_port <- gets (fun s =>
           if nonzero (Z.land (Port.capabilities (port_at s output))
                              (MMAL_PORT_CAPABILITY_ALLOCATION K))
           then output else input);
         (* No need to allocate payload memory for pass-through ports *)
         do buffer_size <- gets (fun s =>
           if nonzero (Z.land (Port.capabilities (port_at s output))
                              (MMAL_PORT_CAPABILITY_PASSTHROUGH K))
           then 0 else Port.buffer_size (port_at s pool_port));
         run UNLOCK_PORT input;
         run (if bool_decide (pool_port = output) then UNLOCK_PORT output else ret tt);
         (* Port pool creation must be done without the lock held *)
         do headers <- gets (fun s => Port.buffer_num (port_at s pool_port));
         do pool <- mmal_port_pool_create pool_port headers buffer_size;
         run (if bool_decide (pool_port = output) then LOCK_PORT output else ret tt);
         run LOCK_PORT input;
         match pool with
         | None => ret MMAL_ENOMEM
         | Some q =>
             run modify (upd_core pool_port (Core.set_pool_for_connection (Some q)));
             do attached <- gets (fun s => Core.pool_for_connection (core_at s pool_port));
             match attached with
             | None => halt null_pointer
             | Some q =>
                 run mmal_pool_callback_set q (Some mmal_port_connected_pool_cb_ptr) (Some output);
                 (* Put the buffers into the output port *)
                 mmal_port_populate_from_pool fuel output q
             end
         end);
      (* finish: at this point, both locks must be held *)
      do undo <- gets (fun s =>
        negb (is_success status) && nonzero (Port.is_enabled (port_at s input)));
      run (if undo then (run mmal_port_disable_locked fuel input; ret tt) else ret tt);
      run UNLOCK_PORT input;
      run (if negb (is_success status)
           then (run mmal_port_disable_locked fuel output; ret tt) else ret tt);
      ret status
  end.

(** Enable processing on a port. *)
Definition mmal_port_enable (fuel : nat) (port : option port_id)
    (cb : option MMAL_PORT_BH_CB_T) : M MMAL_STATUS_T :=
  do v <- gets (fun s => valid_port s port);
  match v with
  | None => ret MMAL_EINVAL
  | Some (p, pr) =>
      match Priv.pf_enable pr with
      | None => ret MMAL_ENOSYS
      | Some _ =>
          run LOCK_PORT p;
          do status <- mmal_port_enable_locked fuel p cb;
          run UNLOCK_PORT p;
          ret status
      end
  end.

(** *** Connection *)

(** Default behaviour when setting up or tearing down a connection to
    another port. *)
Definition mmal_port_connect_default (port : port_id) (other_port : option port_id)
    : M MMAL_STATUS_T :=
  ret MMAL_ENOSYS.

(** A call through a pf_connect slot. *)
Definition call_connect (fn : option pf_connect_fn) (port : port_id)
    (other_port : option port_id) : M MMAL_STATUS_T :=
  match fn with
  | None => halt null_pointer
  | Some mmal_port_connect_default_ptr => mmal_port_connect_default port other_port
  | Some (component_connect f) =>
      call (call_pf_connect (component_connect f) port other_port)
           (run_connect E f port other_port)
  end.

(** Set input_port, output_port or neither to the port, depending on the
    port's type. *)
Definition mmal_port_set_input_or_output (s : State) (port : port_id)
    (io : option port_id * option port_id) : option port_id * option port_id :=
  match Port.type (port_at s port) with
  | MMAL_PORT_TYPE_INPUT => (Some port, snd io)
  | MMAL_PORT_TYPE_OUTPUT => (fst io, Some port)
  | _ => io
  end.

(** Connect an output port to an input port. *)
Definition mmal_port_connect (port other_port : option port_id) : M MMAL_STATUS_T :=
  do v <- gets (fun s => (valid_port s port, valid_port s other_port));
  match v with
  | (Some (p, pr), Some (o, opr)) =>
      if negb (bool_decide (is_Some (Priv.pf_connect pr)))
         || negb (bool_decide (is_Some (Priv.pf_connect opr)))
      then ret MMAL_ENOSYS
      else
        do io <- gets (fun s =>
          mmal_port_set_input_or_output s o
            (mmal_port_set_input_or_output s p (None, None)));
        match io with
        | (Some input_port, Some output_port) =>
            (* Always lock output then input to avoid deadlock *)
            run LOCK_PORT output_port;
            run LOCK_PORT input_port;
            do connected <- gets (fun s =>
              bool_decide (is_Some (Core.connected_port (core_at s p)))
              || bool_decide (is_Some (Core.connected_port (core_at s o))));
            do enabled <- gets (fun s =>
              nonzero (Port.is_enabled (port_at s p))
              || nonzero (Port.is_enabled (port_at s o)));
            do status <-
              (if connected then ret MMAL_EISCONN
               else if enabled then ret MMAL_EINVAL
               else
                 run modify (upd_core p (Core.set_connected_port (Some o)));
                 run modify (upd_core o (Core.set_connected_port (Some p)));
                 run modify (upd_core p (Core.set_core_owns_connection 0));
                 run modify (upd_core o (Core.set_core_owns_connection 0));
                 run modify (upd_core output_port (Core.set_allocate_pool 0));
                 (* Check to see if the port will manage the connection on
                    its own. If not then the core will manage it. *)
                 do fn <- gets (fun s => slot Priv.pf_connect s output_port);
                 do managed <- call_connect fn p (Some o);
                 if is_success managed then ret MMAL_SUCCESS
                 else
                   run modify (upd_core p (Core.set_core_owns_connection 1));
                   run modify (upd_core o (Core.set_core_owns_connection 1));
                   run modify (upd_core output_port (Core.set_allocate_pool 1));
                   ret MMAL_SUCCESS);
            run UNLOCK_PORT input_port;
            run UNLOCK_PORT output_port;
            ret status
        | _ => ret MMAL_EINVAL
        end
  | _ => ret MMAL_EINVAL
  end.

(** *** Events *)

(** The size the FORMAT_CHANGED case computes in a [uint32_t]. *)
Definition format_changed_size : Z :=
  to_uint32 (to_uint32 (sizeof_MMAL_EVENT_FORMAT_CHANGED_T K)
             + (sizeof_MMAL_ES_FORMAT_T K + sizeof_MMAL_ES_SPECIFIC_FORMAT_T K)).

(** The [memset] of [size] zero bytes over the payload of the buffer. *)
Definition memset_payload (b : buf_id) (size : Z) : M unit := fun s =>
  match BH.data (buffer_at s b) with
  | None => Stuck null_pointer
  | Some bytes =>
      Done tt (upd_buffer b (BH.set_data (Some (memset_zero (Z.to_nat size) bytes))) s)
  end.

(** [buffer] is the location the caller passes ([None] for a null pointer)
    with what it holds; the second component of the result is what the
    location holds when the call returns. *)
Definition mmal_port_event_get (port : option port_id) (buffer : option (option buf_id))
    (event : Z) : M (MMAL_STATUS_T * option (option buf_id)) :=
  do v <- gets (fun s => valid_port s port);
  match v, buffer with
  | Some (p, _), Some _ =>
      (* Get an event buffer from our event pool *)
      do event_pool <- gets (fun s =>
        Component.event_pool (component_at s (Port.component (port_at s p))));
      do got <- mmal_queue_get event_pool;
      match got with
      | None => ret (MMAL_ENOSPC, Some None)
      | Some b =>
          run modify (upd_buffer b (BH.set_cmd event));
          run modify (upd_buffer b (BH.set_length 0));
          if event =? MMAL_EVENT_FORMAT_CHANGED K
          then
            let size := format_changed_size in
            do alloc_size <- gets (fun s => BH.alloc_size (buffer_at s b));
            if alloc_size <? size
            then
              (* error: *)
              (run mmal_buffer_header_release b;
               ret (MMAL_ENOSPC, Some None))
            else
              (run memset_payload b size;
               run modify (upd_buffer b (BH.set_length size));
               ret (MMAL_SUCCESS, Some (Some b)))
          else ret (MMAL_SUCCESS, Some (Some b))
      end
  | _, _ => ret (MMAL_EINVAL, buffer)
  end.

(** *** Allocation *)

(** The [error:] exit of [mmal_port_alloc]. *)
Definition mmal_port_alloc_error (port : port_id)
    (lock lock_send lock_transit sema_transit lock_stats : bool) : M (option port_id) :=
  run (if lock then vcos_delete port obj_lock else ret tt);
  run (if lock_send then vcos_delete port obj_send_lock else ret tt);
  run (if lock_transit then vcos_delete port obj_transit_lock else ret tt);
  run (if sema_transit then vcos_delete port obj_transit_sema else ret tt);
  run (if lock_stats then vcos_delete port obj_stats_lock else ret tt);
  do format <- gets (fun s => Port.format (port_at s port));
  run mmal_format_free format;
  run vcos_free port;
  ret None.

(** Allocate a port structure.  [extra_size] is the size of the area of the
    component behind the core structure, which the core does not look
    into. *)
Definition mmal_port_alloc (component : comp_id) (type : MMAL_PORT_TYPE_T)
    (extra_size : Z) : M (option port_id) :=
  do name_size <- gets (fun s =>
    to_uint32 (Z.of_nat (String.length (Component.name (component_at s component)))
               + sizeof_PORT_NAME_FORMAT));
  do mem <- gets (calloc_port E);
  match mem with
  | None => ret None
  | Some port =>
      run modify (fun s => set_ports (<[port := Port.zero]> (ports s)) s);
      run modify (upd_port port (Port.set_type type));
      run modify (upd_port port (Port.set_priv (Some Priv.zero)));
      run modify (upd_port port (Port.set_component component));
      run modify (upd_core port (Core.set_name (Some port)));
      run modify (upd_core port (Core.set_name_size name_size));
      run mmal_port_name_update port;
      run modify (upd_port port (fun p =>
        match Port.priv p with
        | Some pr => Port.set_priv (Some (Priv.set_pf_connect (Some mmal_port_connect_default_ptr) pr)) p
        | None => p
        end));
      do lock <- vcos_create port obj_lock;
      do lock_send <- vcos_create port obj_send_lock;
      do lock_transit <- vcos_create port obj_transit_lock;
      do sema_transit <- vcos_create port obj_transit_sema;
      run (if sema_transit then modify (upd_core port (Core.set_transit_sema 1%nat)) else ret tt);
      do lock_stats <- vcos_create port obj_stats_lock;
      if negb lock || negb lock_send || negb lock_transit || negb sema_transit || negb lock_stats
      then mmal_port_alloc_error port lock lock_send lock_transit sema_transit lock_stats
      else
        do format <- mmal_format_alloc;
        run modify (upd_port port (Port.set_format format));
        match format with
        | None => mmal_port_alloc_error port lock lock_send lock_transit sema_transit lock_stats
        | Some _ =>
            run modify (upd_core port (Core.set_format_ptr_copy format));
            ret (Some port)
        end
  end.

(** Free a port structure. *)
Definition mmal_port_free (port : option port_id) : M unit :=
  match port with
  | None => ret tt
  | Some p =>
      (* vcos_assert(port->format == port->priv->core->format_ptr_copy) *)
      do copy <- gets (fun s => Core.format_ptr_copy (core_at s p));
      run mmal_format_free copy;
      run vcos_delete p obj_transit_sema;
      run vcos_delete p obj_transit_lock;
      run vcos_delete p obj_send_lock;
      run vcos_delete p obj_lock;
      vcos_free p
  end.

(** *** Disconnection *)

(** Disconnect a connected port. *)
Definition mmal_port_disconnect (fuel : nat) (port : option port_id) : M MMAL_STATUS_T :=
  do v <- gets (fun s => valid_port s port);
  match v with
  | None => ret MMAL_EINVAL
  | Some (p, _) =>
      run LOCK_PORT p;
      do connected <- gets (fun s => Core.connected_port (core_at s p));
      match connected with
      | None => (run UNLOCK_PORT p; ret MMAL_ENOTCONN)
      | Some other_port =>
          do enabled <- gets (fun s => nonzero (Port.is_enabled (port_at s p)));
          do status <-
            (if enabled
             then
               do status <- mmal_port_disable_locked fuel p;
               if negb (is_success status) then ret status else
               do pool <- gets (fun s => Core.pool_for_connection (core_at s p));
               run match pool with
                   | Some q => mmal_pool_destroy q
                   | None => ret tt
                   end;
               run modify (upd_core p (Core.set_pool_for_connection None));
               ret status
             else ret MMAL_SUCCESS);
          do status <-
            (if negb (is_success status) then ret status else
             do owned <- gets (fun s => nonzero (Core.core_owns_connection (core_at s p)));
             do status <-
               (if owned then ret status
                else
                  do fn <- gets (fun s => slot Priv.pf_connect s p);
                  call_connect fn p None);
             if negb (is_success status) then ret status else
             run modify (upd_core p (Core.set_connected_port None));
             do other_priv <- gets (fun s => Port.priv (port_at s other_port));
             match other_priv with
             | None => halt null_pointer
             | Some _ =>
                 run modify (upd_core other_port (Core.set_connected_port None));
                 ret status
             end);
          run UNLOCK_PORT p;
          ret status
      end
  end.

(** *** The return path of buffers *)

Variable C : Collaborators.

(** Connected input port buffer callback. *)
Definition connected_input_cb (port : port_id) (buffer : buf_id) : M unit :=
  (* Simply release buffer back into pool for re-use *)
  mmal_buffer_header_release buffer.

(** Connected output port buffer callback. *)
Definition connected_output_cb (port : port_id) (buffer : buf_id) : M unit :=
  do connected_port <- gets (fun s => Core.connected_port (core_at s port));
  do cmd <- gets (fun s => BH.cmd (buffer_at s buffer));
  if nonzero cmd
  then
    do event <- gets (event_format_changed_get C buffer);
    match event with
    | Some event_format =>
        (* Apply the change *)
        do format <- gets (fun s => Port.format (port_at s port));
        do status <- (fun s =>
          let '(st, s') := format_full_copy C format event_format s in Done st s');
        do status <-
          (if is_success status then mmal_port_format_commit (Some port) else ret status);
        (* Forward to the connected port *)
        do status <-
          (if is_success status
           then mmal_port_send_buffer connected_port buffer else ret status);
        if negb (is_success status)
        then
          do component <- gets (fun s => Port.component (port_at s port));
          run modify (event_error_send C component status);
          mmal_buffer_header_release buffer
        else ret tt
    | None =>
        (* Release other event buffers *)
        mmal_buffer_header_release buffer
    end
  else
    do enabled <- gets (fun s => nonzero (Port.is_enabled (port_at s port)));
    if enabled
    then
      (* Forward data buffers to the connected input port *)
      do status <- mmal_port_send_buffer connected_port buffer;
      if negb (is_success status)
      then
        (* connected_port->name is read for the error message *)
        match connected_port with
        | None => halt null_pointer
        | Some _ => mmal_buffer_header_release buffer
        end
      else ret tt
    else
      (* This port is disabled. Buffer will be a flushed buffer, so return
         to the pool rather than delivering it. *)
      mmal_buffer_header_release buffer.

(** A call through [port->priv->core->buffer_header_callback]. *)
Definition call_buffer_header_callback (cb : option MMAL_PORT_BH_CB_T)
    (port : port_id) (buffer : buf_id) : M unit :=
  match cb with
  | None => halt null_pointer
  | Some (client_cb f) => modify (run_client_cb C f port buffer)
  | Some mmal_port_connected_input_cb => connected_input_cb port buffer
  | Some mmal_port_connected_output_cb => connected_output_cb port buffer
  end.

(** Buffer header callback. *)
Definition mmal_port_buffer_header_callback (port : port_id) (buffer : buf_id) : M unit :=
  run IN_TRANSIT_DECREMENT port;
  (* vcos_verify(IN_TRANSIT_COUNT(port) >= 0) only logs *)
  run (if MMAL_COLLECT_PORT_STATS_ENABLED C
       then mmal_port_update_port_stats port MMAL_CORE_STATS_TX
       else ret tt);
  do cb <- gets (fun s => Core.buffer_header_callback (core_at s port));
  call_buffer_header_callback cb port buffer.

(** Event callback. *)
Definition mmal_port_event_send (port : port_id) (buffer : buf_id) : M unit :=
  do cb <- gets (fun s => Core.buffer_header_callback (core_at s port));
  match cb with
  | Some _ =>
      do cb <- gets (fun s => Core.buffer_header_callback (core_at s port));
      call_buffer_header_callback cb port buffer
  | None => mmal_buffer_header_release buffer
  end.

End PortCore.

(** ** A sample environment and sample stores

    Used to run the functions on concrete inputs. *)

Definition sample_constants : Constants :=
  mkConstants 1 2 1212368453 19 8 100 60.

(** Component functions, by address: the function at 0 succeeds, the one at
    1 fails with [MMAL_EIO], every other one reports [MMAL_ENOSYS]; none of
    them touches the store. *)
Definition sample_status (f : code_ptr) : MMAL_STATUS_T :=
  match f with
  | O => MMAL_SUCCESS
  | S O => MMAL_EIO
  | _ => MMAL_ENOSYS
  end.

Definition sample_externals : Externals :=
  mkExternals
    (fun f _ s => (sample_status f, s))
    (fun f _ _ s => (sample_status f, s))
    (fun f _ s => (sample_status f, s))
    (fun f _ _ s => (sample_status f, s))
    (fun f _ _ s => (sample_status f, s))
    (fun f _ prm s => ((sample_status f, prm), s))
    (fun f _ _ s => (sample_status f, s))
    (fun _ s => s)
    (fun _ _ _ s => (None, s))
    (fun q s => set_pools (delete q (pools s)) s)
    (fun s => 1000 * Z.of_nat (Datatypes.length (trace s)))
    (fun s => Some (10 + size (ports s))%nat)
    (fun _ _ _ => true)
    (fun s => Some (100 + size (formats s))%nat)
    (fun _ component role _ _ => (component ++ ":" ++ role)%string).

Definition sample_core (p : port_id) : Core.t :=
  Core.mk None 0 1%nat (Some 100%nat) None 0 0 None
    (mkPortStats (mkStats 3 10 30 15) (mkStats 2 12 28 16)) (Some p) 30.

(** A vtable with every function of the component at address [f]. *)
Definition sample_priv (f : code_ptr) (c : Core.t) : Priv.t :=
  Priv.mk c (Some f) (Some f) (Some f) (Some f) (Some f) (Some f)
    (Some mmal_port_connect_default_ptr).

(** A vtable with the connect slot only, as [mmal_port_alloc] leaves it. *)
Definition bare_priv (c : Core.t) : Priv.t :=
  Priv.mk c None None None None None None (Some mmal_port_connect_default_ptr).

Definition sample_port (pr : Priv.t) (t : MMAL_PORT_TYPE_T) (enabled num size : Z) : Port.t :=
  Port.mk (Some pr) "c:port" t 0 enabled (Some 100%nat) 2 1024 num size 0%nat 0.

Definition sample_buffer : BH.t :=
  BH.mk 7 (Some (replicate 200 255)) 200 5 1 2 3 4.

Definition small_buffer : BH.t :=
  BH.mk 7 (Some (replicate 16 255)) 16 5 1 2 3 4.

(** Port 1 is an output, port 2 an input, port 3 an output with an empty
    vtable, port 4 an enabled output whose functions fail, port 5 an input
    whose functions report [MMAL_ENOSYS]; buffer 7 has a payload of 200
    bytes, buffer 8 one of 16 bytes; pool 0 is the event pool of
    component 0. *)
Definition sample_state (enabled1 enabled2 : Z) (queue : list buf_id) : State :=
  mkState
    {[ 1%nat := sample_port (sample_priv 0%nat (sample_core 1%nat)) MMAL_PORT_TYPE_OUTPUT enabled1 3 2048;
       2%nat := sample_port (sample_priv 0%nat (sample_core 2%nat)) MMAL_PORT_TYPE_INPUT enabled2 5 4096;
       3%nat := sample_port (bare_priv (sample_core 3%nat)) MMAL_PORT_TYPE_OUTPUT 0 3 2048;
       4%nat := sample_port (sample_priv 1%nat (sample_core 4%nat)) MMAL_PORT_TYPE_OUTPUT 1 3 2048;
       5%nat := sample_port (sample_priv 2%nat (sample_core 5%nat)) MMAL_PORT_TYPE_INPUT 0 3 2048 ]}
    {[ 7%nat := sample_buffer; 8%nat := small_buffer ]}
    {[ 0%nat := Pool.mk queue None None ]}
    {[ 0%nat := Component.mk "c" [1%nat] 0%nat ]}
    {[ 100%nat := Format.zero ]}
    []
    [].

(** The sample store with port 1 connected to port 2 and back. *)
Definition connected_state (enabled1 enabled2 : Z) : State :=
  upd_core 2%nat (Core.set_connected_port (Some 1%nat))
    (upd_core 1%nat (Core.set_connected_port (Some 2%nat))
       (sample_state enabled1 enabled2 [])).

(** The sample environment with a format allocator that is out of memory. *)
Definition no_format_externals : Externals :=
  mkExternals
    (run_set_format sample_externals) (run_enable sample_externals)
    (run_disable sample_externals) (run_send sample_externals)
    (run_parameter_set sample_externals) (run_parameter_get sample_externals)
    (run_connect sample_externals) (buffer_header_release sample_externals)
    (port_pool_create sample_externals) (pool_destroy sample_externals)
    (getmicrosecs sample_externals) (calloc_port sample_externals)
    (create_succeeds sample_externals) (fun _ => None)
    (snprintf_port_name sample_externals).

(** A CORE_STATISTICS request for the RX direction with the reset flag. *)
Definition rx_reset_request : Param.t :=
  Param.mk (MMAL_PARAMETER_CORE_STATISTICS sample_constants) 0 MMAL_CORE_STATS_RX 1 stats_zero.

(** The same for the TX direction. *)
Definition tx_reset_request : Param.t :=
  Param.mk (MMAL_PARAMETER_CORE_STATISTICS sample_constants) 0 MMAL_CORE_STATS_TX 1 stats_zero.

(** Port 4 disabled, with one buffer of 512 bytes (both below its minima),
    and connected to port 2. *)
Definition below_minima_state : State :=
  upd_core 4%nat (Core.set_connected_port (Some 2%nat))
    (upd_port 4%nat (fun x =>
       Port.set_is_enabled 0 (Port.set_buffer_size 512 (Port.set_buffer_num 1 x)))
       (sample_state 0 0 [])).

(** Port 1 with a format pointer that was overwritten. *)
Definition clobbered_state : State :=
  upd_port 1%nat (Port.set_format (Some 5%nat)) (sample_state 0 0 []).

(** Port 5 with a null connect slot. *)
Definition no_connect_state : State :=
  upd_port 5%nat (Port.set_priv (Some (Priv.set_pf_connect None
                                         (sample_priv 2%nat (sample_core 5%nat)))))
    (sample_state 0 0 []).

(** ** Conditions the statements below refer to *)

(** One of the two ports is an input and the other an output. *)
Definition one_input_one_output (s : State) (a b : port_id) : Prop :=
  (Port.type (port_at s a) = MMAL_PORT_TYPE_INPUT
   /\ Port.type (port_at s b) = MMAL_PORT_TYPE_OUTPUT)
  \/ (Port.type (port_at s a) = MMAL_PORT_TYPE_OUTPUT
      /\ Port.type (port_at s b) = MMAL_PORT_TYPE_INPUT).

(** Step 1 of enable in the words of the spec: the port adopts "the maximum
    of peer vs self for buffer_num and buffer_size".  Compared with
    [adopt_maxima] below. *)
Definition with_maxima (port connected_port : port_id) (s : State) : State :=
  let peer := port_at s connected_port in
  upd_port port (fun x =>
    Port.set_buffer_size (Z.max (Port.buffer_size x) (Port.buffer_size peer))
      (Port.set_buffer_num (Z.max (Port.buffer_num x) (Port.buffer_num peer)) x)) s.

(** The header fields [mmal_port_connected_pool_cb] resets, all at once. *)
Definition reset_header (h : BH.t) : BH.t :=
  BH.mk 0 (BH.data h) (BH.alloc_size h) 0 0 0 0 0.

(** The event pool [mmal_port_event_get] draws from. *)
Definition event_pool_of (s : State) (p : port_id) : pool_id :=
  Component.event_pool (component_at s (Port.component (port_at s p))).

(** The store after [IN_TRANSIT_INCREMENT] went through: the counter is
    incremented and the semaphore is claimed on the 0-to-1 transition. *)
Definition in_transit_claimed (p : port_id) (s : State) : State :=
  let n := IN_TRANSIT_COUNT s p in
  upd_core p (fun c =>
    Core.set_transit_sema
      (if n =? 0 then pred (Core.transit_sema c) else Core.transit_sema c)
      (Core.set_transit_buffer_headers (to_int32 (n + 1)) c)) s.

(** The store [pf_send] is called on when [mmal_port_send_buffer] reaches
    the call: the length of a buffer sent to an output is reset, and the
    buffer is counted as in transit. *)
Definition at_send_hook (p : port_id) (b : buf_id) (s : State) : State :=
  in_transit_claimed p
    (if is_output (Port.type (port_at s p)) && nonzero (BH.length (buffer_at s b))
     then upd_buffer b (BH.set_length 0) s
     else s).

(** The in-transit accounting is balanced: the counter is not negative, and
    the semaphore is available exactly when no buffer is in transit. *)
Definition transit_balanced (s : State) (p : port_id) : Prop :=
  0 <= IN_TRANSIT_COUNT s p
  /\ Core.transit_sema (core_at s p)
     = (if IN_TRANSIT_COUNT s p =? 0 then 1%nat else 0%nat).

(** The store after [IN_TRANSIT_DECREMENT] went through: the counter is
    decremented and the semaphore is posted when it reaches 0. *)
Definition in_transit_returned (p : port_id) (s : State) : State :=
  let n := to_int32 (IN_TRANSIT_COUNT s p - 1) in
  upd_core p (fun c =>
    Core.set_transit_sema
      (if n =? 0 then S (Core.transit_sema c) else Core.transit_sema c)
      (Core.set_transit_buffer_headers n c)) s.

(** The store [pf_disable] is called on when [mmal_port_disable_locked]
    reaches the call: the port is marked disabled and the callback of its
    connection pool, when it has one, is cleared. *)
Definition at_disable_hook (p : port_id) (s : State) : State :=
  let s1 := upd_port p (Port.set_is_enabled 0) s in
  match Core.pool_for_connection (core_at s1 p) with
  | Some q => upd_pool q (Pool.set_callback None None) s1
  | None => s1
  end.




(** The two ends of a connection with their pointers cleared. *)
Definition connection_cleared (a b : port_id) (s : State) : State :=
  upd_core b (Core.set_connected_port None)
    (upd_core a (Core.set_connected_port None) s).


(** Sample collaborators of the buffer return path: statistics are
    collected; the client callback at address [f] marks the buffer by
    writing [f] to its flags; an event buffer carries format 100 when its
    command is FORMAT_CHANGED; copying a format succeeds and error events
    are dropped, both without a change of the store. *)
Definition sample_collaborators : Collaborators :=
  mkCollaborators true
    (fun f _ b s => upd_buffer b (BH.set_flags (Z.of_nat f)) s)
    (fun b s =>
       if BH.cmd (buffer_at s b) =? MMAL_EVENT_FORMAT_CHANGED sample_constants
       then Some 100%nat else None)
    (fun _ _ s => (MMAL_SUCCESS, s))
    (fun _ _ s => s).

(** A port whose buffer settings meet its minima. *)
Definition meets_minima (x : Port.t) : Prop :=
  Port.buffer_num_min x <= Port.buffer_num x
  /\ Port.buffer_size_min x <= Port.buffer_size x.

(** * Properties *)

(** ** Reading after writing *)

Lemma to_int32_id (z : Z) : is_int32 z -> to_int32 z = z.
Proof.
  unfold is_int32, to_int32. intros H.
  rewrite Z.mod_small by lia. lia.
Qed.

Lemma to_int32_round_trip (z : Z) : is_int32 z -> to_int32 (to_int32 (z + 1) - 1) = z.
Proof.
  unfold is_int32, to_int32. intros H.
  destruct (Z.eq_dec z (2 ^ 31 - 1)) as [-> | Hne].
  - reflexivity.
  - rewrite (Z.mod_small (z + 1 + 2 ^ 31)) by lia.
    replace (z + 1 + 2 ^ 31 - 2 ^ 31 - 1 + 2 ^ 31) with (z + 2 ^ 31) by lia.
    rewrite Z.mod_small by lia. lia.
Qed.

Lemma to_uint32_id (z : Z) : is_uint32 z -> to_uint32 z = z.
Proof. unfold is_uint32, to_uint32. intros H. apply Z.mod_small. lia. Qed.

Lemma nonzero_false (z : Z) : nonzero z = false <-> z = 0.
Proof.
  unfold nonzero. destruct (Z.eqb_spec z 0); simpl; split; congruence.
Qed.

Lemma nonzero_true (z : Z) : nonzero z = true <-> z <> 0.
Proof.
  unfold nonzero. destruct (Z.eqb_spec z 0); simpl; split; congruence.
Qed.

(** A port with a private structure is in the store. *)
Lemma priv_allocated (s : State) (p : port_id) (pr : Priv.t) :
  Port.priv (port_at s p) = Some pr -> ports s !! p = Some (port_at s p).
Proof.
  unfold port_at. destruct (ports s !! p); simpl; [reflexivity | discriminate].
Qed.

Lemma port_at_upd_port (s : State) (p q : port_id) (f : Port.t -> Port.t) :
  port_at (upd_port p f s) q =
  if decide (p = q)
  then match ports s !! p with Some x => f x | None => Port.zero end
  else port_at s q.
Proof.
  unfold port_at, upd_port. simpl. rewrite lookup_alter.
  destruct (decide (p = q)) as [-> | Hne]; [| reflexivity].
  destruct (ports s !! q); reflexivity.
Qed.

Lemma port_at_upd_port_eq (s : State) (p : port_id) (pr : Priv.t) (f : Port.t -> Port.t) :
  Port.priv (port_at s p) = Some pr ->
  port_at (upd_port p f s) p = f (port_at s p).
Proof.
  intros H. rewrite port_at_upd_port, (priv_allocated _ _ _ H).
  destruct (decide (p = p)); [reflexivity | congruence].
Qed.

Lemma port_at_upd_port_ne (s : State) (p q : port_id) (f : Port.t -> Port.t) :
  p <> q -> port_at (upd_port p f s) q = port_at s q.
Proof.
  intros H. rewrite port_at_upd_port. destruct (decide (p = q)); [congruence | reflexivity].
Qed.

(** A field that an update of a port leaves alone reads the same
    afterwards, whichever port is read. *)
Lemma port_field_upd_port {A} (g : Port.t -> A) (f : Port.t -> Port.t)
    (s : State) (p q : port_id) :
  (forall x, g (f x) = g x) ->
  g (port_at (upd_port p f s) q) = g (port_at s q).
Proof.
  intros Hg. rewrite port_at_upd_port.
  destruct (decide (p = q)) as [-> | Hne]; [| reflexivity].
  unfold port_at. destruct (ports s !! q); simpl; [apply Hg | reflexivity].
Qed.

Lemma core_at_upd_core_eq (s : State) (p : port_id) (pr : Priv.t) (f : Core.t -> Core.t) :
  Port.priv (port_at s p) = Some pr ->
  core_at (upd_core p f s) p = f (core_at s p).
Proof.
  intros H. unfold core_at, upd_core.
  rewrite (port_at_upd_port_eq _ _ _ _ H).
  unfold Port.core, Port.upd_core. rewrite H. reflexivity.
Qed.

Lemma core_at_upd_core_ne (s : State) (p q : port_id) (f : Core.t -> Core.t) :
  p <> q -> core_at (upd_core p f s) q = core_at s q.
Proof.
  intros H. unfold core_at, upd_core. rewrite port_at_upd_port_ne by assumption.
  reflexivity.
Qed.

(** An assignment through the core leaves the public fields and the vtable
    of every port alone. *)
Lemma upd_core_public {A} (g : Port.t -> A) (f : Core.t -> Core.t) :
  (forall x v, g (Port.set_priv v x) = g x) ->
  forall x, g (Port.upd_core f x) = g x.
Proof.
  intros Hg x. unfold Port.upd_core. destruct (Port.priv x); [apply Hg | reflexivity].
Qed.

Lemma slot_upd_core {A} (g : Priv.t -> option A) (f : Core.t -> Core.t)
    (s : State) (p q : port_id) :
  (forall c x, g (Priv.set_core c x) = g x) ->
  slot g (upd_core p f s) q = slot g s q.
Proof.
  intros Hg. unfold slot, upd_core. rewrite port_at_upd_port.
  destruct (decide (p = q)) as [-> | Hne]; [| reflexivity].
  unfold port_at. destruct (ports s !! q) as [x |]; simpl; [| reflexivity].
  unfold Port.upd_core. destruct (Port.priv x) eqn:Hx; simpl; [apply Hg |].
  rewrite Hx. reflexivity.
Qed.

Lemma priv_upd_core (f : Core.t -> Core.t) (s : State) (p : port_id) (pr : Priv.t) :
  Port.priv (port_at s p) = Some pr ->
  Port.priv (port_at (upd_core p f s) p) = Some (Priv.set_core (f (Priv.core pr)) pr).
Proof.
  intros H. unfold upd_core. rewrite (port_at_upd_port_eq _ _ _ _ H).
  unfold Port.upd_core. rewrite H. reflexivity.
Qed.

Lemma buffer_at_upd_buffer (s : State) (b c : buf_id) (f : BH.t -> BH.t) :
  buffer_at (upd_buffer b f s) c =
  if decide (b = c)
  then match buffers s !! b with Some x => f x | None => BH.zero end
  else buffer_at s c.
Proof.
  unfold buffer_at, upd_buffer. simpl. rewrite lookup_alter.
  destruct (decide (b = c)) as [-> | Hne]; [| reflexivity].
  destruct (buffers s !! c); reflexivity.
Qed.

(** ** Running the definitions *)

Ltac run_steps :=
  repeat progress
    (unfold LOCK_PORT, UNLOCK_PORT, LOCK_SENDING, UNLOCK_SENDING,
       vcos_mutex_lock, vcos_mutex_unlock, mmal_component_action_lock,
       mmal_component_action_unlock, bind, gets, ret, modify, halt;
     cbn beta iota).

(** ** Updates of the store *)

Lemma set_ports_same (s : State) : set_ports (ports s) s = s.
Proof. destruct s; reflexivity. Qed.

Lemma upd_port_id (s : State) (p : port_id) (f : Port.t -> Port.t) :
  (forall x, ports s !! p = Some x -> f x = x) -> upd_port p f s = s.
Proof.
  intros H. unfold upd_port. rewrite alter_id by assumption. apply set_ports_same.
Qed.

Lemma upd_port_ext (s : State) (p : port_id) (f g : Port.t -> Port.t) :
  (forall x, ports s !! p = Some x -> f x = g x) -> upd_port p f s = upd_port p g s.
Proof.
  intros H. unfold upd_port. f_equal. apply map_eq. intros i.
  rewrite !lookup_alter. destruct (decide (p = i)) as [-> | ]; [| reflexivity].
  destruct (ports s !! i) eqn:Hi; simpl; [f_equal; auto | reflexivity].
Qed.

Lemma upd_port_compose (s : State) (p : port_id) (f g : Port.t -> Port.t) :
  upd_port p f (upd_port p g s) = upd_port p (fun x => f (g x)) s.
Proof.
  unfold upd_port. simpl. unfold set_ports. simpl. f_equal.
  apply alter_alter_eq.
Qed.

(** ** Enable *)

Ltac port_eta s port x Hx :=
  let E := fresh in
  assert (port_at s port = x) as E by (unfold port_at; rewrite Hx; reflexivity);
  rewrite <- E; clear E;
  destruct (port_at s port); cbn in *;
  unfold Port.set_buffer_size, Port.set_buffer_num; cbn.

Lemma adopt_maxima_spec (port cp : port_id) (s : State) :
  adopt_maxima port cp s = Done tt (with_maxima port cp s).
Proof.
  unfold adopt_maxima, with_maxima. run_steps. f_equal.
  destruct (Port.buffer_num (port_at s cp) >? Port.buffer_num (port_at s port)) eqn:Hn;
    rewrite Z.gtb_ltb in Hn;
    [apply Z.ltb_lt in Hn; rewrite !(port_field_upd_port Port.buffer_size) by (intros []; reflexivity)
    | apply Z.ltb_ge in Hn];
    (destruct (Port.buffer_size (port_at s cp) >? Port.buffer_size (port_at s port)) eqn:Hs;
     rewrite Z.gtb_ltb in Hs; [apply Z.ltb_lt in Hs | apply Z.ltb_ge in Hs]).
  - rewrite upd_port_compose. apply upd_port_ext. intros x Hx.
    port_eta s port x Hx. f_equal; lia.
  - apply upd_port_ext. intros x Hx. port_eta s port x Hx. f_equal; lia.
  - apply upd_port_ext. intros x Hx. port_eta s port x Hx. f_equal; lia.
  - symmetry. apply upd_port_id. intros x Hx. port_eta s port x Hx. f_equal; lia.
Qed.

(** The rejections of [mmal_port_enable_locked]. *)
Lemma enable_locked_rejects (K : Constants) (E : Externals) (fuel : nat)
    (s : State) (port : port_id) (cb : option MMAL_PORT_BH_CB_T)
    (H : Port.is_enabled (port_at s port) <> 0
         \/ (is_Some (Core.connected_port (core_at s port)) /\ is_Some cb)
         \/ (Core.connected_port (core_at s port) = None /\ cb = None)) :
  exists s',
    mmal_port_enable_locked K E (S fuel) port cb s = Done MMAL_EINVAL s'
    /\ trace s' = trace s
    /\ Port.is_enabled (port_at s' port) = Port.is_enabled (port_at s port)
    /\ Core.buffer_header_callback (core_at s' port)
       = Core.buffer_header_callback (core_at s port)
    /\ (Port.is_enabled (port_at s port) <> 0 -> s' = s).
Proof.
  cbn [mmal_port_enable_locked]. run_steps.
  destruct (nonzero (Port.is_enabled (port_at s port))) eqn:Hen.
  { exists s. repeat split; reflexivity. }
  apply nonzero_false in Hen.
  destruct H as [H | H]; [congruence |].
  assert (Hxor : Bool.eqb (negb (bool_decide (is_Some (Core.connected_port (core_at s port)))))
                          (negb (bool_decide (is_Some cb))) = true).
  { destruct H as [[H1 H2] | [H1 H2]].
    - rewrite !bool_decide_eq_true_2 by assumption. reflexivity.
    - rewrite H1, H2. reflexivity. }
  set (s1 := match Core.connected_port (core_at s port) with
             | Some cp => if is_output (Port.type (port_at s port))
                          then with_maxima port cp s else s
             | None => s
             end).
  assert (Hs1 : trace s1 = trace s
                /\ Port.is_enabled (port_at s1 port) = Port.is_enabled (port_at s port)
                /\ Core.buffer_header_callback (core_at s1 port)
                   = Core.buffer_header_callback (core_at s port)).
  { subst s1. destruct (Core.connected_port (core_at s port)); [| repeat split; reflexivity].
    destruct (is_output (Port.type (port_at s port))); [| repeat split; reflexivity].
    unfold with_maxima, core_at. repeat split.
    - apply (port_field_upd_port Port.is_enabled). intros []; reflexivity.
    - apply (port_field_upd_port (fun x => Core.buffer_header_callback (Port.core x))).
      intros []; reflexivity. }
  exists s1. split; [| split; [apply Hs1 | split; [apply Hs1 | split; [apply Hs1 | congruence]]]].
  subst s1.
  destruct (Core.connected_port (core_at s port)) as [cp |];
    [destruct (is_output (Port.type (port_at s port))); [rewrite adopt_maxima_spec |] |];
    cbn beta iota;
    repeat match goal with
           | |- context [if ?c <? ?d then _ else _] => destruct (c <? d)
           end;
    try reflexivity; rewrite Hxor; reflexivity.
Qed.

(** [mmal_port_enable] on a port that has an enable hook is
    [mmal_port_enable_locked] between the lock and the unlock. *)
Lemma enable_run (K : Constants) (E : Externals) (fuel : nat) (s : State)
    (p : port_id) (pr : Priv.t) (f : code_ptr) (cb : option MMAL_PORT_BH_CB_T) :
  Port.priv (port_at s p) = Some pr ->
  Priv.pf_enable pr = Some f ->
  mmal_port_enable K E fuel (Some p) cb s = mmal_port_enable_locked K E fuel p cb s.
Proof.
  intros Hpriv Hhook. unfold mmal_port_enable. run_steps.
  unfold valid_port. rewrite Hpriv. cbn beta iota. rewrite Hhook. cbn beta iota.
  run_steps. destruct (mmal_port_enable_locked K E fuel p cb s); reflexivity.
Qed.

(** Claim C2, as amended.  On a port that has an enable hook,
    [mmal_port_enable] returns [MMAL_EINVAL] when the port is already
    enabled, when it has a connected port and a callback is given, and when
    it has no connected port and no callback is given; it is the result of
    [mmal_port_enable_locked].  In each case no call is added to the trace
    (the enable hook is not called), [is_enabled] and the stored callback
    keep their values, and an already enabled port leaves the whole store as
    it was. *)
Theorem enable_rejections (K : Constants) (E : Externals) (fuel : nat)
    (s : State) (port : port_id) (pr : Priv.t) (f : code_ptr)
    (cb : option MMAL_PORT_BH_CB_T)
    (Hpriv : Port.priv (port_at s port) = Some pr)
    (Hhook : Priv.pf_enable pr = Some f)
    (H : Port.is_enabled (port_at s port) <> 0
         \/ (is_Some (Core.connected_port (core_at s port)) /\ is_Some cb)
         \/ (Core.connected_port (core_at s port) = None /\ cb = None)) :
  exists s',
    mmal_port_enable K E (S fuel) (Some port) cb s = Done MMAL_EINVAL s'
    /\ mmal_port_enable_locked K E (S fuel) port cb s = Done MMAL_EINVAL s'
    /\ trace s' = trace s
    /\ Port.is_enabled (port_at s' port) = Port.is_enabled (port_at s port)
    /\ Core.buffer_header_callback (core_at s' port)
       = Core.buffer_header_callback (core_at s port)
    /\ (Port.is_enabled (port_at s port) <> 0 -> s' = s).
Proof.
  destruct (enable_locked_rejects K E fuel s port cb H) as (s' & H1 & H2 & H3 & H4 & H5).
  exists s'. rewrite (enable_run K E (S fuel) s port pr f cb Hpriv Hhook).
  repeat split; assumption.
Qed.

Lemma typed_allocated (s : State) (p : port_id) :
  Port.type (port_at s p) <> MMAL_PORT_TYPE_UNKNOWN -> ports s !! p = Some (port_at s p).
Proof.
  unfold port_at. destruct (ports s !! p); simpl; [reflexivity | congruence].
Qed.

(** Claim C5, as amended.  When [mmal_port_enable] is called on an output
    port that has an enable hook, is not yet enabled and has a connected
    port, [buffer_num] and [buffer_size] are first replaced by the maxima of
    the port's and the peer's values ([with_maxima]); the two checks against
    the minima are made on these values, each failure returning
    [MMAL_EINVAL]; and when both pass, the enable hook runs on the store
    with the maxima in place. *)
Theorem enable_checks_after_adoption (K : Constants) (E : Externals) (fuel : nat)
    (s : State) (port cp : port_id) (pr : Priv.t) (f : code_ptr)
    (cb : option MMAL_PORT_BH_CB_T)
    (Hpriv : Port.priv (port_at s port) = Some pr)
    (Hhook : Priv.pf_enable pr = Some f)
    (Hout : Port.type (port_at s port) = MMAL_PORT_TYPE_OUTPUT)
    (Hcon : Core.connected_port (core_at s port) = Some cp)
    (Hdis : Port.is_enabled (port_at s port) = 0) :
  let num := Z.max (Port.buffer_num (port_at s port)) (Port.buffer_num (port_at s cp)) in
  let size := Z.max (Port.buffer_size (port_at s port)) (Port.buffer_size (port_at s cp)) in
  let s1 := with_maxima port cp s in
  Port.buffer_num (port_at s1 port) = num
  /\ Port.buffer_size (port_at s1 port) = size
  /\ (num < Port.buffer_num_min (port_at s port) ->
      mmal_port_enable K E (S fuel) (Some port) cb s = Done MMAL_EINVAL s1)
  /\ (Port.buffer_num_min (port_at s port) <= num ->
      size < Port.buffer_size_min (port_at s port) ->
      mmal_port_enable K E (S fuel) (Some port) cb s = Done MMAL_EINVAL s1)
  /\ (Port.buffer_num_min (port_at s port) <= num ->
      Port.buffer_size_min (port_at s port) <= size ->
      cb = None ->
      let r := run_enable E f port None
                 (upd_core port (Core.set_buffer_header_callback None) s1) in
      fst r <> MMAL_SUCCESS ->
      mmal_port_enable K E (S fuel) (Some port) cb s
      = Done (fst r) (set_trace (call_pf_enable f port None :: trace s) (snd r))).
Proof.
  intros num size s1.
  assert (Hf : slot Priv.pf_enable s port = Some f).
  { unfold slot. rewrite Hpriv. exact Hhook. }
  assert (Halloc : ports s !! port = Some (port_at s port)).
  { apply typed_allocated. rewrite Hout. discriminate. }
  assert (Hp1 : port_at s1 port =
                Port.set_buffer_size size (Port.set_buffer_num num (port_at s port))).
  { subst s1. unfold with_maxima. rewrite port_at_upd_port, Halloc.
    destruct (decide (port = port)); [reflexivity | congruence]. }
  split; [rewrite Hp1; reflexivity |].
  split; [rewrite Hp1; reflexivity |].
  rewrite (enable_run K E (S fuel) s port pr f cb Hpriv Hhook).
  cbn [mmal_port_enable_locked]. run_steps.
  rewrite Hcon, Hdis. change (nonzero 0) with false. cbn beta iota.
  rewrite Hout. change (is_output MMAL_PORT_TYPE_OUTPUT) with true. cbn beta iota.
  rewrite adopt_maxima_spec. cbn beta iota.
  fold s1.
  assert (Hn : Port.buffer_num (port_at s1 port) = num) by (rewrite Hp1; reflexivity).
  assert (Hz : Port.buffer_size (port_at s1 port) = size) by (rewrite Hp1; reflexivity).
  assert (Hnm : Port.buffer_num_min (port_at s1 port) = Port.buffer_num_min (port_at s port))
    by (rewrite Hp1; reflexivity).
  assert (Hzm : Port.buffer_size_min (port_at s1 port) = Port.buffer_size_min (port_at s port))
    by (rewrite Hp1; reflexivity).
  rewrite Hn, Hnm.
  repeat split.
  - intros Hlt. apply Z.ltb_lt in Hlt. rewrite Hlt. reflexivity.
  - intros Hge Hlt. apply Z.ltb_ge in Hge. apply Z.ltb_lt in Hlt.
    rewrite Hge. cbn beta iota. rewrite Hz, Hzm, Hlt. reflexivity.
  - intros Hge1 Hge2 -> Hr. apply Z.ltb_ge in Hge1, Hge2.
    rewrite Hge1. cbn beta iota. rewrite Hz, Hzm, Hge2. cbn beta iota.
    rewrite bool_decide_eq_true_2 by (eexists; reflexivity).
    rewrite bool_decide_eq_false_2 by (intros [? ?]; discriminate).
    cbn [negb eqb]. cbn beta iota.
    unfold call_enable, call. run_steps.
    rewrite slot_upd_core by reflexivity.
    assert (Hf1 : slot Priv.pf_enable s1 port = Some f).
    { subst s1. unfold with_maxima, slot.
      rewrite (port_field_upd_port Port.priv) by (intros []; reflexivity). exact Hf. }
    rewrite Hf1.
    destruct (run_enable E f port None _) as [st s2] eqn:Hcall. cbn in Hr.
    cbn beta iota. cbn [fst snd].
    destruct st; try congruence; reflexivity.
Qed.

(** ** Connect *)

(** Claim C4, as amended.  For two ports that carry a connect hook, as every
    port made by [mmal_port_alloc] does, [mmal_port_connect] returns [MMAL_EINVAL]
    when the pair is not one input and one output; otherwise
    [MMAL_EISCONN] when either side has a connected port; otherwise
    [MMAL_EINVAL] when either side is enabled.  In each case the store is
    returned unchanged, so [connected_port], [core_owns_connection] and
    [allocate_pool] of both ports are. *)
Theorem connect_rejections (E : Externals) (s : State) (a b : port_id) (pa pb : Priv.t)
    (Ha : Port.priv (port_at s a) = Some pa)
    (Hb : Port.priv (port_at s b) = Some pb)
    (Hca : is_Some (Priv.pf_connect pa))
    (Hcb : is_Some (Priv.pf_connect pb)) :
  (~ one_input_one_output s a b ->
   mmal_port_connect E (Some a) (Some b) s = Done MMAL_EINVAL s)
  /\ (one_input_one_output s a b ->
      is_Some (Core.connected_port (core_at s a))
      \/ is_Some (Core.connected_port (core_at s b)) ->
      mmal_port_connect E (Some a) (Some b) s = Done MMAL_EISCONN s)
  /\ (one_input_one_output s a b ->
      Core.connected_port (core_at s a) = None ->
      Core.connected_port (core_at s b) = None ->
      Port.is_enabled (port_at s a) <> 0 \/ Port.is_enabled (port_at s b) <> 0 ->
      mmal_port_connect E (Some a) (Some b) s = Done MMAL_EINVAL s).
Proof.
  assert (Hhooks : negb (bool_decide (is_Some (Priv.pf_connect pa)))
                   || negb (bool_decide (is_Some (Priv.pf_connect pb))) = false).
  { rewrite !bool_decide_eq_true_2 by assumption. reflexivity. }
  unfold mmal_port_connect, one_input_one_output. run_steps.
  unfold valid_port. rewrite Ha, Hb, Hhooks.
  unfold mmal_port_set_input_or_output. cbn [fst snd].
  repeat split.
  - intros Hpair.
    destruct (Port.type (port_at s a)), (Port.type (port_at s b)); try reflexivity;
      exfalso; apply Hpair; auto.
  - intros Hpair Hconn.
    assert (Hc : bool_decide (is_Some (Core.connected_port (core_at s a)))
                 || bool_decide (is_Some (Core.connected_port (core_at s b))) = true).
    { destruct Hconn as [H | H]; rewrite (bool_decide_eq_true_2 _ H);
        [reflexivity | apply orb_true_r]. }
    destruct Hpair as [[-> ->] | [-> ->]]; cbn; rewrite Hc; reflexivity.
  - intros Hpair Hna Hnb Hen.
    assert (He : nonzero (Port.is_enabled (port_at s a))
                 || nonzero (Port.is_enabled (port_at s b)) = true).
    { destruct Hen as [H | H]; apply nonzero_true in H; rewrite H;
        [reflexivity | apply orb_true_r]. }
    destruct Hpair as [[-> ->] | [-> ->]]; cbn; rewrite Hna, Hnb, He; reflexivity.
Qed.

(** ** In-transit accounting *)

Lemma IN_TRANSIT_DECREMENT_run (s : State) (p : port_id) :
  is_Some (Port.priv (port_at s p)) ->
  exists s1,
    IN_TRANSIT_DECREMENT p s = Done tt s1
    /\ IN_TRANSIT_COUNT s1 p = to_int32 (IN_TRANSIT_COUNT s p - 1)
    /\ Core.transit_sema (core_at s1 p)
       = (if to_int32 (IN_TRANSIT_COUNT s p - 1) =? 0
          then S (Core.transit_sema (core_at s p))
          else Core.transit_sema (core_at s p))
    /\ trace s1 = trace s.
Proof.
  intros [pr Hpriv]. unfold IN_TRANSIT_DECREMENT. run_steps.
  set (new := to_int32 (IN_TRANSIT_COUNT s p - 1)).
  set (s0 := upd_core p (Core.set_transit_buffer_headers new) s).
  assert (Hpriv0 : Port.priv (port_at s0 p)
                   = Some (Priv.set_core (Core.set_transit_buffer_headers new (Priv.core pr)) pr)).
  { apply priv_upd_core. exact Hpriv. }
  assert (Hcore0 : core_at s0 p = Core.set_transit_buffer_headers new (core_at s p)).
  { apply (core_at_upd_core_eq _ _ _ _ Hpriv). }
  destruct (new =? 0); cbn beta iota.
  - unfold vcos_semaphore_post. run_steps. eexists. split; [reflexivity |].
    unfold IN_TRANSIT_COUNT.
    rewrite (core_at_upd_core_eq _ _ _ _ Hpriv0), Hcore0. repeat split.
  - eexists. split; [reflexivity |]. fold s0. unfold IN_TRANSIT_COUNT. rewrite Hcore0.
    repeat split.
Qed.


(** ** The pool callback *)

Lemma set_buffers_same (s : State) : set_buffers (buffers s) s = s.
Proof. destruct s; reflexivity. Qed.

Lemma upd_buffer_compose (s : State) (b : buf_id) (f g : BH.t -> BH.t) :
  upd_buffer b f (upd_buffer b g s) = upd_buffer b (fun x => f (g x)) s.
Proof.
  unfold upd_buffer. simpl. unfold set_buffers. simpl. f_equal.
  apply alter_alter_eq.
Qed.

Lemma reset_header_fields (s : State) (b : buf_id) :
  let h := buffer_at (upd_buffer b reset_header s) b in
  BH.cmd h = 0 /\ BH.length h = 0 /\ BH.offset h = 0
  /\ BH.flags h = 0 /\ BH.pts h = 0 /\ BH.dts h = 0.
Proof.
  cbn zeta. rewrite buffer_at_upd_buffer.
  destruct (decide (b = b)); [| congruence].
  destruct (buffers s !! b); repeat split.
Qed.

(** Claim C3.  [mmal_port_connected_pool_cb] is [mmal_port_send_buffer] on
    the port passed as userdata, run on the store in which [cmd], [length],
    [offset], [flags], [pts] and [dts] of the buffer are 0 and everything
    else is as before; it returns true exactly when the send returned a
    status other than [MMAL_SUCCESS]. *)
Theorem connected_pool_cb_resets_then_sends (K : Constants) (E : Externals)
    (s : State) (pool : pool_id) (buffer : buf_id) (port : option port_id) :
  let s0 := upd_buffer buffer reset_header s in
  (BH.cmd (buffer_at s0 buffer) = 0 /\ BH.length (buffer_at s0 buffer) = 0
   /\ BH.offset (buffer_at s0 buffer) = 0 /\ BH.flags (buffer_at s0 buffer) = 0
   /\ BH.pts (buffer_at s0 buffer) = 0 /\ BH.dts (buffer_at s0 buffer) = 0)
  /\ mmal_port_connected_pool_cb K E pool buffer port s
     = match mmal_port_send_buffer K E port buffer s0 with
       | Done status s' => Done (negb (is_success status)) s'
       | Stuck w => Stuck w
       end
  /\ (forall status s',
        mmal_port_send_buffer K E port buffer s0 = Done status s' ->
        exists keep,
          mmal_port_connected_pool_cb K E pool buffer port s = Done keep s'
          /\ (keep = true <-> status <> MMAL_SUCCESS)
          /\ (keep = false <-> status = MMAL_SUCCESS)).
Proof.
  intros s0.
  assert (Hrun : mmal_port_connected_pool_cb K E pool buffer port s
                 = match mmal_port_send_buffer K E port buffer s0 with
                   | Done status s' => Done (negb (is_success status)) s'
                   | Stuck w => Stuck w
                   end).
  { unfold mmal_port_connected_pool_cb. run_steps.
    rewrite !upd_buffer_compose. reflexivity. }
  split; [apply reset_header_fields |]. split; [exact Hrun |].
  intros status s' Hsend. rewrite Hrun, Hsend.
  exists (negb (is_success status)). split; [reflexivity |].
  destruct status; cbn; split; split; congruence.
Qed.

(** ** Format commit *)

Lemma trace_clamp_outputs (l : list port_id) (s : State) :
  trace (foldl (fun s o => upd_port o clamp_to_minima s) s l) = trace s.
Proof.
  revert s. induction l as [| o l IH]; intros s; [reflexivity |].
  cbn [foldl]. rewrite IH. reflexivity.
Qed.

(** Claim C6.  [mmal_port_format_commit] on a valid port whose [format]
    differs from the stored copy puts the copy back and returns
    [MMAL_EFAULT]; nothing is added to the trace (the set_format hook is not
    called) and [buffer_num] and [buffer_size] keep their values.  The port
    is usable afterwards: the next [mmal_port_format_commit] passes the
    check, calls the hook and returns its status. *)
Theorem format_commit_restores_clobbered_pointer (E : Externals) (s : State)
    (p : port_id) (pr : Priv.t)
    (Hpriv : Port.priv (port_at s p) = Some pr)
    (Hclobbered : Port.format (port_at s p) <> Core.format_ptr_copy (core_at s p)) :
  let s1 := upd_port p (Port.set_format (Core.format_ptr_copy (core_at s p))) s in
  mmal_port_format_commit E (Some p) s = Done MMAL_EFAULT s1
  /\ Port.format (port_at s1 p) = Core.format_ptr_copy (core_at s p)
  /\ Core.format_ptr_copy (core_at s1 p) = Core.format_ptr_copy (core_at s p)
  /\ trace s1 = trace s
  /\ Port.buffer_num (port_at s1 p) = Port.buffer_num (port_at s p)
  /\ Port.buffer_size (port_at s1 p) = Port.buffer_size (port_at s p)
  /\ (forall f fm,
        Priv.pf_set_format pr = Some f ->
        Core.format_ptr_copy (core_at s p) = Some fm ->
        is_Some (Core.name (core_at (snd (run_set_format E f p s1)) p)) ->
        exists s2,
          mmal_port_format_commit E (Some p) s1
          = Done (fst (run_set_format E f p s1)) s2
          /\ trace s2 = call_pf_set_format f p :: trace s).
Proof.
  intros s1.
  assert (Hp1 : port_at s1 p = Port.set_format (Core.format_ptr_copy (core_at s p)) (port_at s p)).
  { apply (port_at_upd_port_eq _ _ _ _ Hpriv). }
  assert (Hpriv1 : Port.priv (port_at s1 p) = Some pr).
  { rewrite Hp1. exact Hpriv. }
  assert (Hcore1 : core_at s1 p = core_at s p).
  { unfold core_at. rewrite Hp1. reflexivity. }
  split; [| split; [| split; [| split; [| split; [| split]]]]].
  - unfold mmal_port_format_commit. run_steps.
    unfold valid_port. rewrite Hpriv. cbn beta iota.
    rewrite bool_decide_eq_true_2 by exact Hclobbered. reflexivity.
  - rewrite Hp1. reflexivity.
  - rewrite Hcore1. reflexivity.
  - reflexivity.
  - rewrite Hp1. reflexivity.
  - rewrite Hp1. reflexivity.
  - intros f fm Hf Hfm [area Harea].
    unfold mmal_port_format_commit. run_steps.
    unfold valid_port. rewrite Hpriv1. cbn beta iota.
    rewrite Hcore1.
    rewrite bool_decide_eq_false_2
      by (rewrite Hp1; cbn [Port.format Port.set_format]; intros H; apply H; reflexivity).
    cbn beta iota. rewrite Hp1. cbn [Port.format Port.set_format]. rewrite Hfm.
    cbn beta iota.
    replace (slot Priv.pf_set_format s1 p) with (Some f)
      by (unfold slot; rewrite Hpriv1; auto).
    unfold call.
    destruct (run_set_format E f p s1) as [st s2] eqn:Hcall. cbn [fst snd] in *.
    cbn beta iota. unfold mmal_port_name_update.
    change (port_at (set_trace (call_pf_set_format f p :: trace s1) s2) p)
      with (port_at s2 p).
    change (Port.core (port_at s2 p)) with (core_at s2 p). rewrite Harea.
    cbn beta iota.
    match goal with
    | |- context [if ?c then _ else _] => destruct c
    end; cbn beta iota; eexists; (split; [reflexivity |]);
      cbn; rewrite ?trace_clamp_outputs; reflexivity.
Qed.

(** ** Event buffers *)

Lemma buffer_at_upd_buffer_eq (s : State) (b : buf_id) (h : BH.t) (f : BH.t -> BH.t) :
  buffers s !! b = Some h -> buffer_at (upd_buffer b f s) b = f h.
Proof.
  intros H. rewrite buffer_at_upd_buffer, H.
  destruct (decide (b = b)); [reflexivity | congruence].
Qed.

Lemma buffers_upd_buffer_eq (s : State) (b : buf_id) (h : BH.t) (f : BH.t -> BH.t) :
  buffers s !! b = Some h -> buffers (upd_buffer b f s) !! b = Some (f h).
Proof.
  intros H. unfold upd_buffer. cbn. rewrite lookup_alter_eq, H. reflexivity.
Qed.

Lemma memset_zero_region (n : nat) (bytes : list Z) :
  (n <= Datatypes.length bytes)%nat ->
  take n (memset_zero n bytes) = replicate n 0
  /\ drop n (memset_zero n bytes) = drop n bytes
  /\ Datatypes.length (memset_zero n bytes) = Datatypes.length bytes.
Proof.
  intros Hn. unfold memset_zero. rewrite Nat.min_l by exact Hn.
  repeat split.
  - rewrite take_app_length' by (symmetry; apply length_replicate). reflexivity.
  - rewrite drop_app_length' by (symmetry; apply length_replicate). reflexivity.
  - rewrite length_app, length_replicate, length_drop. lia.
Qed.

Lemma format_changed_size_sum (K : Constants) :
  0 <= sizeof_MMAL_EVENT_FORMAT_CHANGED_T K ->
  0 <= sizeof_MMAL_ES_FORMAT_T K ->
  0 <= sizeof_MMAL_ES_SPECIFIC_FORMAT_T K ->
  sizeof_MMAL_EVENT_FORMAT_CHANGED_T K + sizeof_MMAL_ES_FORMAT_T K
    + sizeof_MMAL_ES_SPECIFIC_FORMAT_T K < 2 ^ 32 ->
  format_changed_size K
  = sizeof_MMAL_EVENT_FORMAT_CHANGED_T K + sizeof_MMAL_ES_FORMAT_T K
    + sizeof_MMAL_ES_SPECIFIC_FORMAT_T K.
Proof.
  intros Ha Hb Hc Hsum. unfold format_changed_size, to_uint32.
  rewrite (Z.mod_small (sizeof_MMAL_EVENT_FORMAT_CHANGED_T K)) by lia.
  rewrite Z.mod_small by lia. lia.
Qed.

(** Claim C8.  [mmal_port_event_get] for FORMAT_CHANGED, with [b] the buffer
    drawn from the event pool and [size] the sum of the three sizes: when
    [alloc_size] of [b] is below [size], [b] is released, the caller's
    location is cleared and [MMAL_ENOSPC] is returned; otherwise the first
    [size] bytes of the payload are zeroed, [length] is set to [size] and
    [MMAL_SUCCESS] is returned with [b]. *)
Theorem event_get_format_changed (K : Constants) (E : Externals) (s : State)
    (p : port_id) (pr : Priv.t) (held : option buf_id) (b : buf_id)
    (rest : list buf_id) (h : BH.t)
    (Hpriv : Port.priv (port_at s p) = Some pr)
    (Hqueue : Pool.queue (pool_at s (event_pool_of s p)) = b :: rest)
    (Hbuf : buffers s !! b = Some h)
    (Ha : 0 <= sizeof_MMAL_EVENT_FORMAT_CHANGED_T K)
    (Hb : 0 <= sizeof_MMAL_ES_FORMAT_T K)
    (Hc : 0 <= sizeof_MMAL_ES_SPECIFIC_FORMAT_T K)
    (Hsum : sizeof_MMAL_EVENT_FORMAT_CHANGED_T K + sizeof_MMAL_ES_FORMAT_T K
            + sizeof_MMAL_ES_SPECIFIC_FORMAT_T K < 2 ^ 32) :
  let size := sizeof_MMAL_EVENT_FORMAT_CHANGED_T K + sizeof_MMAL_ES_FORMAT_T K
              + sizeof_MMAL_ES_SPECIFIC_FORMAT_T K in
  let event := MMAL_EVENT_FORMAT_CHANGED K in
  let s1 := upd_buffer b (BH.set_length 0)
              (upd_buffer b (BH.set_cmd event)
                 (upd_pool (event_pool_of s p) (Pool.set_queue rest) s)) in
  (BH.alloc_size h < size ->
   mmal_port_event_get K E (Some p) (Some held) event s
   = Done (MMAL_ENOSPC, Some None)
       (set_trace (call_buffer_header_release b :: trace s)
          (buffer_header_release E b s1)))
  /\ (size <= BH.alloc_size h ->
      forall bytes, BH.data h = Some bytes ->
      exists s2,
        mmal_port_event_get K E (Some p) (Some held) event s
        = Done (MMAL_SUCCESS, Some (Some b)) s2
        /\ BH.data (buffer_at s2 b) = Some (memset_zero (Z.to_nat size) bytes)
        /\ ((Z.to_nat size <= Datatypes.length bytes)%nat ->
            take (Z.to_nat size) (memset_zero (Z.to_nat size) bytes)
            = replicate (Z.to_nat size) 0
            /\ drop (Z.to_nat size) (memset_zero (Z.to_nat size) bytes)
               = drop (Z.to_nat size) bytes)
        /\ BH.length (buffer_at s2 b) = size
        /\ BH.cmd (buffer_at s2 b) = event
        /\ BH.alloc_size (buffer_at s2 b) = BH.alloc_size h
        /\ trace s2 = trace s).
Proof.
  intros size event s1.
  pose proof (format_changed_size_sum K Ha Hb Hc Hsum) as Hsize. fold size in Hsize.
  set (s0 := upd_pool (event_pool_of s p) (Pool.set_queue rest) s).
  assert (Hb0 : buffers s0 !! b = Some h) by exact Hbuf.
  assert (Hb1 : buffers s1 !! b = Some (BH.set_length 0 (BH.set_cmd event h))).
  { subst s1. fold s0. apply buffers_upd_buffer_eq. apply buffers_upd_buffer_eq. exact Hb0. }
  unfold mmal_port_event_get. run_steps. unfold valid_port. rewrite Hpriv. cbn beta iota.
  fold (event_pool_of s p). unfold mmal_queue_get. rewrite Hqueue. fold s0. cbn beta iota.
  subst event. rewrite Z.eqb_refl. cbn beta iota.
  change (upd_buffer b (BH.set_length 0)
            (upd_buffer b (BH.set_cmd (MMAL_EVENT_FORMAT_CHANGED K)) s0)) with s1.
  assert (Hat1 : buffer_at s1 b = BH.set_length 0 (BH.set_cmd (MMAL_EVENT_FORMAT_CHANGED K) h)).
  { unfold buffer_at. rewrite Hb1. reflexivity. }
  rewrite Hat1. cbn [BH.alloc_size BH.set_length BH.set_cmd].
  rewrite Hsize. split.
  - intros Hlt. apply Z.ltb_lt in Hlt. rewrite Hlt. cbn beta iota.
    unfold mmal_buffer_header_release, call. reflexivity.
  - intros Hge bytes Hbytes. apply Z.ltb_ge in Hge. rewrite Hge. cbn beta iota.
    unfold memset_payload. rewrite Hat1.
    cbn [BH.data BH.set_length BH.set_cmd]. rewrite Hbytes.
    eexists. split; [reflexivity |].
    erewrite buffer_at_upd_buffer_eq
      by (apply buffers_upd_buffer_eq; exact Hb1).
    cbn. repeat split; apply memset_zero_region; assumption.
Qed.

(** ** Parameters and statistics *)

Lemma get_core_stats_run (s : State) (p : port_id) (prm : Param.t) :
  mmal_port_get_core_stats p prm s
  = Done (MMAL_SUCCESS,
          Param.set_stats
            (match Param.dir prm with
             | MMAL_CORE_STATS_RX => rx (Core.stats (core_at s p))
             | _ => tx (Core.stats (core_at s p))
             end) prm)
      (if nonzero (Param.reset prm)
       then upd_core p (memset_src_stats (Param.dir prm)) s else s).
Proof.
  unfold mmal_port_get_core_stats. run_steps.
  cbn [Param.reset Param.set_stats Param.dir].
  destruct (nonzero (Param.reset prm)); reflexivity.
Qed.

Lemma private_parameter_get_returns (K : Constants) (s : State) (p : port_id) (prm : Param.t) :
  exists st prm' s',
    mmal_port_private_parameter_get K p prm s = Done (st, prm') s'
    /\ trace s' = trace s
    /\ (Param.id prm = MMAL_PARAMETER_CORE_STATISTICS K -> st = MMAL_SUCCESS).
Proof.
  unfold mmal_port_private_parameter_get.
  destruct (Z.eqb_spec (Param.id prm) (MMAL_PARAMETER_CORE_STATISTICS K)) as [Hid | Hid].
  - rewrite get_core_stats_run. do 3 eexists. split; [reflexivity |]. split; [| reflexivity].
    destruct (nonzero (Param.reset prm)); reflexivity.
  - do 3 eexists. split; [reflexivity |]. split; [reflexivity | congruence].
Qed.

Lemma private_parameter_get_trace (K : Constants) (s : State) (c : list Call)
    (p : port_id) (prm : Param.t) :
  mmal_port_private_parameter_get K p prm (set_trace c s)
  = match mmal_port_private_parameter_get K p prm s with
    | Done r s' => Done r (set_trace c s')
    | Stuck w => Stuck w
    end.
Proof.
  unfold mmal_port_private_parameter_get.
  destruct (Param.id prm =? MMAL_PARAMETER_CORE_STATISTICS K); [| reflexivity].
  rewrite !get_core_stats_run.
  change (core_at (set_trace c s) p) with (core_at s p).
  destruct (nonzero (Param.reset prm)); reflexivity.
Qed.

(** Claim C10.  On a valid port whose parameter_set (parameter_get) slot is
    null, [mmal_port_parameter_set] ([mmal_port_parameter_get]) is the
    core's private function on the same store, which is also what a hook
    that reports [MMAL_ENOSYS] and changes nothing leads to, but for the
    entry of the call in the trace; [mmal_port_parameter_get] for
    CORE_STATISTICS therefore returns [MMAL_SUCCESS]. *)
Theorem parameter_hooks_absent (K : Constants) (E : Externals) (s : State)
    (p : port_id) (pr : Priv.t) (prm : Param.t)
    (Hpriv : Port.priv (port_at s p) = Some pr) :
  (Priv.pf_parameter_set pr = None ->
   mmal_port_parameter_set E (Some p) (Some prm) s
   = mmal_port_private_parameter_set p prm s)
  /\ (forall f,
        Priv.pf_parameter_set pr = Some f ->
        run_parameter_set E f p prm s = (MMAL_ENOSYS, s) ->
        mmal_port_parameter_set E (Some p) (Some prm) s
        = mmal_port_private_parameter_set p prm
            (set_trace (call_pf_parameter_set f p :: trace s) s))
  /\ (exists st prm' s',
        mmal_port_private_parameter_get K p prm s = Done (st, prm') s'
        /\ (Param.id prm = MMAL_PARAMETER_CORE_STATISTICS K -> st = MMAL_SUCCESS)
        /\ (Priv.pf_parameter_get pr = None ->
            mmal_port_parameter_get K E (Some p) (Some prm) s
            = Done (st, Some prm') s')
        /\ (forall f,
              Priv.pf_parameter_get pr = Some f ->
              run_parameter_get E f p prm s = ((MMAL_ENOSYS, prm), s) ->
              mmal_port_parameter_get K E (Some p) (Some prm) s
              = Done (st, Some prm')
                  (set_trace (call_pf_parameter_get f p :: trace s) s'))).
Proof.
  split; [| split].
  - intros Hnone. unfold mmal_port_parameter_set. run_steps.
    rewrite Hpriv. cbn beta iota. unfold slot. rewrite Hpriv, Hnone. reflexivity.
  - intros f Hf Hrun. unfold mmal_port_parameter_set. run_steps.
    rewrite Hpriv. cbn beta iota. unfold slot. rewrite Hpriv, Hf.
    unfold call. rewrite Hrun. reflexivity.
  - destruct (private_parameter_get_returns K s p prm) as (st & prm' & s' & Hrun & Htr & Hid).
    exists st, prm', s'. split; [exact Hrun |]. split; [exact Hid |]. split.
    + intros Hnone. unfold mmal_port_parameter_get. run_steps.
      unfold valid_port. rewrite Hpriv. cbn beta iota.
      unfold slot. rewrite Hpriv, Hnone. cbn [fst snd is_enosys]. cbn beta iota.
      rewrite Hrun. reflexivity.
    + intros f Hf Hhook. unfold mmal_port_parameter_get. run_steps.
      unfold valid_port. rewrite Hpriv. cbn beta iota.
      unfold slot. rewrite Hpriv, Hf. unfold call. rewrite Hhook.
      cbn [fst snd is_enosys]. cbn beta iota.
      rewrite private_parameter_get_trace, Hrun. reflexivity.
Qed.

Lemma get_core_stats_reset_rx (s : State) (p : port_id) (pr : Priv.t) (prm : Param.t) :
  Port.priv (port_at s p) = Some pr ->
  Param.dir prm = MMAL_CORE_STATS_RX ->
  Param.reset prm <> 0 ->
  exists s',
    mmal_port_get_core_stats p prm s
    = Done (MMAL_SUCCESS, Param.set_stats (rx (Core.stats (core_at s p))) prm) s'
    /\ rx (Core.stats (core_at s' p)) = stats_zero
    /\ tx (Core.stats (core_at s' p)) = stats_zero.
Proof.
  intros Hpriv Hdir Hreset. rewrite get_core_stats_run, Hdir.
  apply nonzero_true in Hreset. rewrite Hreset.
  eexists. split; [reflexivity |].
  rewrite (core_at_upd_core_eq _ _ _ _ Hpriv). split; reflexivity.
Qed.

(** Claim C7 fails on the code.  A CORE_STATISTICS request for the RX
    direction with the reset flag returns the RX statistics and zeroes them,
    and zeroes the TX statistics as well: the [memset] is given the size of
    the pair. *)
Lemma core_statistics_rx_reset_clears_tx :
  let s := sample_state 0 0 [] in
  tx (Core.stats (core_at s 3%nat)) = mkStats 2 12 28 16
  /\ exists s',
       mmal_port_parameter_get sample_constants sample_externals
         (Some 3%nat) (Some rx_reset_request) s
       = Done (MMAL_SUCCESS,
               Some (Param.set_stats (mkStats 3 10 30 15) rx_reset_request)) s'
       /\ rx (Core.stats (core_at s' 3%nat)) = stats_zero
       /\ tx (Core.stats (core_at s' 3%nat)) = stats_zero
       /\ tx (Core.stats (core_at s' 3%nat)) <> tx (Core.stats (core_at s 3%nat)).
Proof.
  cbn zeta. split; [reflexivity |].
  eexists. split; [vm_compute; reflexivity |].
  split; [reflexivity |]. split; [reflexivity |]. discriminate.
Qed.

Lemma core_statistics_tx_reset_clears_name :
  exists s',
    mmal_port_parameter_get sample_constants sample_externals
      (Some 5%nat) (Some tx_reset_request) (sample_state 0 0 [])
    = Done (MMAL_SUCCESS,
            Some (Param.set_stats (mkStats 2 12 28 16) tx_reset_request)) s'
    /\ rx (Core.stats (core_at s' 5%nat)) = mkStats 3 10 30 15
    /\ tx (Core.stats (core_at s' 5%nat)) = stats_zero
    /\ Core.name (core_at s' 5%nat) = None
    /\ Core.name_size (core_at s' 5%nat) = 0
    /\ mmal_port_format_commit sample_externals (Some 5%nat) s' = Stuck null_pointer
    /\ exists s2,
         mmal_port_format_commit sample_externals (Some 5%nat) (sample_state 0 0 [])
         = Done MMAL_ENOSYS s2.
Proof.
  eexists. split; [vm_compute; reflexivity |].
  do 4 (split; [reflexivity |]). split; [vm_compute; reflexivity |].
  eexists. vm_compute. reflexivity.
Qed.

(** ** Free *)

Lemma kept_by_free (s : State) (p : port_id) (o : vcos_obj) :
  (p, o) ∈ filter (fun x => x <> (p, obj_lock))
            (filter (fun x => x <> (p, obj_send_lock))
               (filter (fun x => x <> (p, obj_transit_lock))
                  (filter (fun x => x <> (p, obj_transit_sema)) (vcos_objs s))))
  <-> (p, o) ∈ vcos_objs s /\ o = obj_stats_lock.
Proof.
  rewrite !list_elem_of_filter. split.
  - intros (H1 & H2 & H3 & H4 & H5). split; [exact H5 |].
    destruct o; congruence.
  - intros [H ->]. repeat (split; [congruence |]). exact H.
Qed.

Lemma mmal_port_free_releases (s : State) (p : port_id) :
  mmal_port_free None s = Done tt s
  /\ exists s',
       mmal_port_free (Some p) s = Done tt s'
       /\ ports s' !! p = None
       /\ (forall f, Core.format_ptr_copy (core_at s p) = Some f -> formats s' !! f = None)
       /\ (forall o, (p, o) ∈ vcos_objs s' <-> (p, o) ∈ vcos_objs s /\ o = obj_stats_lock).
Proof.
  split; [reflexivity |].
  unfold mmal_port_free, vcos_delete, vcos_free, mmal_format_free. run_steps.
  destruct (Core.format_ptr_copy (core_at s p)) as [f |] eqn:Hf;
    unfold call; run_steps; eexists; (split; [reflexivity |]); cbn;
    (split; [apply lookup_delete_eq |]); split.
  - intros f' [= <-]. apply lookup_delete_eq.
  - apply kept_by_free.
  - intros f' [=].
  - apply kept_by_free.
Qed.

(** Claim C9 fails on the code.  A port made by [mmal_port_alloc] owns five
    VCOS objects; after [mmal_port_free] the port memory is gone and the
    lock, the send lock, the transit lock and the transit semaphore are
    deleted, but the stats lock is still alive. *)
Lemma free_leaves_stats_lock_alive :
  exists p s1 s2,
    mmal_port_alloc sample_externals 0%nat MMAL_PORT_TYPE_INPUT 0 (sample_state 0 0 [])
    = Done (Some p) s1
    /\ vcos_objs s1 = [(p, obj_stats_lock); (p, obj_transit_sema); (p, obj_transit_lock);
                       (p, obj_send_lock); (p, obj_lock)]
    /\ mmal_port_free (Some p) s1 = Done tt s2
    /\ ports s2 !! p = None
    /\ vcos_objs s2 = [(p, obj_stats_lock)].
Proof.
  do 3 eexists. split; [vm_compute; reflexivity |].
  split; [reflexivity |]. split; [vm_compute; reflexivity |].
  split; reflexivity.
Qed.

Lemma alloc_error_path_deletes_stats_lock :
  exists s1,
    mmal_port_alloc no_format_externals 0%nat MMAL_PORT_TYPE_INPUT 0 (sample_state 0 0 [])
    = Done None s1
    /\ vcos_objs s1 = [].
Proof.
  eexists. split; [vm_compute; reflexivity | reflexivity].
Qed.

(** ** Send *)

Lemma upd_core_compose (s : State) (p : port_id) (f g : Core.t -> Core.t) :
  upd_core p f (upd_core p g s) = upd_core p (fun c => f (g c)) s.
Proof.
  unfold upd_core. rewrite upd_port_compose. apply upd_port_ext.
  intros x _. unfold Port.upd_core. destruct (Port.priv x) eqn:Hx; cbn; [| rewrite Hx; reflexivity].
  reflexivity.
Qed.

Lemma upd_core_ext (s : State) (p : port_id) (f g : Core.t -> Core.t) :
  (forall c, f c = g c) -> upd_core p f s = upd_core p g s.
Proof.
  intros H. unfold upd_core. apply upd_port_ext. intros x _.
  unfold Port.upd_core. destruct (Port.priv x); [rewrite H |]; reflexivity.
Qed.

Lemma IN_TRANSIT_INCREMENT_claims (s : State) (p : port_id) (pr : Priv.t) :
  Port.priv (port_at s p) = Some pr ->
  (IN_TRANSIT_COUNT s p = 0 -> Core.transit_sema (core_at s p) <> 0%nat) ->
  IN_TRANSIT_INCREMENT p s = Done tt (in_transit_claimed p s).
Proof.
  intros Hpriv Hinv. unfold IN_TRANSIT_INCREMENT, in_transit_claimed. run_steps.
  set (n := IN_TRANSIT_COUNT s p) in *.
  destruct (Z.eqb_spec n 0) as [Hz | Hnz]; cbn beta iota.
  - specialize (Hinv Hz). unfold vcos_semaphore_wait.
    rewrite (core_at_upd_core_eq _ _ _ _ Hpriv).
    cbn [Core.transit_sema Core.set_transit_buffer_headers].
    destruct (Core.transit_sema (core_at s p)) as [| k] eqn:Hsema; [congruence |].
    rewrite upd_core_compose. apply (f_equal (Done tt)).
    unfold upd_core. apply upd_port_ext. intros x Hx.
    assert (port_at s p = x) as <- by (unfold port_at; rewrite Hx; reflexivity).
    unfold Port.upd_core. rewrite Hpriv.
    change (Priv.core pr) with (Port.core (Port.set_priv (Some pr) (port_at s p))).
    unfold core_at, Port.core in Hsema. rewrite Hpriv in Hsema.
    cbn. rewrite Hsema. reflexivity.
  - apply (f_equal (Done tt)). apply upd_core_ext. intros []; reflexivity.
Qed.

Lemma in_transit_claimed_facts (s : State) (p : port_id) (pr : Priv.t) :
  Port.priv (port_at s p) = Some pr ->
  IN_TRANSIT_COUNT (in_transit_claimed p s) p = to_int32 (IN_TRANSIT_COUNT s p + 1)
  /\ Core.transit_sema (core_at (in_transit_claimed p s) p)
     = (if IN_TRANSIT_COUNT s p =? 0
        then pred (Core.transit_sema (core_at s p))
        else Core.transit_sema (core_at s p))
  /\ trace (in_transit_claimed p s) = trace s
  /\ slot Priv.pf_send (in_transit_claimed p s) p = slot Priv.pf_send s p.
Proof.
  intros Hpriv. unfold in_transit_claimed, IN_TRANSIT_COUNT.
  rewrite (core_at_upd_core_eq _ _ _ _ Hpriv). repeat split.
  apply slot_upd_core. reflexivity.
Qed.

(** Without a send hook the answer is [MMAL_ENOSYS], enabled or not, unless
    the buffer is turned down first. *)
Lemma send_buffer_without_hook (K : Constants) (E : Externals) (s : State)
    (p : port_id) (pr : Priv.t) (b : buf_id) :
  Port.priv (port_at s p) = Some pr ->
  Priv.pf_send pr = None ->
  BH.data (buffer_at s b) <> None
  \/ Z.land (Port.capabilities (port_at s p)) (MMAL_PORT_CAPABILITY_PASSTHROUGH K) <> 0 ->
  mmal_port_send_buffer K E (Some p) b s = Done MMAL_ENOSYS s.
Proof.
  intros Hpriv Hnone Hbuf. unfold mmal_port_send_buffer. run_steps.
  unfold valid_port. rewrite Hpriv. cbn beta iota.
  assert (Hacc : match BH.data (buffer_at s b) with
                 | Some _ => false
                 | None => negb (nonzero (Z.land (Port.capabilities (port_at s p))
                                            (MMAL_PORT_CAPABILITY_PASSTHROUGH K)))
                 end = false).
  { destruct (BH.data (buffer_at s b)); [reflexivity |].
    destruct Hbuf as [H | H]; [congruence |].
    apply nonzero_true in H. rewrite H. reflexivity. }
  rewrite Hacc. cbn beta iota. unfold slot. rewrite Hpriv, Hnone. reflexivity.
Qed.

(** Claim C1, as amended.  On a port that has a send hook:
    - [mmal_port_send_buffer] on a port that is not enabled returns
      [MMAL_EINVAL] and leaves the store, hence the in-transit counter, as
      it was;
    - on an enabled port whose counter and semaphore agree (the semaphore is
      posted when the counter is 0), the hook is called with the counter
      incremented, and when the hook fails without touching the accounting
      of the port, [mmal_port_send_buffer] returns the hook's status with
      the counter back at its value before the call and the semaphore
      posted exactly when the counter went from 1 to 0, which puts its
      count back as well. *)
Theorem send_buffer_failure_paths (K : Constants) (E : Externals) (s : State)
    (p : port_id) (pr : Priv.t) (f : code_ptr) (b : buf_id)
    (Hpriv : Port.priv (port_at s p) = Some pr)
    (Hhook : Priv.pf_send pr = Some f) :
  (Port.is_enabled (port_at s p) = 0 ->
   mmal_port_send_buffer K E (Some p) b s = Done MMAL_EINVAL s)
  /\ (Port.is_enabled (port_at s p) <> 0 ->
      BH.data (buffer_at s b) <> None
      \/ Z.land (Port.capabilities (port_at s p)) (MMAL_PORT_CAPABILITY_PASSTHROUGH K) <> 0 ->
      is_int32 (IN_TRANSIT_COUNT s p) ->
      (IN_TRANSIT_COUNT s p = 0 -> Core.transit_sema (core_at s p) <> 0%nat) ->
      let s1 := at_send_hook p b s in
      IN_TRANSIT_COUNT s1 p = to_int32 (IN_TRANSIT_COUNT s p + 1)
      /\ forall st s2,
           run_send E f p b s1 = (st, s2) ->
           st <> MMAL_SUCCESS ->
           IN_TRANSIT_COUNT s2 p = IN_TRANSIT_COUNT s1 p ->
           Core.transit_sema (core_at s2 p) = Core.transit_sema (core_at s1 p) ->
           is_Some (Port.priv (port_at s2 p)) ->
           exists s3,
             mmal_port_send_buffer K E (Some p) b s = Done st s3
             /\ IN_TRANSIT_COUNT s3 p = IN_TRANSIT_COUNT s p
             /\ Core.transit_sema (core_at s3 p)
                = (if IN_TRANSIT_COUNT s p =? 0
                   then S (Core.transit_sema (core_at s2 p))
                   else Core.transit_sema (core_at s2 p))
             /\ Core.transit_sema (core_at s3 p) = Core.transit_sema (core_at s p)
             /\ trace s3 = call_pf_send f p b :: trace s).
Proof.
  assert (Hslot : slot Priv.pf_send s p = Some f).
  { unfold slot. rewrite Hpriv. exact Hhook. }
  split.
  - intros Hdis. unfold mmal_port_send_buffer. run_steps.
    unfold valid_port. rewrite Hpriv. cbn beta iota.
    match goal with |- context [if ?c then _ else _] => destruct c end;
      [reflexivity |].
    cbn beta iota. rewrite Hslot. cbn beta iota. rewrite Hdis. reflexivity.
  - intros Hen Hbuf Hrange Hinv s1.
    set (s0 := if is_output (Port.type (port_at s p)) && nonzero (BH.length (buffer_at s b))
               then upd_buffer b (BH.set_length 0) s else s).
    assert (Hports0 : ports s0 = ports s /\ trace s0 = trace s).
    { subst s0. destruct (_ && _); split; reflexivity. }
    destruct Hports0 as [Hports0 Htrace0].
    assert (Hport0 : forall q, port_at s0 q = port_at s q).
    { intros q. unfold port_at. rewrite Hports0. reflexivity. }
    assert (Hcount0 : IN_TRANSIT_COUNT s0 p = IN_TRANSIT_COUNT s p).
    { unfold IN_TRANSIT_COUNT, core_at. rewrite Hport0. reflexivity. }
    assert (Hsema0 : Core.transit_sema (core_at s0 p) = Core.transit_sema (core_at s p)).
    { unfold core_at. rewrite Hport0. reflexivity. }
    assert (Hpriv0 : Port.priv (port_at s0 p) = Some pr) by (rewrite Hport0; exact Hpriv).
    assert (Hinc : IN_TRANSIT_INCREMENT p s0 = Done tt s1).
    { apply (IN_TRANSIT_INCREMENT_claims _ _ pr Hpriv0). rewrite Hcount0, Hsema0. exact Hinv. }
    destruct (in_transit_claimed_facts s0 p pr Hpriv0) as (Hc1 & Hs1 & Ht1 & Hslot1).
    change (in_transit_claimed p s0) with s1 in Hc1, Hs1, Ht1, Hslot1.
    rewrite Hcount0 in Hc1. rewrite Hcount0, Hsema0 in Hs1.
    split; [exact Hc1 |].
    intros st s2 Hcall Hfail Hc2 Hs2 Hp2.
    set (s2' := set_trace (call_pf_send f p b :: trace s1) s2).
    destruct (IN_TRANSIT_DECREMENT_run s2' p) as (s3 & Hdec & Hc3 & Hs3 & Ht3).
    { exact Hp2. }
    assert (Hback : to_int32 (IN_TRANSIT_COUNT s2' p - 1) = IN_TRANSIT_COUNT s p).
    { change (IN_TRANSIT_COUNT s2' p) with (IN_TRANSIT_COUNT s2 p).
      rewrite Hc2, Hc1. apply to_int32_round_trip. exact Hrange. }
    rewrite Hback in Hc3, Hs3.
    change (core_at s2' p) with (core_at s2 p) in Hs3.
    exists s3. split; [| split; [exact Hc3 | split; [exact Hs3 | split]]].
    + unfold mmal_port_send_buffer. run_steps.
      unfold valid_port. rewrite Hpriv. cbn beta iota.
      assert (Hacc : match BH.data (buffer_at s b) with
                     | Some _ => false
                     | None => negb (nonzero (Z.land (Port.capabilities (port_at s p))
                                                (MMAL_PORT_CAPABILITY_PASSTHROUGH K)))
                     end = false).
      { destruct (BH.data (buffer_at s b)); [reflexivity |].
        destruct Hbuf as [H | H]; [congruence |].
        apply nonzero_true in H. rewrite H. reflexivity. }
      rewrite Hacc. cbn beta iota. rewrite Hslot. cbn beta iota.
      apply nonzero_true in Hen. rewrite Hen. cbn [negb]. cbn beta iota.
      match goal with
      | |- match ?x with Done _ _ => _ | Stuck _ => _ end = _ =>
          assert (Hpre : x = Done tt s0) by (subst s0; destruct (_ && _); reflexivity);
          rewrite Hpre
      end.
      cbn beta iota. rewrite Hinc. cbn beta iota. rewrite Hslot1.
      replace (slot Priv.pf_send s0 p) with (Some f)
        by (unfold slot; rewrite Hport0, Hpriv; auto).
      unfold call. rewrite Hcall. fold s2'. cbn beta iota.
      destruct st; try congruence; cbn [is_success]; cbn beta iota; rewrite Hdec; reflexivity.
    + rewrite Hs3, Hs2, Hs1.
      destruct (IN_TRANSIT_COUNT s p =? 0) eqn:Hz; [| reflexivity].
      apply Z.eqb_eq in Hz. specialize (Hinv Hz).
      destruct (Core.transit_sema (core_at s p)); [congruence | reflexivity].
    + rewrite Ht3. subst s2'. cbn [trace set_trace]. rewrite Ht1, Htrace0. reflexivity.
Qed.

(** ** The statements on concrete inputs *)

(** Claim C1 as stated fails on a port without a send hook: the test of
    the hook comes before the test of [is_enabled], and the port, although
    not enabled, gets [MMAL_ENOSYS]. *)
Lemma send_buffer_disabled_without_hook :
  let s := sample_state 0 0 [] in
  Port.is_enabled (port_at s 3%nat) = 0
  /\ mmal_port_send_buffer sample_constants sample_externals (Some 3%nat) 7%nat s
     = Done MMAL_ENOSYS s
  /\ ~ (forall (K : Constants) (E : Externals) (s : State) (p : port_id) (b : buf_id),
          Port.is_enabled (port_at s p) = 0 ->
          exists s', mmal_port_send_buffer K E (Some p) b s = Done MMAL_EINVAL s'
                     /\ IN_TRANSIT_COUNT s' p = IN_TRANSIT_COUNT s p).
Proof.
  cbn zeta. split; [reflexivity |]. split; [reflexivity |].
  intros H.
  destruct (H sample_constants sample_externals (sample_state 0 0 []) 3%nat 7%nat eq_refl)
    as (s' & Hs' & _).
  vm_compute in Hs'. discriminate.
Qed.

(** On the sample store: port 1 is disabled and turned down; port 4 is
    enabled, its send function fails, and the accounting is back where it
    was. *)
Lemma send_buffer_failure_paths_witness :
  mmal_port_send_buffer sample_constants sample_externals (Some 1%nat) 7%nat
    (sample_state 0 0 [])
  = Done MMAL_EINVAL (sample_state 0 0 [])
  /\ exists s3,
       mmal_port_send_buffer sample_constants sample_externals (Some 4%nat) 7%nat
         (sample_state 0 0 [])
       = Done MMAL_EIO s3
       /\ IN_TRANSIT_COUNT s3 4%nat = 0
       /\ Core.transit_sema (core_at s3 4%nat) = 1%nat.
Proof.
  split.
  - apply (proj1 (send_buffer_failure_paths sample_constants sample_externals
                    (sample_state 0 0 []) 1%nat _ 0%nat 7%nat eq_refl eq_refl)).
    reflexivity.
  - destruct (proj2 (send_buffer_failure_paths sample_constants sample_externals
                       (sample_state 0 0 []) 4%nat _ 1%nat 7%nat eq_refl eq_refl))
      as [_ H].
    + vm_compute. discriminate.
    + left. vm_compute. discriminate.
    + unfold is_int32. split; vm_compute; [discriminate | reflexivity].
    + vm_compute. discriminate.
    + destruct (H MMAL_EIO (at_send_hook 4%nat 7%nat (sample_state 0 0 [])))
        as (s3 & H1 & H2 & _ & H4 & _).
      * reflexivity.
      * discriminate.
      * reflexivity.
      * reflexivity.
      * eexists. vm_compute. reflexivity.
      * exists s3. split; [exact H1 |]. split; [exact H2 | exact H4].
Defined.

(** On the sample store: a callback for the connected port 1 is turned
    down. *)
Lemma enable_rejections_witness :
  exists s',
    mmal_port_enable sample_constants sample_externals 1 (Some 1%nat)
      (Some (client_cb 9%nat)) (connected_state 0 0)
    = Done MMAL_EINVAL s'
    /\ mmal_port_enable_locked sample_constants sample_externals 1 1%nat
         (Some (client_cb 9%nat)) (connected_state 0 0)
       = Done MMAL_EINVAL s'
    /\ trace s' = trace (connected_state 0 0)
    /\ Port.is_enabled (port_at s' 1%nat) = 0.
Proof.
  destruct (enable_rejections sample_constants sample_externals 0
              (connected_state 0 0) 1%nat _ 0%nat (Some (client_cb 9%nat))
              eq_refl eq_refl)
    as (s' & H1 & H2 & H3 & H4 & _).
  - right. left. split; eexists; reflexivity.
  - exists s'. split; [exact H1 |]. split; [exact H2 |].
    split; [exact H3 | exact H4].
Defined.

(** On the sample stores: two outputs, a connected pair, an enabled
    input. *)
Lemma connect_rejections_witness :
  mmal_port_connect sample_externals (Some 1%nat) (Some 3%nat) (sample_state 0 0 [])
  = Done MMAL_EINVAL (sample_state 0 0 [])
  /\ mmal_port_connect sample_externals (Some 1%nat) (Some 2%nat) (connected_state 0 0)
     = Done MMAL_EISCONN (connected_state 0 0)
  /\ mmal_port_connect sample_externals (Some 1%nat) (Some 2%nat) (sample_state 0 1 [])
     = Done MMAL_EINVAL (sample_state 0 1 []).
Proof.
  split; [| split].
  - apply (proj1 (connect_rejections sample_externals (sample_state 0 0 []) 1%nat 3%nat
                    _ _ eq_refl eq_refl
                    (ex_intro _ _ eq_refl) (ex_intro _ _ eq_refl))).
    intros [[H _] | [_ H]]; vm_compute in H; discriminate.
  - apply (proj1 (proj2 (connect_rejections sample_externals (connected_state 0 0)
                           1%nat 2%nat _ _ eq_refl eq_refl
                           (ex_intro _ _ eq_refl) (ex_intro _ _ eq_refl)))).
    + right. split; reflexivity.
    + left. eexists; reflexivity.
  - apply (proj2 (proj2 (connect_rejections sample_externals (sample_state 0 1 [])
                           1%nat 2%nat _ _ eq_refl eq_refl
                           (ex_intro _ _ eq_refl) (ex_intro _ _ eq_refl)))).
    + right. split; reflexivity.
    + reflexivity.
    + reflexivity.
    + right. vm_compute. discriminate.
Defined.

(** On the sample store: port 4 has fewer buffers than its minimum, adopts
    those of port 2, passes both checks and gets the status of its enable
    function. *)
Lemma enable_checks_after_adoption_witness :
  Port.buffer_num (port_at below_minima_state 4%nat) = 1
  /\ Port.buffer_num_min (port_at below_minima_state 4%nat) = 2
  /\ exists s',
       mmal_port_enable sample_constants sample_externals 1 (Some 4%nat) None
         below_minima_state
       = Done MMAL_EIO s'
       /\ Port.buffer_num (port_at s' 4%nat) = 5
       /\ Port.buffer_size (port_at s' 4%nat) = 4096.
Proof.
  split; [reflexivity |]. split; [reflexivity |].
  destruct (enable_checks_after_adoption sample_constants sample_externals 0
              below_minima_state 4%nat 2%nat _ 1%nat None
              eq_refl eq_refl eq_refl eq_refl eq_refl)
    as (_ & _ & _ & _ & H).
  eexists. split.
  - apply (H ltac:(vm_compute; discriminate) ltac:(vm_compute; discriminate) eq_refl).
    vm_compute. discriminate.
  - split; reflexivity.
Defined.

(** On the sample store: the overwritten pointer of port 1 is put back, and
    the next commit succeeds. *)
Lemma format_commit_restores_clobbered_pointer_witness :
  mmal_port_format_commit sample_externals (Some 1%nat) clobbered_state
  = Done MMAL_EFAULT (sample_state 0 0 [])
  /\ exists s2,
       mmal_port_format_commit sample_externals (Some 1%nat) (sample_state 0 0 [])
       = Done MMAL_SUCCESS s2.
Proof.
  destruct (format_commit_restores_clobbered_pointer sample_externals clobbered_state
              1%nat _ eq_refl) as (H1 & _ & _ & _ & _ & _ & H7).
  - vm_compute. discriminate.
  - split.
    + etransitivity; [exact H1 | vm_compute; reflexivity].
    + destruct (H7 0%nat 100%nat eq_refl eq_refl) as (s2 & H & _).
      * eexists. vm_compute. reflexivity.
      * exists s2. etransitivity; [| exact H]. vm_compute. reflexivity.
Defined.

(** On the sample store: buffer 8 is too small for the 168 bytes and is
    released; buffer 7 gets them zeroed. *)
Lemma event_get_format_changed_witness :
  (exists s', mmal_port_event_get sample_constants sample_externals (Some 1%nat)
                (Some None) (MMAL_EVENT_FORMAT_CHANGED sample_constants)
                (sample_state 0 0 [8%nat])
              = Done (MMAL_ENOSPC, Some None) s'
              /\ trace s' = [call_buffer_header_release 8%nat])
  /\ (exists s', mmal_port_event_get sample_constants sample_externals (Some 1%nat)
                   (Some None) (MMAL_EVENT_FORMAT_CHANGED sample_constants)
                   (sample_state 0 0 [7%nat])
                 = Done (MMAL_SUCCESS, Some (Some 7%nat)) s'
                 /\ BH.length (buffer_at s' 7%nat) = 168
                 /\ BH.data (buffer_at s' 7%nat)
                    = Some (replicate 168 0 ++ replicate 32 255)).
Proof.
  split.
  - eexists. split.
    + apply (proj1 (event_get_format_changed sample_constants sample_externals
                      (sample_state 0 0 [8%nat]) 1%nat _ None 8%nat [] small_buffer
                      eq_refl eq_refl eq_refl ltac:(vm_compute; discriminate)
                      ltac:(vm_compute; discriminate) ltac:(vm_compute; discriminate)
                      eq_refl)).
      reflexivity.
    + reflexivity.
  - destruct (proj2 (event_get_format_changed sample_constants sample_externals
                       (sample_state 0 0 [7%nat]) 1%nat _ None 7%nat [] sample_buffer
                       eq_refl eq_refl eq_refl ltac:(vm_compute; discriminate)
                       ltac:(vm_compute; discriminate) ltac:(vm_compute; discriminate)
                       eq_refl) ltac:(vm_compute; discriminate) _ eq_refl)
      as (s2 & H1 & H2 & _ & H3 & _).
    exists s2. split; [exact H1 |]. split; [exact H3 |].
    rewrite H2. vm_compute. reflexivity.
Defined.

(** On the sample store: port 3 has an empty vtable. *)
Lemma parameter_hooks_absent_witness :
  mmal_port_parameter_set sample_externals (Some 3%nat) (Some rx_reset_request)
    (sample_state 0 0 [])
  = Done MMAL_ENOSYS (sample_state 0 0 [])
  /\ exists prm' s',
       mmal_port_parameter_get sample_constants sample_externals (Some 3%nat)
         (Some rx_reset_request) (sample_state 0 0 [])
       = Done (MMAL_SUCCESS, Some prm') s'.
Proof.
  destruct (parameter_hooks_absent sample_constants sample_externals (sample_state 0 0 [])
              3%nat _ rx_reset_request eq_refl)
    as (H1 & _ & st & prm' & s' & _ & H3 & H4 & _).
  split.
  - etransitivity; [exact (H1 eq_refl) | reflexivity].
  - exists prm', s'. etransitivity; [exact (H4 eq_refl) |].
    rewrite (H3 eq_refl). reflexivity.
Defined.

(** Claim C4 as stated fails on a pair of which one port has a null connect
    slot: the test of the slots comes before the test of the types, and two
    inputs get [MMAL_ENOSYS].  Its three cases are also tested one after the
    other: an enabled port that is connected gets [MMAL_EISCONN]. *)
Lemma connect_without_hook :
  let s := no_connect_state in
  (~ one_input_one_output s 2%nat 5%nat
   /\ mmal_port_connect sample_externals (Some 2%nat) (Some 5%nat) s = Done MMAL_ENOSYS s
   /\ MMAL_ENOSYS <> MMAL_EINVAL)
  /\ (Port.is_enabled (port_at (connected_state 1 0) 1%nat) <> 0
      /\ mmal_port_connect sample_externals (Some 1%nat) (Some 2%nat) (connected_state 1 0)
         = Done MMAL_EISCONN (connected_state 1 0)
      /\ MMAL_EISCONN <> MMAL_EINVAL).
Proof.
  cbn zeta. split.
  - split; [| split; [vm_compute; reflexivity | discriminate]].
    intros [[_ H] | [H _]]; vm_compute in H; discriminate.
  - split; [vm_compute; discriminate |].
    split; [vm_compute; reflexivity | discriminate].
Qed.

(** Claim C5 as stated fails on an output port that is already enabled: it
    is turned down before the adoption, and keeps its 3 buffers of 2048
    bytes although the peer has 5 of 4096.  It fails as well on a disabled
    output port without an enable hook (port 3, connected to port 2):
    [mmal_port_enable] returns [MMAL_ENOSYS] before the adoption, and the
    port keeps its 3 buffers of 2048 bytes. *)
Lemma enable_on_enabled_port_adopts_nothing :
  let s := connected_state 1 0 in
  let t := upd_core 3%nat (Core.set_connected_port (Some 2%nat)) (sample_state 0 0 []) in
  (Port.type (port_at s 1%nat) = MMAL_PORT_TYPE_OUTPUT
   /\ Core.connected_port (core_at s 1%nat) = Some 2%nat
   /\ Port.buffer_num (port_at s 1%nat) = 3
   /\ Port.buffer_num (port_at s 2%nat) = 5
   /\ Port.buffer_size (port_at s 1%nat) = 2048
   /\ Port.buffer_size (port_at s 2%nat) = 4096
   /\ mmal_port_enable sample_constants sample_externals 1 (Some 1%nat) None s
      = Done MMAL_EINVAL s
   /\ mmal_port_enable_locked sample_constants sample_externals 1 1%nat None s
      = Done MMAL_EINVAL s
   /\ Port.buffer_num (port_at s 1%nat)
      <> Z.max (Port.buffer_num (port_at s 1%nat)) (Port.buffer_num (port_at s 2%nat))
   /\ Port.buffer_size (port_at s 1%nat)
      <> Z.max (Port.buffer_size (port_at s 1%nat)) (Port.buffer_size (port_at s 2%nat)))
  /\ (Port.type (port_at t 3%nat) = MMAL_PORT_TYPE_OUTPUT
      /\ Core.connected_port (core_at t 3%nat) = Some 2%nat
      /\ Port.is_enabled (port_at t 3%nat) = 0
      /\ slot Priv.pf_enable t 3%nat = None
      /\ Port.buffer_num (port_at t 3%nat) = 3
      /\ Port.buffer_num (port_at t 2%nat) = 5
      /\ mmal_port_enable sample_constants sample_externals 1 (Some 3%nat) None t
         = Done MMAL_ENOSYS t
      /\ Port.buffer_num (port_at t 3%nat)
         <> Z.max (Port.buffer_num (port_at t 3%nat)) (Port.buffer_num (port_at t 2%nat))).
Proof.
  cbn zeta. split.
  - do 8 (split; [reflexivity |]). split; vm_compute; discriminate.
  - do 6 (split; [reflexivity |]). split; [vm_compute; reflexivity |].
    vm_compute. discriminate.
Qed.

(** Claim C2 as stated fails on a port without an enable hook: the test of
    [pf_enable] comes before the lock and before every test the claim
    names.  Port 3 has no connected port; enabling it without a callback
    returns [MMAL_ENOSYS], not [MMAL_EINVAL], and so does enabling it with a
    callback once it has a connected port. *)
Lemma enable_without_hook :
  let s := sample_state 0 0 [] in
  let t := upd_core 3%nat (Core.set_connected_port (Some 2%nat)) s in
  slot Priv.pf_enable s 3%nat = None
  /\ Core.connected_port (core_at s 3%nat) = None
  /\ mmal_port_enable sample_constants sample_externals 1 (Some 3%nat) None s
     = Done MMAL_ENOSYS s
  /\ mmal_port_enable_locked sample_constants sample_externals 1 3%nat None s
     = Done MMAL_EINVAL s
  /\ Core.connected_port (core_at t 3%nat) = Some 2%nat
  /\ mmal_port_enable sample_constants sample_externals 1 (Some 3%nat)
       (Some (client_cb 9%nat)) t
     = Done MMAL_ENOSYS t
  /\ MMAL_ENOSYS <> MMAL_EINVAL
  /\ ~ (forall (K : Constants) (E : Externals) (fuel : nat) (s : State) (port : port_id)
               (cb : option MMAL_PORT_BH_CB_T),
          Port.is_enabled (port_at s port) <> 0
          \/ (is_Some (Core.connected_port (core_at s port)) /\ is_Some cb)
          \/ (Core.connected_port (core_at s port) = None /\ cb = None) ->
          exists s', mmal_port_enable K E (S fuel) (Some port) cb s = Done MMAL_EINVAL s').
Proof.
  cbn zeta.
  do 2 (split; [reflexivity |]). split; [vm_compute; reflexivity |].
  split; [vm_compute; reflexivity |]. split; [reflexivity |].
  split; [vm_compute; reflexivity |]. split; [discriminate |].
  intros H.
  destruct (H sample_constants sample_externals 0%nat (sample_state 0 0 []) 3%nat None
              (or_intror (or_intror (conj eq_refl eq_refl)))) as (s' & Hs').
  vm_compute in Hs'. discriminate.
Qed.

(** * Further properties of the port core *)

(** ** In-transit accounting *)

Lemma upd_core_id (s : State) (p : port_id) (f : Core.t -> Core.t) :
  (forall pr, Port.priv (port_at s p) = Some pr -> f (Priv.core pr) = Priv.core pr) ->
  upd_core p f s = s.
Proof.
  intros H. unfold upd_core. apply upd_port_id. intros x Hx.
  assert (port_at s p = x) as <- by (unfold port_at; rewrite Hx; reflexivity).
  unfold Port.upd_core. destruct (Port.priv (port_at s p)) as [pr |] eqn:Hp; [| reflexivity].
  rewrite (H pr eq_refl). destruct pr; cbn.
  destruct (port_at s p); cbn in *. rewrite Hp. reflexivity.
Qed.

Lemma core_at_priv (s : State) (p : port_id) (pr : Priv.t) :
  Port.priv (port_at s p) = Some pr -> core_at s p = Priv.core pr.
Proof. intros H. unfold core_at, Port.core. rewrite H. reflexivity. Qed.

Lemma IN_TRANSIT_DECREMENT_returns (s : State) (p : port_id) (pr : Priv.t) :
  Port.priv (port_at s p) = Some pr ->
  IN_TRANSIT_DECREMENT p s = Done tt (in_transit_returned p s).
Proof.
  intros Hpriv. unfold IN_TRANSIT_DECREMENT, in_transit_returned. run_steps.
  set (new := to_int32 (IN_TRANSIT_COUNT s p - 1)).
  destruct (new =? 0); cbn beta iota.
  - unfold vcos_semaphore_post. run_steps.
    rewrite (core_at_upd_core_eq _ _ _ _ Hpriv), upd_core_compose.
    apply (f_equal (Done tt)). unfold upd_core. apply upd_port_ext. intros x Hx.
    assert (port_at s p = x) as <- by (unfold port_at; rewrite Hx; reflexivity).
    unfold Port.upd_core. rewrite Hpriv. rewrite (core_at_priv _ _ _ Hpriv). reflexivity.
  - apply (f_equal (Done tt)). apply upd_core_ext. intros []; reflexivity.
Qed.

Lemma in_transit_returned_facts (s : State) (p : port_id) (pr : Priv.t) :
  Port.priv (port_at s p) = Some pr ->
  IN_TRANSIT_COUNT (in_transit_returned p s) p = to_int32 (IN_TRANSIT_COUNT s p - 1)
  /\ Core.transit_sema (core_at (in_transit_returned p s) p)
     = (if to_int32 (IN_TRANSIT_COUNT s p - 1) =? 0
        then S (Core.transit_sema (core_at s p))
        else Core.transit_sema (core_at s p))
  /\ trace (in_transit_returned p s) = trace s.
Proof.
  intros Hpriv. unfold in_transit_returned, IN_TRANSIT_COUNT.
  rewrite (core_at_upd_core_eq _ _ _ _ Hpriv). repeat split.
Qed.

Lemma in_transit_returned_claimed (s : State) (p : port_id) (pr : Priv.t) :
  Port.priv (port_at s p) = Some pr ->
  is_int32 (IN_TRANSIT_COUNT s p + 1) -> is_int32 (IN_TRANSIT_COUNT s p) ->
  (IN_TRANSIT_COUNT s p = 0 -> Core.transit_sema (core_at s p) <> 0%nat) ->
  in_transit_returned p (in_transit_claimed p s) = s.
Proof.
  intros Hpriv H1 H0 Hsema.
  destruct (in_transit_claimed_facts s p pr Hpriv) as (Hc & _).
  unfold in_transit_returned. rewrite Hc.
  rewrite (to_int32_id _ H1).
  replace (IN_TRANSIT_COUNT s p + 1 - 1) with (IN_TRANSIT_COUNT s p) by lia.
  rewrite (to_int32_id _ H0).
  unfold in_transit_claimed. rewrite upd_core_compose.
  apply upd_core_id. intros pr' Hpr'. rewrite Hpriv in Hpr'. injection Hpr' as <-.
  unfold IN_TRANSIT_COUNT in *. rewrite (core_at_priv _ _ _ Hpriv) in *.
  destruct (Priv.core pr) as [cb n sema fc cp own ap pool st nm ns]; cbn in *.
  unfold Core.set_transit_sema, Core.set_transit_buffer_headers; cbn.
  destruct (Z.eqb_spec n 0) as [-> | Hn]; cbn.
  - specialize (Hsema eq_refl). destruct sema; [congruence | reflexivity].
  - reflexivity.
Qed.

(** X1.  On a port whose in-transit accounting is balanced,
    [IN_TRANSIT_INCREMENT] returns with the counter one higher and the
    semaphore taken, keeps the accounting balanced, and a following
    [IN_TRANSIT_DECREMENT] gives back the store as it was before the pair;
    [IN_TRANSIT_DECREMENT] on a positive counter lowers it by one and keeps
    the accounting balanced. *)
Theorem in_transit_accounting_balanced (s : State) (p : port_id) (pr : Priv.t)
    (Hpriv : Port.priv (port_at s p) = Some pr)
    (Hbal : transit_balanced s p)
    (Hmax : IN_TRANSIT_COUNT s p < 2 ^ 31 - 1) :
  (exists s1,
     IN_TRANSIT_INCREMENT p s = Done tt s1
     /\ IN_TRANSIT_COUNT s1 p = IN_TRANSIT_COUNT s p + 1
     /\ Core.transit_sema (core_at s1 p) = 0%nat
     /\ transit_balanced s1 p
     /\ IN_TRANSIT_DECREMENT p s1 = Done tt s)
  /\ (0 < IN_TRANSIT_COUNT s p ->
      exists s1,
        IN_TRANSIT_DECREMENT p s = Done tt s1
        /\ IN_TRANSIT_COUNT s1 p = IN_TRANSIT_COUNT s p - 1
        /\ transit_balanced s1 p).
Proof.
  destruct Hbal as [Hge Hsema].
  assert (H0 : is_int32 (IN_TRANSIT_COUNT s p)) by (unfold is_int32; lia).
  assert (H1 : is_int32 (IN_TRANSIT_COUNT s p + 1)) by (unfold is_int32; lia).
  assert (Hm : is_int32 (IN_TRANSIT_COUNT s p - 1) \/ IN_TRANSIT_COUNT s p = 0).
  { unfold is_int32. lia. }
  assert (Hclaim : IN_TRANSIT_COUNT s p = 0 -> Core.transit_sema (core_at s p) <> 0%nat).
  { intros Hz. rewrite Hsema, Hz. discriminate. }
  split.
  - exists (in_transit_claimed p s).
    destruct (in_transit_claimed_facts s p pr Hpriv) as (Hc & Hs & _ & _).
    assert (Hpriv1 : is_Some (Port.priv (port_at (in_transit_claimed p s) p))).
    { unfold in_transit_claimed. rewrite (priv_upd_core _ _ _ _ Hpriv). eauto. }
    destruct Hpriv1 as [pr1 Hpriv1].
    rewrite (to_int32_id _ H1) in Hc.
    assert (Hs0 : Core.transit_sema (core_at (in_transit_claimed p s) p) = 0%nat).
    { rewrite Hs, Hsema. destruct (IN_TRANSIT_COUNT s p =? 0); reflexivity. }
    split; [apply (IN_TRANSIT_INCREMENT_claims _ _ _ Hpriv Hclaim) |].
    split; [exact Hc |]. split; [exact Hs0 |].
    split.
    + unfold transit_balanced. rewrite Hc, Hs0. split; [lia |].
      destruct (Z.eqb_spec (IN_TRANSIT_COUNT s p + 1) 0); [lia | reflexivity].
    + rewrite (IN_TRANSIT_DECREMENT_returns _ _ _ Hpriv1).
      apply (f_equal (Done tt)). apply (in_transit_returned_claimed _ _ _ Hpriv H1 H0 Hclaim).
  - intros Hpos. exists (in_transit_returned p s).
    destruct (in_transit_returned_facts s p pr Hpriv) as (Hc & Hs & _).
    assert (Hi : is_int32 (IN_TRANSIT_COUNT s p - 1)) by (unfold is_int32; lia).
    rewrite (to_int32_id _ Hi) in Hc, Hs.
    split; [apply (IN_TRANSIT_DECREMENT_returns _ _ _ Hpriv) |].
    split; [exact Hc |].
    unfold transit_balanced. rewrite Hc, Hs, Hsema. split; [lia |].
    destruct (Z.eqb_spec (IN_TRANSIT_COUNT s p) 0); [lia |].
    destruct (IN_TRANSIT_COUNT s p - 1 =? 0); reflexivity.
Qed.

(** The pair on port 1 of the sample store. *)
Lemma in_transit_accounting_balanced_witness :
  exists s1,
    IN_TRANSIT_INCREMENT 1%nat (sample_state 1 0 []) = Done tt s1
    /\ IN_TRANSIT_COUNT s1 1%nat = 1
    /\ IN_TRANSIT_DECREMENT 1%nat s1 = Done tt (sample_state 1 0 []).
Proof.
  assert (Hpriv : Port.priv (port_at (sample_state 1 0 []) 1%nat)
                  = Some (sample_priv 0%nat (sample_core 1%nat))) by reflexivity.
  assert (Hbal : transit_balanced (sample_state 1 0 []) 1%nat).
  { unfold transit_balanced. vm_compute. split; [discriminate | reflexivity]. }
  assert (Hmax : IN_TRANSIT_COUNT (sample_state 1 0 []) 1%nat < 2 ^ 31 - 1).
  { vm_compute. reflexivity. }
  destruct (proj1 (in_transit_accounting_balanced _ _ _ Hpriv Hbal Hmax))
    as (s1 & Hrun & Hc & _ & _ & Hback).
  exists s1. split; [exact Hrun |]. split; [exact Hc |]. exact Hback.
Defined.

(** ** Waiting for the buffers in transit *)

Lemma IN_TRANSIT_WAIT_run (s : State) (p : port_id) (pr : Priv.t) :
  Port.priv (port_at s p) = Some pr ->
  IN_TRANSIT_WAIT p s
  = if decide (Core.transit_sema (core_at s p) = 0%nat) then Stuck sema_blocked else Done tt s.
Proof.
  intros Hpriv. unfold IN_TRANSIT_WAIT, vcos_semaphore_wait, vcos_semaphore_post. run_steps.
  destruct (Core.transit_sema (core_at s p)) as [| n] eqn:Hsema; cbn.
  - reflexivity.
  - rewrite (core_at_upd_core_eq _ _ _ _ Hpriv), upd_core_compose.
    apply (f_equal (Done tt)). apply upd_core_id.
    intros pr' Hpr'. rewrite Hpriv in Hpr'. injection Hpr' as <-.
    rewrite (core_at_priv _ _ _ Hpriv) in Hsema.
    destruct (Priv.core pr); cbn in *. rewrite Hsema. reflexivity.
Qed.

(** X2.  [IN_TRANSIT_WAIT] on a port whose accounting is balanced returns
    with the store as it was when no buffer is in transit, and does not
    return (it waits on the semaphore) while one is. *)
Theorem in_transit_wait_blocks_until_returned (s : State) (p : port_id) (pr : Priv.t)
    (Hpriv : Port.priv (port_at s p) = Some pr)
    (Hbal : transit_balanced s p) :
  (IN_TRANSIT_COUNT s p = 0 -> IN_TRANSIT_WAIT p s = Done tt s)
  /\ (0 < IN_TRANSIT_COUNT s p -> IN_TRANSIT_WAIT p s = Stuck sema_blocked).
Proof.
  destruct Hbal as [_ Hsema]. rewrite (IN_TRANSIT_WAIT_run _ _ _ Hpriv), Hsema.
  split; intros H.
  - rewrite H. reflexivity.
  - destruct (Z.eqb_spec (IN_TRANSIT_COUNT s p) 0); [lia | reflexivity].
Qed.

(** On port 1 of the sample store, idle and with one buffer in transit. *)
Lemma in_transit_wait_blocks_until_returned_witness :
  IN_TRANSIT_WAIT 1%nat (sample_state 1 0 []) = Done tt (sample_state 1 0 [])
  /\ IN_TRANSIT_WAIT 1%nat (in_transit_claimed 1%nat (sample_state 1 0 []))
     = Stuck sema_blocked.
Proof.
  split.
  - refine (proj1 (in_transit_wait_blocks_until_returned (sample_state 1 0 []) 1%nat
                     (sample_priv 0%nat (sample_core 1%nat)) eq_refl _) eq_refl).
    unfold transit_balanced. vm_compute. split; [discriminate | reflexivity].
  - refine (proj2 (in_transit_wait_blocks_until_returned
                     (in_transit_claimed 1%nat (sample_state 1 0 [])) 1%nat
                     _ eq_refl _) eq_refl).
    unfold transit_balanced. vm_compute. split; [discriminate | reflexivity].
Defined.

(** ** Disable *)

Lemma is_success_false (st : MMAL_STATUS_T) : st <> MMAL_SUCCESS -> is_success st = false.
Proof. destruct st; intros H; try reflexivity. congruence. Qed.

Lemma port_at_upd_pool (s : State) (q : pool_id) (f : Pool.t -> Pool.t) (p : port_id) :
  port_at (upd_pool q f s) p = port_at s p.
Proof. reflexivity. Qed.

Lemma port_at_set_trace (s : State) (t : list Call) (p : port_id) :
  port_at (set_trace t s) p = port_at s p.
Proof. reflexivity. Qed.

Lemma at_disable_hook_port (s : State) (p q : port_id) :
  port_at (at_disable_hook p s) q = port_at (upd_port p (Port.set_is_enabled 0) s) q.
Proof.
  unfold at_disable_hook. cbv zeta.
  destruct (Core.pool_for_connection _); reflexivity.
Qed.

Lemma at_disable_hook_trace (s : State) (p : port_id) :
  trace (at_disable_hook p s) = trace s.
Proof.
  unfold at_disable_hook. cbv zeta.
  destruct (Core.pool_for_connection _); reflexivity.
Qed.

(** [mmal_port_disable_locked] up to the return of the hook. *)
Lemma disable_locked_run (E : Externals) (fuel : nat) (s : State) (p : port_id)
    (pr : Priv.t) (f : code_ptr) :
  Port.priv (port_at s p) = Some pr ->
  Priv.pf_disable pr = Some f ->
  Port.is_enabled (port_at s p) <> 0 ->
  mmal_port_disable_locked E (S fuel) p s
  = let r := run_disable E f p (at_disable_hook p s) in
    let s3 := set_trace (call_pf_disable f p :: trace s) (snd r) in
    if negb (is_success (fst r))
    then Done (fst r) (upd_port p (Port.set_is_enabled 1) s3)
    else
      match IN_TRANSIT_WAIT p s3 with
      | Stuck w => Stuck w
      | Done _ s4 =>
          let s5 := upd_core p (Core.set_buffer_header_callback None) s4 in
          match Core.connected_port (core_at s5 p) with
          | Some cp =>
              if is_output (Port.type (port_at s5 p))
              then match mmal_port_disable E fuel (Some cp) s5 with
                   | Done _ s6 => Done (fst r) s6
                   | Stuck w => Stuck w
                   end
              else Done (fst r) s5
          | None => Done (fst r) s5
          end
      end.
Proof.
  intros Hpriv Hhook Hen.
  cbn [mmal_port_disable_locked]. run_steps.
  apply nonzero_true in Hen. rewrite Hen. cbn [negb]. cbn beta iota.
  set (s1 := upd_port p (Port.set_is_enabled 0) s).
  assert (Hslot : slot Priv.pf_disable (at_disable_hook p s) p = Some f).
  { unfold slot. rewrite at_disable_hook_port. fold s1. unfold s1.
    rewrite (port_at_upd_port_eq _ _ _ _ Hpriv). cbn. rewrite Hpriv. exact Hhook. }
  assert (Hpre : (match Core.pool_for_connection (core_at s1 p) with
                  | Some q => mmal_pool_callback_set q None None
                  | None => fun s2 => Done tt s2
                  end) s1 = Done tt (at_disable_hook p s)).
  { unfold at_disable_hook. cbv zeta. fold s1.
    destruct (Core.pool_for_connection (core_at s1 p)); reflexivity. }
  rewrite Hpre. cbn beta iota.
  unfold call_disable. run_steps. rewrite Hslot. cbn beta iota.
  unfold call. rewrite at_disable_hook_trace.
  destruct (run_disable E f p (at_disable_hook p s)) as [st s2]. cbn [fst snd].
  cbv zeta.
  destruct (is_success st); cbn [negb]; cbn beta iota; [| reflexivity].
  destruct (IN_TRANSIT_WAIT p _) as [[] s4 |]; [| reflexivity]. cbn beta iota.
  destruct (Core.connected_port _) as [cp |]; [| reflexivity].
  destruct (is_output _); [| reflexivity].
  destruct (mmal_port_disable E fuel (Some cp) _); reflexivity.
Qed.

(** X3.  [mmal_port_disable_locked] on an enabled port calls the disable
    hook on a store where the port is already marked disabled.  When the
    hook fails, its status is returned and [is_enabled] is set to 1, without
    waiting and with the stored callback as the hook left it.  When the hook
    succeeds while the semaphore is taken (buffers are in transit), the
    function does not return.  When it succeeds with the semaphore free on a
    port that has no connected port or is not an output, the function
    returns [MMAL_SUCCESS] and the only change after the hook is that the
    stored callback is cleared. *)
Theorem disable_locked_outcomes (E : Externals) (fuel : nat) (s : State) (p : port_id)
    (pr : Priv.t) (f : code_ptr) (st : MMAL_STATUS_T) (s2 : State)
    (Hpriv : Port.priv (port_at s p) = Some pr)
    (Hhook : Priv.pf_disable pr = Some f)
    (Hen : Port.is_enabled (port_at s p) <> 0)
    (Hrun : run_disable E f p (at_disable_hook p s) = (st, s2))
    (Hpriv2 : is_Some (Port.priv (port_at s2 p))) :
  let s3 := set_trace (call_pf_disable f p :: trace s) s2 in
  Port.is_enabled (port_at (at_disable_hook p s) p) = 0
  /\ (st <> MMAL_SUCCESS ->
      mmal_port_disable_locked E (S fuel) p s
      = Done st (upd_port p (Port.set_is_enabled 1) s3)
      /\ Port.is_enabled (port_at (upd_port p (Port.set_is_enabled 1) s3) p) = 1
      /\ Core.buffer_header_callback (core_at (upd_port p (Port.set_is_enabled 1) s3) p)
         = Core.buffer_header_callback (core_at s2 p))
  /\ (st = MMAL_SUCCESS ->
      Core.transit_sema (core_at s2 p) = 0%nat ->
      mmal_port_disable_locked E (S fuel) p s = Stuck sema_blocked)
  /\ (st = MMAL_SUCCESS ->
      Core.transit_sema (core_at s2 p) <> 0%nat ->
      Core.connected_port (core_at s2 p) = None
      \/ Port.type (port_at s2 p) <> MMAL_PORT_TYPE_OUTPUT ->
      mmal_port_disable_locked E (S fuel) p s
      = Done MMAL_SUCCESS (upd_core p (Core.set_buffer_header_callback None) s3)
      /\ Core.buffer_header_callback
           (core_at (upd_core p (Core.set_buffer_header_callback None) s3) p) = None
      /\ Port.is_enabled (port_at (upd_core p (Core.set_buffer_header_callback None) s3) p)
         = Port.is_enabled (port_at s2 p)).
Proof.
  intros s3. destruct Hpriv2 as [pr2 Hpriv2].
  assert (Hpriv3 : Port.priv (port_at s3 p) = Some pr2) by exact Hpriv2.
  pose proof (disable_locked_run E fuel s p pr f Hpriv Hhook Hen) as Hgo.
  rewrite Hrun in Hgo. cbv zeta in Hgo. cbn [fst snd] in Hgo. fold s3 in Hgo.
  split.
  { rewrite at_disable_hook_port, (port_at_upd_port_eq _ _ _ _ Hpriv). reflexivity. }
  split; [| split].
  - intros Hfail. rewrite Hgo.
    assert (is_success st = false) as -> by (apply is_success_false; assumption).
    cbn [negb]. split; [reflexivity |].
    split.
    + rewrite (port_at_upd_port_eq _ _ _ _ Hpriv3). reflexivity.
    + unfold core_at. rewrite (port_at_upd_port_eq _ _ _ _ Hpriv3). reflexivity.
  - intros -> Hsema. rewrite Hgo. cbn [is_success negb].
    rewrite (IN_TRANSIT_WAIT_run _ _ _ Hpriv3).
    change (core_at s3 p) with (core_at s2 p). rewrite Hsema. reflexivity.
  - intros -> Hsema Hend. rewrite Hgo. cbn [is_success negb].
    rewrite (IN_TRANSIT_WAIT_run _ _ _ Hpriv3).
    change (core_at s3 p) with (core_at s2 p).
    destruct (decide (Core.transit_sema (core_at s2 p) = 0%nat)) as [? | _]; [congruence |].
    assert (Hc : core_at (upd_core p (Core.set_buffer_header_callback None) s3) p
                 = Core.set_buffer_header_callback None (core_at s2 p)).
    { apply (core_at_upd_core_eq _ _ _ _ Hpriv3). }
    assert (Ht : forall {A} (g : Port.t -> A),
               (forall x v, g (Port.set_priv v x) = g x) ->
               g (port_at (upd_core p (Core.set_buffer_header_callback None) s3) p)
               = g (port_at s2 p)).
    { intros A g Hg. unfold upd_core. rewrite (port_at_upd_port_eq _ _ _ _ Hpriv3).
      apply upd_core_public. exact Hg. }
    rewrite Hc. cbn [Core.connected_port Core.set_buffer_header_callback
                     Core.buffer_header_callback].
    rewrite (Ht _ Port.type) by reflexivity.
    rewrite (Ht _ Port.is_enabled) by reflexivity.
    split; [| split; reflexivity].
    destruct Hend as [-> | Hty]; [reflexivity |].
    destruct (Core.connected_port (core_at s2 p)); [| reflexivity].
    assert (is_output (Port.type (port_at s2 p)) = false) as ->
      by (destruct (Port.type (port_at s2 p)); try reflexivity; congruence).
    reflexivity.
Qed.

(** Port 4 of the sample store, whose hook fails, and port 1, whose hook
    succeeds. *)
Lemma disable_locked_outcomes_witness :
  (exists s', mmal_port_disable_locked sample_externals 1 4%nat (sample_state 1 0 [])
              = Done MMAL_EIO s'
              /\ Port.is_enabled (port_at s' 4%nat) = 1)
  /\ (exists s', mmal_port_disable_locked sample_externals 1 1%nat (sample_state 1 0 [])
                 = Done MMAL_SUCCESS s'
                 /\ Port.is_enabled (port_at s' 1%nat) = 0
                 /\ Core.buffer_header_callback (core_at s' 1%nat) = None).
Proof.
  split.
  - destruct (disable_locked_outcomes sample_externals 0 (sample_state 1 0 []) 4%nat
                (sample_priv 1%nat (sample_core 4%nat)) 1%nat MMAL_EIO
                (at_disable_hook 4%nat (sample_state 1 0 []))
                eq_refl eq_refl ltac:(vm_compute; discriminate) eq_refl
                (ex_intro _ _ eq_refl)) as (_ & Hfail & _).
    destruct (Hfail ltac:(discriminate)) as (Hgo & Hen & _).
    eexists. split; [exact Hgo | exact Hen].
  - destruct (disable_locked_outcomes sample_externals 0 (sample_state 1 0 []) 1%nat
                (sample_priv 0%nat (sample_core 1%nat)) 0%nat MMAL_SUCCESS
                (at_disable_hook 1%nat (sample_state 1 0 []))
                eq_refl eq_refl ltac:(vm_compute; discriminate) eq_refl
                (ex_intro _ _ eq_refl)) as (_ & _ & _ & Hok).
    destruct (Hok eq_refl ltac:(vm_compute; discriminate) (or_introl eq_refl))
      as (Hgo & Hcb & Hen).
    eexists. split; [exact Hgo |]. split; [| exact Hcb].
    etransitivity; [exact Hen | vm_compute; reflexivity].
Defined.

(** [mmal_port_disable] behind its checks. *)
Lemma disable_run (E : Externals) (fuel : nat) (s : State) (p : port_id)
    (pr : Priv.t) (f : code_ptr) :
  Port.priv (port_at s p) = Some pr ->
  Priv.pf_disable pr = Some f ->
  mmal_port_disable E (S fuel) (Some p) s
  = match mmal_port_disable_locked E fuel p s with
    | Stuck w => Stuck w
    | Done st s1 =>
        let s2 := upd_core p (Core.set_pool_for_connection None) s1 in
        match (if is_success st then Core.pool_for_connection (core_at s1 p) else None) with
        | Some q => Done st (set_trace (call_pool_destroy q :: trace s2) (pool_destroy E q s2))
        | None => Done st s2
        end
    end.
Proof.
  intros Hpriv Hhook. cbn [mmal_port_disable]. run_steps.
  unfold valid_port. rewrite Hpriv. cbn beta iota. rewrite Hhook. cbn beta iota.
  run_steps.
  destruct (mmal_port_disable_locked E fuel p s) as [st s1 |]; [| reflexivity].
  cbn beta iota. cbv zeta.
  destruct (is_success st) eqn:Hst; [| reflexivity].
  destruct (Core.pool_for_connection (core_at s1 p)); reflexivity.
Qed.

(** X4.  [mmal_port_disable] on a port that has a disable hook but is not
    enabled returns [MMAL_EINVAL] without calling the hook, and still clears
    [pool_for_connection]: the pool it pointed to is not destroyed.  The
    same holds whenever [mmal_port_disable_locked] fails; when it succeeds,
    the pool is destroyed after the pointer is cleared. *)
Theorem disable_clears_pool_pointer (E : Externals) (fuel : nat) (s : State)
    (p : port_id) (pr : Priv.t) (f : code_ptr)
    (Hpriv : Port.priv (port_at s p) = Some pr)
    (Hhook : Priv.pf_disable pr = Some f) :
  let forget := upd_core p (Core.set_pool_for_connection None) in
  (Port.is_enabled (port_at s p) = 0 ->
   mmal_port_disable E (S (S fuel)) (Some p) s = Done MMAL_EINVAL (forget s)
   /\ Core.pool_for_connection (core_at (forget s) p) = None
   /\ pools (forget s) = pools s
   /\ trace (forget s) = trace s)
  /\ (forall st s1,
        mmal_port_disable_locked E (S fuel) p s = Done st s1 ->
        st <> MMAL_SUCCESS ->
        mmal_port_disable E (S (S fuel)) (Some p) s = Done st (forget s1))
  /\ (forall s1 q,
        mmal_port_disable_locked E (S fuel) p s = Done MMAL_SUCCESS s1 ->
        Core.pool_for_connection (core_at s1 p) = Some q ->
        mmal_port_disable E (S (S fuel)) (Some p) s
        = Done MMAL_SUCCESS
            (set_trace (call_pool_destroy q :: trace s1) (pool_destroy E q (forget s1)))).
Proof.
  intros forget. rewrite (disable_run E (S fuel) s p pr f Hpriv Hhook).
  split; [| split].
  - intros Hdis.
    assert (Hgo : mmal_port_disable_locked E (S fuel) p s = Done MMAL_EINVAL s).
    { cbn [mmal_port_disable_locked]. run_steps.
      apply nonzero_false in Hdis. rewrite Hdis. reflexivity. }
    rewrite Hgo. cbn. split; [reflexivity |].
    split; [| split; reflexivity].
    unfold forget. rewrite (core_at_upd_core_eq _ _ _ _ Hpriv). reflexivity.
  - intros st s1 -> Hfail.
    assert (is_success st = false) as -> by (apply is_success_false; assumption).
    reflexivity.
  - intros s1 q -> Hq. cbn [is_success]. rewrite Hq. reflexivity.
Qed.

(** Port 1 of the sample store, disabled and holding a connection pool; and
    port 4, enabled, whose hook fails. *)
Lemma disable_clears_pool_pointer_witness :
  let s := upd_core 1%nat (Core.set_pool_for_connection (Some 0%nat)) (sample_state 0 0 []) in
  mmal_port_disable sample_externals 2 (Some 1%nat) s = Done MMAL_EINVAL (sample_state 0 0 [])
  /\ pools s = pools (sample_state 0 0 [])
  /\ exists s', mmal_port_disable sample_externals 2 (Some 4%nat) (sample_state 0 0 [])
                = Done MMAL_EIO s'.
Proof.
  intros s. split; [| split].
  - etransitivity.
    + exact (proj1 (proj1 (disable_clears_pool_pointer sample_externals 0 s 1%nat _ 0%nat
                             eq_refl eq_refl) eq_refl)).
    + vm_compute. reflexivity.
  - reflexivity.
  - eexists.
    refine (proj1 (proj2 (disable_clears_pool_pointer sample_externals 0
                            (sample_state 0 0 []) 4%nat _ 1%nat eq_refl eq_refl))
              MMAL_EIO _ _ _); [vm_compute; reflexivity | discriminate].
Defined.

(** ** Enable *)

(** [mmal_port_enable_locked] behind its checks, on a port that adopts
    nothing from a connected port. *)
Lemma enable_locked_run (K : Constants) (E : Externals) (fuel : nat) (s : State)
    (p : port_id) (pr : Priv.t) (f : code_ptr) (cb : option MMAL_PORT_BH_CB_T) :
  Port.priv (port_at s p) = Some pr ->
  Priv.pf_enable pr = Some f ->
  Port.is_enabled (port_at s p) = 0 ->
  Core.connected_port (core_at s p) = None
  \/ Port.type (port_at s p) <> MMAL_PORT_TYPE_OUTPUT ->
  Port.buffer_num_min (port_at s p) <= Port.buffer_num (port_at s p) ->
  Port.buffer_size_min (port_at s p) <= Port.buffer_size (port_at s p) ->
  (Core.connected_port (core_at s p) = None <-> is_Some cb) ->
  mmal_port_enable_locked K E (S fuel) p cb s
  = let r := run_enable E f p cb (upd_core p (Core.set_buffer_header_callback cb) s) in
    let s3 := set_trace (call_pf_enable f p cb :: trace s) (snd r) in
    if negb (is_success (fst r)) then Done (fst r) s3
    else
      let s4 := upd_port p (Port.set_is_enabled 1) s3 in
      match Core.connected_port (core_at s p) with
      | Some cp =>
          if is_input (Port.type (port_at s4 p))
          then Done (fst r)
                 (upd_core p (Core.set_buffer_header_callback
                                (Some mmal_port_connected_input_cb)) s4)
          else mmal_port_enable_locked_connected K E fuel p cp s4
      | None => Done (fst r) s4
      end.
Proof.
  intros Hpriv Hhook Hdis Hadopt Hnum Hsize Hcb.
  cbn [mmal_port_enable_locked]. run_steps.
  apply nonzero_false in Hdis. rewrite Hdis. cbn beta iota.
  assert (Hpre : (match Core.connected_port (core_at s p) with
                  | Some cp =>
                      if is_output (Port.type (port_at s p))
                      then adopt_maxima p cp else fun s0 => Done tt s0
                  | None => fun s0 => Done tt s0
                  end) s = Done tt s).
  { destruct Hadopt as [-> | Hty]; [reflexivity |].
    destruct (Core.connected_port (core_at s p)); [| reflexivity].
    destruct (Port.type (port_at s p)); try reflexivity. congruence. }
  rewrite Hpre. cbn beta iota.
  apply Z.ltb_ge in Hnum. rewrite Hnum. cbn beta iota.
  apply Z.ltb_ge in Hsize. rewrite Hsize. cbn beta iota.
  assert (Hx : Bool.eqb (negb (bool_decide (is_Some (Core.connected_port (core_at s p)))))
                 (negb (bool_decide (is_Some cb))) = false).
  { destruct (Core.connected_port (core_at s p)) as [cp |] eqn:Hc.
    - rewrite bool_decide_eq_true_2 by eauto.
      destruct cb as [c |].
      + destruct Hcb as [_ Hcb]. specialize (Hcb (ex_intro _ c eq_refl)). discriminate.
      + rewrite bool_decide_eq_false_2; [reflexivity |]. intros [? ?]; discriminate.
    - rewrite bool_decide_eq_false_2 by (intros [? ?]; discriminate).
      destruct Hcb as [Hcb _]. specialize (Hcb eq_refl).
      rewrite bool_decide_eq_true_2 by exact Hcb. reflexivity. }
  rewrite Hx. cbn beta iota.
  unfold call_enable. run_steps.
  rewrite slot_upd_core by reflexivity.
  unfold slot. rewrite Hpriv, Hhook. cbn beta iota.
  unfold call. cbn [trace upd_core upd_port set_ports].
  destruct (run_enable E f p cb _) as [st s2]. cbn [fst snd]. cbv zeta.
  destruct (is_success st); cbn [negb]; cbn beta iota; [| reflexivity].
  destruct (Core.connected_port (core_at s p)); [| reflexivity].
  destruct (is_input _); reflexivity.
Qed.

(** X5.  [mmal_port_enable] with a client callback on a disabled port that
    has no connected port and meets its buffer minima stores the callback
    before it calls the enable hook, with the port still marked disabled.
    When the hook fails, its status is returned and the core changes nothing
    after the hook: a hook that leaves the port as it found it leaves the
    callback stored.  When the hook succeeds, the only change after the hook
    is that [is_enabled] is set to 1. *)
Theorem enable_unconnected_outcomes (K : Constants) (E : Externals) (fuel : nat)
    (s : State) (p : port_id) (pr : Priv.t) (f : code_ptr) (c : MMAL_PORT_BH_CB_T)
    (st : MMAL_STATUS_T) (s2 : State)
    (Hpriv : Port.priv (port_at s p) = Some pr)
    (Hhook : Priv.pf_enable pr = Some f)
    (Hdis : Port.is_enabled (port_at s p) = 0)
    (Hcon : Core.connected_port (core_at s p) = None)
    (Hnum : Port.buffer_num_min (port_at s p) <= Port.buffer_num (port_at s p))
    (Hsize : Port.buffer_size_min (port_at s p) <= Port.buffer_size (port_at s p))
    (Hrun : run_enable E f p (Some c)
              (upd_core p (Core.set_buffer_header_callback (Some c)) s) = (st, s2))
    (Hpriv2 : is_Some (Port.priv (port_at s2 p))) :
  let s1 := upd_core p (Core.set_buffer_header_callback (Some c)) s in
  let s3 := set_trace (call_pf_enable f p (Some c) :: trace s) s2 in
  Core.buffer_header_callback (core_at s1 p) = Some c
  /\ Port.is_enabled (port_at s1 p) = 0
  /\ (st <> MMAL_SUCCESS ->
      mmal_port_enable K E (S fuel) (Some p) (Some c) s = Done st s3
      /\ (port_at s2 p = port_at s1 p ->
          Core.buffer_header_callback (core_at s3 p) = Some c
          /\ Port.is_enabled (port_at s3 p) = 0))
  /\ (st = MMAL_SUCCESS ->
      mmal_port_enable K E (S fuel) (Some p) (Some c) s
      = Done MMAL_SUCCESS (upd_port p (Port.set_is_enabled 1) s3)
      /\ Port.is_enabled (port_at (upd_port p (Port.set_is_enabled 1) s3) p) = 1
      /\ Core.buffer_header_callback (core_at (upd_port p (Port.set_is_enabled 1) s3) p)
         = Core.buffer_header_callback (core_at s2 p)).
Proof.
  intros s1 s3. destruct Hpriv2 as [pr2 Hpriv2].
  assert (Hpriv3 : Port.priv (port_at s3 p) = Some pr2) by exact Hpriv2.
  pose proof (enable_locked_run K E fuel s p pr f (Some c) Hpriv Hhook Hdis
                (or_introl Hcon) Hnum Hsize) as Hgo.
  rewrite Hrun, Hcon in Hgo. cbv zeta in Hgo. cbn [fst snd] in Hgo. fold s3 in Hgo.
  specialize (Hgo (conj (fun _ => ex_intro _ c eq_refl) (fun _ => eq_refl))).
  rewrite (enable_run K E (S fuel) s p pr f _ Hpriv Hhook), Hgo.
  assert (H1 : Core.buffer_header_callback (core_at s1 p) = Some c).
  { unfold s1. rewrite (core_at_upd_core_eq _ _ _ _ Hpriv). reflexivity. }
  assert (H2 : Port.is_enabled (port_at s1 p) = 0).
  { unfold s1, upd_core. rewrite (port_at_upd_port_eq _ _ _ _ Hpriv).
    rewrite upd_core_public by reflexivity. exact Hdis. }
  split; [exact H1 |]. split; [exact H2 |]. split.
  - intros Hfail. rewrite (is_success_false _ Hfail). cbn [negb].
    split; [reflexivity |]. intros Hframe.
    change (core_at s3 p) with (Port.core (port_at s2 p)).
    change (port_at s3 p) with (port_at s2 p). rewrite Hframe. split; assumption.
  - intros ->. cbn [is_success negb]. split; [reflexivity |].
    rewrite (port_at_upd_port_eq _ _ _ _ Hpriv3).
    unfold core_at. rewrite (port_at_upd_port_eq _ _ _ _ Hpriv3). split; reflexivity.
Qed.

(** Port 1 of the sample store, whose hook succeeds, and port 4, disabled,
    whose hook fails. *)
Lemma enable_unconnected_outcomes_witness :
  (exists s', mmal_port_enable sample_constants sample_externals 1 (Some 1%nat)
                (Some (client_cb 9%nat)) (sample_state 0 0 [])
              = Done MMAL_SUCCESS s'
              /\ Port.is_enabled (port_at s' 1%nat) = 1)
  /\ (exists s', mmal_port_enable sample_constants sample_externals 1 (Some 4%nat)
                   (Some (client_cb 9%nat))
                   (upd_port 4%nat (Port.set_is_enabled 0) (sample_state 0 0 []))
                 = Done MMAL_EIO s'
                 /\ Core.buffer_header_callback (core_at s' 4%nat) = Some (client_cb 9%nat)
                 /\ Port.is_enabled (port_at s' 4%nat) = 0).
Proof.
  split.
  - destruct (enable_unconnected_outcomes sample_constants sample_externals 0
                (sample_state 0 0 []) 1%nat _ 0%nat (client_cb 9%nat) MMAL_SUCCESS _
                eq_refl eq_refl eq_refl eq_refl
                ltac:(vm_compute; discriminate) ltac:(vm_compute; discriminate)
                eq_refl (ex_intro _ _ eq_refl)) as (_ & _ & _ & Hok).
    destruct (Hok eq_refl) as (Hgo & Hen & _).
    eexists. split; [exact Hgo | exact Hen].
  - destruct (enable_unconnected_outcomes sample_constants sample_externals 0
                (upd_port 4%nat (Port.set_is_enabled 0) (sample_state 0 0 []))
                4%nat _ 1%nat (client_cb 9%nat) MMAL_EIO _
                eq_refl eq_refl eq_refl eq_refl
                ltac:(vm_compute; discriminate) ltac:(vm_compute; discriminate)
                eq_refl (ex_intro _ _ eq_refl)) as (_ & _ & Hfail & _).
    destruct (Hfail ltac:(discriminate)) as (Hgo & Hkeep).
    destruct (Hkeep eq_refl) as (Hcb & Hen).
    eexists. split; [exact Hgo |]. split; [exact Hcb | exact Hen].
Defined.

(** X6.  [mmal_port_enable_locked] without a callback on a disabled input
    port that has a connected port and meets its buffer minima calls the
    enable hook with a null callback.  When the hook succeeds on a port that
    is still an input, the port is marked enabled and the core installs its
    own callback for connected input ports; the connected port is not
    touched after the hook.  When the hook fails, its status is returned and
    the core changes nothing after the hook. *)
Theorem enable_connected_input_installs_core_callback (K : Constants) (E : Externals)
    (fuel : nat) (s : State) (p cp : port_id) (pr : Priv.t) (f : code_ptr)
    (st : MMAL_STATUS_T) (s2 : State)
    (Hpriv : Port.priv (port_at s p) = Some pr)
    (Hhook : Priv.pf_enable pr = Some f)
    (Hdis : Port.is_enabled (port_at s p) = 0)
    (Hcon : Core.connected_port (core_at s p) = Some cp)
    (Hin : Port.type (port_at s p) = MMAL_PORT_TYPE_INPUT)
    (Hnum : Port.buffer_num_min (port_at s p) <= Port.buffer_num (port_at s p))
    (Hsize : Port.buffer_size_min (port_at s p) <= Port.buffer_size (port_at s p))
    (Hrun : run_enable E f p None
              (upd_core p (Core.set_buffer_header_callback None) s) = (st, s2))
    (Hpriv2 : is_Some (Port.priv (port_at s2 p)))
    (Hin2 : Port.type (port_at s2 p) = MMAL_PORT_TYPE_INPUT) :
  let s3 := set_trace (call_pf_enable f p None :: trace s) s2 in
  let s4 := upd_core p (Core.set_buffer_header_callback (Some mmal_port_connected_input_cb))
              (upd_port p (Port.set_is_enabled 1) s3) in
  (st <> MMAL_SUCCESS -> mmal_port_enable_locked K E (S fuel) p None s = Done st s3)
  /\ (st = MMAL_SUCCESS ->
      mmal_port_enable_locked K E (S fuel) p None s = Done MMAL_SUCCESS s4
      /\ Port.is_enabled (port_at s4 p) = 1
      /\ Core.buffer_header_callback (core_at s4 p) = Some mmal_port_connected_input_cb
      /\ (cp <> p -> port_at s4 cp = port_at s2 cp)).
Proof.
  intros s3 s4. destruct Hpriv2 as [pr2 Hpriv2].
  assert (Hpriv3 : Port.priv (port_at s3 p) = Some pr2) by exact Hpriv2.
  assert (Hty : Port.type (port_at s p) <> MMAL_PORT_TYPE_OUTPUT) by (rewrite Hin; discriminate).
  pose proof (enable_locked_run K E fuel s p pr f None Hpriv Hhook Hdis
                (or_intror Hty) Hnum Hsize) as Hgo.
  rewrite Hrun, Hcon in Hgo. cbv zeta in Hgo. cbn [fst snd] in Hgo. fold s3 in Hgo.
  assert (Hx : Some cp = None <-> is_Some (@None MMAL_PORT_BH_CB_T)).
  { split; [discriminate | intros [? ?]; discriminate]. }
  specialize (Hgo Hx). rewrite Hgo.
  assert (Hp4 : port_at (upd_port p (Port.set_is_enabled 1) s3) p
                = Port.set_is_enabled 1 (port_at s2 p)).
  { apply (port_at_upd_port_eq _ _ _ _ Hpriv3). }
  split.
  - intros Hfail. rewrite (is_success_false _ Hfail). reflexivity.
  - intros ->. cbn [is_success negb]. rewrite Hp4.
    cbn [Port.type Port.set_is_enabled]. rewrite Hin2. cbn [is_input].
    split; [reflexivity |].
    assert (Hpriv4 : Port.priv (port_at (upd_port p (Port.set_is_enabled 1) s3) p) = Some pr2).
    { rewrite Hp4. exact Hpriv2. }
    split; [| split].
    + unfold s4, upd_core. rewrite (port_at_upd_port_eq _ _ _ _ Hpriv4).
      rewrite upd_core_public by reflexivity. rewrite Hp4. reflexivity.
    + unfold s4. rewrite (core_at_upd_core_eq _ _ _ _ Hpriv4). reflexivity.
    + intros Hne. unfold s4, upd_core.
      rewrite port_at_upd_port_ne by congruence.
      rewrite port_at_upd_port_ne by congruence. reflexivity.
Qed.

(** Port 2 of the sample store, connected to port 1. *)
Lemma enable_connected_input_installs_core_callback_witness :
  exists s', mmal_port_enable_locked sample_constants sample_externals 1 2%nat None
               (connected_state 0 0)
             = Done MMAL_SUCCESS s'
             /\ Port.is_enabled (port_at s' 2%nat) = 1
             /\ Core.buffer_header_callback (core_at s' 2%nat)
                = Some mmal_port_connected_input_cb.
Proof.
  destruct (enable_connected_input_installs_core_callback sample_constants sample_externals 0
              (connected_state 0 0) 2%nat 1%nat _ 0%nat MMAL_SUCCESS _
              eq_refl eq_refl eq_refl eq_refl eq_refl
              ltac:(vm_compute; discriminate) ltac:(vm_compute; discriminate)
              eq_refl (ex_intro _ _ eq_refl) eq_refl) as (_ & Hok).
  destruct (Hok eq_refl) as (Hgo & Hen & Hcb & _).
  eexists. split; [exact Hgo |]. split; [exact Hen | exact Hcb].
Defined.

(** ** Connect and disconnect *)

Lemma core_field_upd_core {A} (g : Core.t -> A) (f : Core.t -> Core.t)
    (s : State) (p q : port_id) :
  (forall c, g (f c) = g c) ->
  g (core_at (upd_core p f s) q) = g (core_at s q).
Proof.
  intros Hg. unfold core_at, upd_core. rewrite port_at_upd_port.
  destruct (decide (p = q)) as [-> | Hne]; [| reflexivity].
  unfold port_at. destruct (ports s !! q) as [x |]; simpl; [| reflexivity].
  unfold Port.core, Port.upd_core. destruct (Port.priv x) eqn:Hx; cbn; [apply Hg |].
  rewrite Hx. reflexivity.
Qed.

Lemma priv_is_Some_upd_core (f : Core.t -> Core.t) (s : State) (p q : port_id) :
  is_Some (Port.priv (port_at s q)) ->
  is_Some (Port.priv (port_at (upd_core p f s) q)).
Proof.
  intros [pr H]. destruct (decide (p = q)) as [-> | Hne].
  - rewrite (priv_upd_core _ _ _ _ H). eauto.
  - unfold upd_core. rewrite port_at_upd_port_ne by assumption. eauto.
Qed.

Lemma core_at_upd_core_is_Some (s : State) (p : port_id) (f : Core.t -> Core.t) :
  is_Some (Port.priv (port_at s p)) ->
  core_at (upd_core p f s) p = f (core_at s p).
Proof. intros [pr H]. apply (core_at_upd_core_eq _ _ _ _ H). Qed.

Lemma public_field_upd_core {A} (g : Port.t -> A) (f : Core.t -> Core.t)
    (s : State) (p q : port_id) :
  (forall x v, g (Port.set_priv v x) = g x) ->
  g (port_at (upd_core p f s) q) = g (port_at s q).
Proof.
  intros Hg. unfold upd_core. apply port_field_upd_port.
  apply upd_core_public. exact Hg.
Qed.

Ltac alloc := repeat apply priv_is_Some_upd_core; eauto.











(** [mmal_port_disconnect] on a disabled port that has a connected port. *)
Lemma disconnect_disabled_run (E : Externals) (fuel : nat) (s : State) (p o : port_id)
    (pr : Priv.t) :
  Port.priv (port_at s p) = Some pr ->
  Core.connected_port (core_at s p) = Some o ->
  Port.is_enabled (port_at s p) = 0 ->
  mmal_port_disconnect E fuel (Some p) s
  = match (if nonzero (Core.core_owns_connection (core_at s p))
           then Done MMAL_SUCCESS s
           else call_connect E (slot Priv.pf_connect s p) p None s) with
    | Stuck w => Stuck w
    | Done st s3 =>
        if negb (is_success st) then Done st s3
        else match Port.priv (port_at (upd_core p (Core.set_connected_port None) s3) o) with
             | None => Stuck null_pointer
             | Some _ => Done st (connection_cleared p o s3)
             end
    end.
Proof.
  intros Hpriv Hcon Hdis. apply nonzero_false in Hdis.
  unfold mmal_port_disconnect. run_steps.
  unfold valid_port. rewrite Hpriv. cbn beta iota. rewrite Hcon. cbn beta iota.
  rewrite Hdis. cbn [is_success negb]. cbn beta iota.
  destruct (nonzero (Core.core_owns_connection (core_at s p))); cbn beta iota.
  - cbn [is_success negb]. unfold connection_cleared.
    destruct (Port.priv (port_at (upd_core p (Core.set_connected_port None) s) o));
      reflexivity.
  - destruct (call_connect E (slot Priv.pf_connect s p) p None s) as [st s3 |];
      [| reflexivity].
    cbn beta iota. destruct (is_success st); cbn [negb]; [| reflexivity].
    unfold connection_cleared.
    destruct (Port.priv (port_at (upd_core p (Core.set_connected_port None) s3) o));
      reflexivity.
Qed.

Lemma connection_cleared_facts (s : State) (p o : port_id) :
  is_Some (Port.priv (port_at s p)) ->
  is_Some (Port.priv (port_at s o)) ->
  let s' := connection_cleared p o s in
  Core.connected_port (core_at s' p) = None
  /\ Core.connected_port (core_at s' o) = None
  /\ (forall q, Core.core_owns_connection (core_at s' q) = Core.core_owns_connection (core_at s q))
  /\ (forall q, Core.allocate_pool (core_at s' q) = Core.allocate_pool (core_at s q))
  /\ (forall q, q <> p -> q <> o -> port_at s' q = port_at s q)
  /\ (forall q, is_Some (Port.priv (port_at s q)) -> is_Some (Port.priv (port_at s' q)))
  /\ (forall q, slot Priv.pf_connect s' q = slot Priv.pf_connect s q)
  /\ (forall q, Port.is_enabled (port_at s' q) = Port.is_enabled (port_at s q))
  /\ (forall q, Port.type (port_at s' q) = Port.type (port_at s q))
  /\ trace s' = trace s.
Proof.
  intros Hp Ho s'. unfold s', connection_cleared.
  split; [| split; [| repeat split]].
  - destruct (decide (o = p)) as [-> | Hne].
    + rewrite core_at_upd_core_is_Some by alloc. reflexivity.
    + rewrite core_at_upd_core_ne by congruence.
      rewrite core_at_upd_core_is_Some by exact Hp. reflexivity.
  - rewrite core_at_upd_core_is_Some by alloc. reflexivity.
  - intros q. rewrite !(core_field_upd_core Core.core_owns_connection) by reflexivity.
    reflexivity.
  - intros q. rewrite !(core_field_upd_core Core.allocate_pool) by reflexivity.
    reflexivity.
  - intros q Hqp Hqo. unfold upd_core.
    rewrite !port_at_upd_port_ne by congruence. reflexivity.
  - intros q Hq. alloc.
  - intros q. rewrite !slot_upd_core by reflexivity. reflexivity.
  - intros q. rewrite !(public_field_upd_core Port.is_enabled) by reflexivity. reflexivity.
  - intros q. rewrite !(public_field_upd_core Port.type) by reflexivity. reflexivity.
Qed.

(** X9.  [mmal_port_disconnect] returns [MMAL_ENOTCONN] and leaves the store
    as it was on a port that has no connected port.  On a disabled port
    whose connection the core owns and whose connected port is allocated it
    returns [MMAL_SUCCESS] without a call into the component: the pointers
    of the port and of the port it pointed at are cleared, the ownership and
    pool flags of every port keep their values, and no other port
    changes. *)
Theorem disconnect_core_managed (E : Externals) (fuel : nat) (s : State) (p : port_id)
    (pr : Priv.t)
    (Hpriv : Port.priv (port_at s p) = Some pr) :
  (Core.connected_port (core_at s p) = None ->
   mmal_port_disconnect E fuel (Some p) s = Done MMAL_ENOTCONN s)
  /\ (forall o,
        Core.connected_port (core_at s p) = Some o ->
        Port.is_enabled (port_at s p) = 0 ->
        Core.core_owns_connection (core_at s p) <> 0 ->
        is_Some (Port.priv (port_at s o)) ->
        let s' := connection_cleared p o s in
        mmal_port_disconnect E fuel (Some p) s = Done MMAL_SUCCESS s'
        /\ Core.connected_port (core_at s' p) = None
        /\ Core.connected_port (core_at s' o) = None
        /\ (forall q, Core.core_owns_connection (core_at s' q)
                      = Core.core_owns_connection (core_at s q))
        /\ (forall q, Core.allocate_pool (core_at s' q) = Core.allocate_pool (core_at s q))
        /\ (forall q, q <> p -> q <> o -> port_at s' q = port_at s q)
        /\ trace s' = trace s).
Proof.
  split.
  - intros Hnone. unfold mmal_port_disconnect. run_steps.
    unfold valid_port. rewrite Hpriv. cbn beta iota. rewrite Hnone. reflexivity.
  - intros o Hcon Hdis Hown Ho s'.
    destruct (connection_cleared_facts s p o ltac:(eauto) Ho)
      as (C1 & C2 & C3 & C4 & C5 & _ & _ & _ & _ & C10).
    fold s' in C1, C2, C3, C4, C5, C10.
    split; [| repeat split; assumption].
    rewrite (disconnect_disabled_run E fuel s p o pr Hpriv Hcon Hdis).
    apply nonzero_true in Hown. rewrite Hown. cbn [is_success negb].
    destruct (priv_is_Some_upd_core (Core.set_connected_port None) s p o Ho) as [x ->].
    reflexivity.
Qed.

(** Port 3 of the sample store, which is not connected, and port 1
    connected to port 2 by the core. *)
Lemma disconnect_core_managed_witness :
  mmal_port_disconnect sample_externals 0 (Some 3%nat) (sample_state 0 0 [])
  = Done MMAL_ENOTCONN (sample_state 0 0 [])
  /\ exists s1 s2,
       mmal_port_connect sample_externals (Some 1%nat) (Some 2%nat) (sample_state 0 0 [])
       = Done MMAL_SUCCESS s1
       /\ mmal_port_disconnect sample_externals 0 (Some 1%nat) s1 = Done MMAL_SUCCESS s2
       /\ Core.connected_port (core_at s2 1%nat) = None
       /\ Core.connected_port (core_at s2 2%nat) = None.
Proof.
  split.
  - exact (proj1 (disconnect_core_managed sample_externals 0 (sample_state 0 0 []) 3%nat _
                    eq_refl) eq_refl).
  - eexists. eexists. split; [vm_compute; reflexivity |].
    match goal with
    | |- mmal_port_disconnect _ _ _ ?s1 = _ /\ _ =>
        destruct (proj2 (disconnect_core_managed sample_externals 0 s1 1%nat _ eq_refl)
                    2%nat eq_refl eq_refl ltac:(vm_compute; discriminate)
                    (ex_intro _ _ eq_refl)) as (Hgo & H1 & H2 & _)
    end.
    split; [exact Hgo |]. split; assumption.
Defined.



Lemma slot_connect_priv (s : State) (p : port_id) (fn : pf_connect_fn) :
  slot Priv.pf_connect s p = Some fn ->
  exists pr, Port.priv (port_at s p) = Some pr /\ Priv.pf_connect pr = Some fn.
Proof.
  unfold slot. destruct (Port.priv (port_at s p)) as [pr |]; [eauto | discriminate].
Qed.

Lemma priv_slot_connect (s : State) (p : port_id) (pr : Priv.t) :
  Port.priv (port_at s p) = Some pr -> slot Priv.pf_connect s p = Priv.pf_connect pr.
Proof. unfold slot. intros ->. reflexivity. Qed.



(** X11.  [mmal_port_disconnect] on a disabled port whose connection the
    component owns calls the connect function of the port with a null other
    port.  When the function fails, its status is returned and the core
    changes nothing after the call: the connection stays as the function
    left it.  When it succeeds, the pointers of the port and of the port it
    pointed at before the call are cleared. *)
Theorem disconnect_component_managed (E : Externals) (fuel : nat) (s : State)
    (p o : port_id) (pr : Priv.t) (f : code_ptr) (st : MMAL_STATUS_T) (s2 : State)
    (Hpriv : Port.priv (port_at s p) = Some pr)
    (Hcon : Core.connected_port (core_at s p) = Some o)
    (Hdis : Port.is_enabled (port_at s p) = 0)
    (Hown : Core.core_owns_connection (core_at s p) = 0)
    (Hfn : Priv.pf_connect pr = Some (component_connect f))
    (Hrun : run_connect E f p None s = (st, s2))
    (Hp2 : is_Some (Port.priv (port_at s2 p)))
    (Ho2 : is_Some (Port.priv (port_at s2 o))) :
  let s3 := set_trace (call_pf_connect (component_connect f) p None :: trace s) s2 in
  (st <> MMAL_SUCCESS -> mmal_port_disconnect E fuel (Some p) s = Done st s3)
  /\ (st = MMAL_SUCCESS ->
      mmal_port_disconnect E fuel (Some p) s = Done MMAL_SUCCESS (connection_cleared p o s3)
      /\ Core.connected_port (core_at (connection_cleared p o s3) p) = None
      /\ Core.connected_port (core_at (connection_cleared p o s3) o) = None).
Proof.
  intros s3.
  pose proof (disconnect_disabled_run E fuel s p o pr Hpriv Hcon Hdis) as Hgo.
  apply nonzero_false in Hown. rewrite Hown in Hgo.
  rewrite (priv_slot_connect _ _ _ Hpriv), Hfn in Hgo.
  unfold call_connect, call in Hgo. rewrite Hrun in Hgo. fold s3 in Hgo.
  split.
  - intros Hfail. rewrite (is_success_false _ Hfail) in Hgo. exact Hgo.
  - intros ->. cbn [is_success negb] in Hgo.
    destruct (priv_is_Some_upd_core (Core.set_connected_port None) s3 p o Ho2) as [x Hx].
    rewrite Hx in Hgo.
    destruct (connection_cleared_facts s3 p o Hp2 Ho2) as (C1 & C2 & _).
    split; [exact Hgo |]. split; assumption.
Qed.

(** Port 1 of the sample store connected to port 2, with a connect function
    of the component that fails, and with one that succeeds. *)
Lemma disconnect_component_managed_witness :
  let with_hook f :=
    upd_port 1%nat (Port.set_priv (Some (Priv.set_pf_connect (Some (component_connect f))
                      (sample_priv 0%nat
                         (Core.set_connected_port (Some 2%nat) (sample_core 1%nat))))))
      (sample_state 0 0 []) in
  (exists s', mmal_port_disconnect sample_externals 0 (Some 1%nat) (with_hook 1%nat)
              = Done MMAL_EIO s'
              /\ Core.connected_port (core_at s' 1%nat) = Some 2%nat)
  /\ (exists s', mmal_port_disconnect sample_externals 0 (Some 1%nat) (with_hook 0%nat)
                 = Done MMAL_SUCCESS s'
                 /\ Core.connected_port (core_at s' 1%nat) = None).
Proof.
  intros with_hook. split.
  - eexists. split.
    + exact (proj1 (disconnect_component_managed sample_externals 0 (with_hook 1%nat)
                      1%nat 2%nat _ 1%nat MMAL_EIO _
                      eq_refl eq_refl eq_refl eq_refl eq_refl eq_refl
                      (ex_intro _ _ eq_refl) (ex_intro _ _ eq_refl))
               ltac:(discriminate)).
    + reflexivity.
  - destruct (proj2 (disconnect_component_managed sample_externals 0 (with_hook 0%nat)
                       1%nat 2%nat _ 0%nat MMAL_SUCCESS _
                       eq_refl eq_refl eq_refl eq_refl eq_refl eq_refl
                       (ex_intro _ _ eq_refl) (ex_intro _ _ eq_refl)) eq_refl)
      as (Hgo & H1 & _).
    eexists. split; [exact Hgo | exact H1].
Defined.

(** [mmal_port_disconnect] on an enabled port that has a connected port, up
    to the return of [mmal_port_disable_locked]. *)
Lemma disconnect_enabled_run (E : Externals) (fuel : nat) (s : State) (p o : port_id)
    (pr : Priv.t) :
  Port.priv (port_at s p) = Some pr ->
  Core.connected_port (core_at s p) = Some o ->
  Port.is_enabled (port_at s p) <> 0 ->
  mmal_port_disconnect E fuel (Some p) s
  = match mmal_port_disable_locked E fuel p s with
    | Stuck w => Stuck w
    | Done st s1 =>
        if negb (is_success st) then Done st s1
        else
          let s2 :=
            upd_core p (Core.set_pool_for_connection None)
              match Core.pool_for_connection (core_at s1 p) with
              | Some q => set_trace (call_pool_destroy q :: trace s1) (pool_destroy E q s1)
              | None => s1
              end in
          match (if nonzero (Core.core_owns_connection (core_at s2 p))
                 then Done st s2
                 else call_connect E (slot Priv.pf_connect s2 p) p None s2) with
          | Stuck w => Stuck w
          | Done st s3 =>
              if negb (is_success st) then Done st s3
              else match Port.priv (port_at (upd_core p (Core.set_connected_port None) s3) o)
                   with
                   | None => Stuck null_pointer
                   | Some _ => Done st (connection_cleared p o s3)
                   end
          end
    end.
Proof.
  intros Hpriv Hcon Hen. apply nonzero_true in Hen.
  unfold mmal_port_disconnect. run_steps.
  unfold valid_port. rewrite Hpriv. cbn beta iota. rewrite Hcon. cbn beta iota.
  rewrite Hen. cbn beta iota.
  destruct (mmal_port_disable_locked E fuel p s) as [st s1 |]; [| reflexivity].
  cbn beta iota.
  destruct (is_success st) eqn:Hst; cbn [negb]; cbn beta iota.
  2: { rewrite Hst. reflexivity. }
  cbv zeta.
  assert (Hpool : (match Core.pool_for_connection (core_at s1 p) with
                   | Some q => mmal_pool_destroy E q
                   | None => fun s0 => Done tt s0
                   end) s1
                  = Done tt match Core.pool_for_connection (core_at s1 p) with
                            | Some q => set_trace (call_pool_destroy q :: trace s1)
                                          (pool_destroy E q s1)
                            | None => s1
                            end).
  { destruct (Core.pool_for_connection (core_at s1 p)); reflexivity. }
  rewrite Hpool. cbn beta iota. rewrite Hst. cbn [negb]. cbn beta iota.
  destruct (nonzero (Core.core_owns_connection _)); cbn beta iota.
  - rewrite Hst. cbn [negb]. unfold connection_cleared.
    destruct (Port.priv (port_at (upd_core p (Core.set_connected_port None) _) o));
      reflexivity.
  - destruct (call_connect E _ p None _) as [st3 s3 |]; [| reflexivity].
    cbn beta iota. destruct (is_success st3); cbn [negb]; [| reflexivity].
    unfold connection_cleared.
    destruct (Port.priv (port_at (upd_core p (Core.set_connected_port None) s3) o));
      reflexivity.
Qed.

Lemma disable_locked_fails (E : Externals) (fuel : nat) (s : State) (p : port_id)
    (pr : Priv.t) (f : code_ptr) (st : MMAL_STATUS_T) (s2 : State) :
  Port.priv (port_at s p) = Some pr ->
  Priv.pf_disable pr = Some f ->
  Port.is_enabled (port_at s p) <> 0 ->
  run_disable E f p (at_disable_hook p s) = (st, s2) ->
  st <> MMAL_SUCCESS ->
  mmal_port_disable_locked E (S fuel) p s
  = Done st (upd_port p (Port.set_is_enabled 1)
               (set_trace (call_pf_disable f p :: trace s) s2)).
Proof.
  intros Hpriv Hhook Hen Hrun Hfail.
  rewrite (disable_locked_run E fuel s p pr f Hpriv Hhook Hen), Hrun.
  cbv zeta. cbn [fst snd]. rewrite (is_success_false _ Hfail). reflexivity.
Qed.

Lemma disable_locked_succeeds (E : Externals) (fuel : nat) (s : State) (p : port_id)
    (pr : Priv.t) (f : code_ptr) (s2 : State) :
  Port.priv (port_at s p) = Some pr ->
  Priv.pf_disable pr = Some f ->
  Port.is_enabled (port_at s p) <> 0 ->
  run_disable E f p (at_disable_hook p s) = (MMAL_SUCCESS, s2) ->
  is_Some (Port.priv (port_at s2 p)) ->
  Core.transit_sema (core_at s2 p) <> 0%nat ->
  Core.connected_port (core_at s2 p) = None
  \/ Port.type (port_at s2 p) <> MMAL_PORT_TYPE_OUTPUT ->
  mmal_port_disable_locked E (S fuel) p s
  = Done MMAL_SUCCESS (upd_core p (Core.set_buffer_header_callback None)
                         (set_trace (call_pf_disable f p :: trace s) s2)).
Proof.
  intros Hpriv Hhook Hen Hrun [pr2 Hpriv2] Hsema Hend.
  set (s3 := set_trace (call_pf_disable f p :: trace s) s2).
  assert (Hpriv3 : Port.priv (port_at s3 p) = Some pr2) by exact Hpriv2.
  rewrite (disable_locked_run E fuel s p pr f Hpriv Hhook Hen), Hrun.
  cbv zeta. cbn [fst snd is_success negb]. fold s3.
  rewrite (IN_TRANSIT_WAIT_run _ _ _ Hpriv3).
  change (core_at s3 p) with (core_at s2 p).
  destruct (decide (Core.transit_sema (core_at s2 p) = 0%nat)) as [? | _]; [congruence |].
  rewrite (core_field_upd_core Core.connected_port) by reflexivity.
  rewrite (public_field_upd_core Port.type) by reflexivity.
  change (core_at s3 p) with (core_at s2 p). change (port_at s3 p) with (port_at s2 p).
  destruct Hend as [-> | Hty]; [reflexivity |].
  destruct (Core.connected_port (core_at s2 p)); [| reflexivity].
  assert (is_output (Port.type (port_at s2 p)) = false) as ->
    by (destruct (Port.type (port_at s2 p)); try reflexivity; congruence).
  reflexivity.
Qed.

(** X12.  [mmal_port_disconnect] on an enabled port disables it first.  When
    the disable hook fails, its status is returned, the port is marked
    enabled again and stays connected as the hook left it.  When the hook
    succeeds on a port that is not an output, holds no connection pool and
    has no buffer in transit, and the core owns the connection, the call
    returns [MMAL_SUCCESS]: the stored callback is cleared and the pointers
    of the port and of the port it pointed at before the call are
    cleared. *)
Theorem disconnect_enabled_port (E : Externals) (fuel : nat) (s : State) (p o : port_id)
    (pr : Priv.t) (f : code_ptr) (st : MMAL_STATUS_T) (s2 : State)
    (Hpriv : Port.priv (port_at s p) = Some pr)
    (Hcon : Core.connected_port (core_at s p) = Some o)
    (Hen : Port.is_enabled (port_at s p) <> 0)
    (Hhook : Priv.pf_disable pr = Some f)
    (Hrun : run_disable E f p (at_disable_hook p s) = (st, s2))
    (Hp2 : is_Some (Port.priv (port_at s2 p))) :
  let s3 := set_trace (call_pf_disable f p :: trace s) s2 in
  (st <> MMAL_SUCCESS ->
   mmal_port_disconnect E (S fuel) (Some p) s
   = Done st (upd_port p (Port.set_is_enabled 1) s3)
   /\ Port.is_enabled (port_at (upd_port p (Port.set_is_enabled 1) s3) p) = 1
   /\ Core.connected_port (core_at (upd_port p (Port.set_is_enabled 1) s3) p)
      = Core.connected_port (core_at s2 p))
  /\ (st = MMAL_SUCCESS ->
      Core.transit_sema (core_at s2 p) <> 0%nat ->
      Port.type (port_at s2 p) <> MMAL_PORT_TYPE_OUTPUT ->
      Core.pool_for_connection (core_at s2 p) = None ->
      Core.core_owns_connection (core_at s2 p) <> 0 ->
      is_Some (Port.priv (port_at s2 o)) ->
      let s4 := connection_cleared p o
                  (upd_core p (Core.set_pool_for_connection None)
                     (upd_core p (Core.set_buffer_header_callback None) s3)) in
      mmal_port_disconnect E (S fuel) (Some p) s = Done MMAL_SUCCESS s4
      /\ Core.connected_port (core_at s4 p) = None
      /\ Core.connected_port (core_at s4 o) = None
      /\ Core.buffer_header_callback (core_at s4 p) = None
      /\ Port.is_enabled (port_at s4 p) = Port.is_enabled (port_at s2 p)
      /\ trace s4 = call_pf_disable f p :: trace s).
Proof.
  intros s3.
  pose proof (disconnect_enabled_run E (S fuel) s p o pr Hpriv Hcon Hen) as Hgo.
  assert (Hp3 : is_Some (Port.priv (port_at s3 p))) by exact Hp2.
  split.
  - intros Hfail.
    rewrite (disable_locked_fails E fuel s p pr f st s2 Hpriv Hhook Hen Hrun Hfail) in Hgo.
    rewrite (is_success_false _ Hfail) in Hgo. cbn [negb] in Hgo.
    destruct Hp3 as [pr3 Hpr3].
    split; [exact Hgo |]. unfold core_at. rewrite (port_at_upd_port_eq _ _ _ _ Hpr3).
    split; reflexivity.
  - intros -> Hsema Hty Hpool Hown Ho2 s4.
    rewrite (disable_locked_succeeds E fuel s p pr f s2 Hpriv Hhook Hen Hrun Hp2 Hsema
               (or_intror Hty)) in Hgo.
    cbn [is_success negb] in Hgo. cbv zeta in Hgo. fold s3 in Hgo.
    set (s5 := upd_core p (Core.set_buffer_header_callback None) s3) in *.
    assert (Hpool5 : Core.pool_for_connection (core_at s5 p) = None).
    { unfold s5. rewrite (core_field_upd_core Core.pool_for_connection) by reflexivity.
      exact Hpool. }
    rewrite Hpool5 in Hgo.
    set (s6 := upd_core p (Core.set_pool_for_connection None) s5) in *.
    assert (Hown6 : nonzero (Core.core_owns_connection (core_at s6 p)) = true).
    { apply nonzero_true. unfold s6, s5.
      rewrite !(core_field_upd_core Core.core_owns_connection) by reflexivity.
      exact Hown. }
    rewrite Hown6 in Hgo. cbn [is_success negb] in Hgo.
    assert (Hp6 : is_Some (Port.priv (port_at s6 p))) by (unfold s6, s5; alloc).
    assert (Ho6 : is_Some (Port.priv (port_at s6 o))).
    { unfold s6, s5. alloc. }
    destruct (priv_is_Some_upd_core (Core.set_connected_port None) s6 p o Ho6) as [x Hx].
    rewrite Hx in Hgo.
    destruct (connection_cleared_facts s6 p o Hp6 Ho6)
      as (C1 & C2 & _ & _ & _ & _ & _ & C8 & _ & C10).
    fold s4 in C1, C2, C8, C10.
    split; [exact Hgo |]. split; [exact C1 |]. split; [exact C2 |].
    split; [| split].
    + unfold s4, connection_cleared, s6, s5.
      rewrite !(core_field_upd_core Core.buffer_header_callback) by reflexivity.
      rewrite core_at_upd_core_is_Some by exact Hp3. reflexivity.
    + rewrite C8. unfold s6, s5.
      rewrite !(public_field_upd_core Port.is_enabled) by reflexivity. reflexivity.
    + rewrite C10. reflexivity.
Qed.

(** Port 4 of the sample store, enabled, connected to port 2, whose hook
    fails; and port 2, enabled, connected to port 1 by the core, whose hook
    succeeds. *)
Lemma disconnect_enabled_port_witness :
  (exists s', mmal_port_disconnect sample_externals 1 (Some 4%nat)
                (upd_core 4%nat (Core.set_connected_port (Some 2%nat)) (sample_state 0 0 []))
              = Done MMAL_EIO s'
              /\ Core.connected_port (core_at s' 4%nat) = Some 2%nat)
  /\ (exists s', mmal_port_disconnect sample_externals 1 (Some 2%nat)
                   (upd_core 2%nat (Core.set_core_owns_connection 1) (connected_state 0 1))
                 = Done MMAL_SUCCESS s'
                 /\ Core.connected_port (core_at s' 2%nat) = None
                 /\ Core.connected_port (core_at s' 1%nat) = None).
Proof.
  split.
  - destruct (proj1 (disconnect_enabled_port sample_externals 0
                       (upd_core 4%nat (Core.set_connected_port (Some 2%nat))
                          (sample_state 0 0 []))
                       4%nat 2%nat _ 1%nat MMAL_EIO _
                       eq_refl eq_refl ltac:(vm_compute; discriminate) eq_refl eq_refl
                       (ex_intro _ _ eq_refl)) ltac:(discriminate))
      as (Hgo & _ & Hc).
    eexists. split; [exact Hgo |]. etransitivity; [exact Hc | reflexivity].
  - destruct (proj2 (disconnect_enabled_port sample_externals 0
                       (upd_core 2%nat (Core.set_core_owns_connection 1) (connected_state 0 1))
                       2%nat 1%nat _ 0%nat MMAL_SUCCESS _
                       eq_refl eq_refl ltac:(vm_compute; discriminate) eq_refl eq_refl
                       (ex_intro _ _ eq_refl))
                eq_refl ltac:(vm_compute; discriminate) ltac:(vm_compute; discriminate)
                eq_refl ltac:(vm_compute; discriminate) (ex_intro _ _ eq_refl))
      as (Hgo & H1 & H2 & _).
    eexists. split; [exact Hgo |]. split; assumption.
Defined.

(** ** Sending and returning buffers *)

Lemma at_send_hook_ports (s : State) (p : port_id) (b : buf_id) :
  at_send_hook p b s
  = set_buffers (buffers (at_send_hook p b s)) (in_transit_claimed p s).
Proof.
  unfold at_send_hook. destruct (_ && _); [reflexivity |].
  unfold in_transit_claimed, upd_core, upd_port, set_buffers, set_ports. cbn.
  reflexivity.
Qed.

(** [mmal_port_send_buffer] on an enabled port, up to the return of the
    hook. *)
Lemma send_buffer_run (K : Constants) (E : Externals) (s : State) (p : port_id)
    (pr : Priv.t) (f : code_ptr) (b : buf_id) :
  Port.priv (port_at s p) = Some pr ->
  Priv.pf_send pr = Some f ->
  Port.is_enabled (port_at s p) <> 0 ->
  BH.data (buffer_at s b) <> None
  \/ Z.land (Port.capabilities (port_at s p)) (MMAL_PORT_CAPABILITY_PASSTHROUGH K) <> 0 ->
  (IN_TRANSIT_COUNT s p = 0 -> Core.transit_sema (core_at s p) <> 0%nat) ->
  mmal_port_send_buffer K E (Some p) b s
  = let r := run_send E f p b (at_send_hook p b s) in
    let s2 := set_trace (call_pf_send f p b :: trace s) (snd r) in
    if is_success (fst r)
    then match mmal_port_update_port_stats E p MMAL_CORE_STATS_RX s2 with
         | Done _ s3 => Done (fst r) s3
         | Stuck w => Stuck w
         end
    else match IN_TRANSIT_DECREMENT p s2 with
         | Done _ s3 => Done (fst r) s3
         | Stuck w => Stuck w
         end.
Proof.
  intros Hpriv Hhook Hen Hbuf Hinv.
  assert (Hslot : slot Priv.pf_send s p = Some f).
  { unfold slot. rewrite Hpriv. exact Hhook. }
  set (s0 := if is_output (Port.type (port_at s p)) && nonzero (BH.length (buffer_at s b))
             then upd_buffer b (BH.set_length 0) s else s).
  assert (Hports0 : ports s0 = ports s /\ trace s0 = trace s).
  { subst s0. destruct (_ && _); split; reflexivity. }
  destruct Hports0 as [Hports0 Htrace0].
  assert (Hport0 : forall q, port_at s0 q = port_at s q).
  { intros q. unfold port_at. rewrite Hports0. reflexivity. }
  assert (Hcount0 : IN_TRANSIT_COUNT s0 p = IN_TRANSIT_COUNT s p).
  { unfold IN_TRANSIT_COUNT, core_at. rewrite Hport0. reflexivity. }
  assert (Hsema0 : Core.transit_sema (core_at s0 p) = Core.transit_sema (core_at s p)).
  { unfold core_at. rewrite Hport0. reflexivity. }
  assert (Hpriv0 : Port.priv (port_at s0 p) = Some pr) by (rewrite Hport0; exact Hpriv).
  assert (Hinc : IN_TRANSIT_INCREMENT p s0 = Done tt (at_send_hook p b s)).
  { apply (IN_TRANSIT_INCREMENT_claims _ _ pr Hpriv0). rewrite Hcount0, Hsema0. exact Hinv. }
  destruct (in_transit_claimed_facts s0 p pr Hpriv0) as (_ & _ & Ht1 & Hslot1).
  change (in_transit_claimed p s0) with (at_send_hook p b s) in Ht1, Hslot1.
  unfold mmal_port_send_buffer. run_steps.
  unfold valid_port. rewrite Hpriv. cbn beta iota.
  assert (Hacc : match BH.data (buffer_at s b) with
                 | Some _ => false
                 | None => negb (nonzero (Z.land (Port.capabilities (port_at s p))
                                            (MMAL_PORT_CAPABILITY_PASSTHROUGH K)))
                 end = false).
  { destruct (BH.data (buffer_at s b)); [reflexivity |].
    destruct Hbuf as [H | H]; [congruence |].
    apply nonzero_true in H. rewrite H. reflexivity. }
  rewrite Hacc. cbn beta iota. rewrite Hslot. cbn beta iota.
  apply nonzero_true in Hen. rewrite Hen. cbn [negb]. cbn beta iota.
  match goal with
  | |- match ?x with Done _ _ => _ | Stuck _ => _ end = _ =>
      assert (Hpre : x = Done tt s0) by (subst s0; destruct (_ && _); reflexivity);
      rewrite Hpre
  end.
  cbn beta iota. rewrite Hinc. cbn beta iota. rewrite Hslot1.
  replace (slot Priv.pf_send s0 p) with (Some f)
    by (unfold slot; rewrite Hport0, Hpriv; auto).
  unfold call. rewrite Ht1, Htrace0.
  destruct (run_send E f p b (at_send_hook p b s)) as [st s2]. cbn [fst snd]. cbv zeta.
  cbn beta iota.
  destruct (is_success st); cbn beta iota.
  - reflexivity.
  - destruct (IN_TRANSIT_DECREMENT p _); reflexivity.
Qed.

(** X13.  [mmal_port_send_buffer] on an enabled port whose send hook
    succeeds returns [MMAL_SUCCESS]: the buffer stays counted as in transit
    (the counter is as the hook left it), the statistics of the RX direction
    are updated with the time read after the call and those of the TX
    direction are not, and the buffers are as the hook left them.  The hook
    is called once; a buffer sent to an output port reaches it with a length
    of 0. *)
Theorem send_buffer_success (K : Constants) (E : Externals) (s : State) (p : port_id)
    (pr : Priv.t) (f : code_ptr) (b : buf_id) (s2 : State)
    (Hpriv : Port.priv (port_at s p) = Some pr)
    (Hhook : Priv.pf_send pr = Some f)
    (Hen : Port.is_enabled (port_at s p) <> 0)
    (Hbuf : BH.data (buffer_at s b) <> None
            \/ Z.land (Port.capabilities (port_at s p))
                 (MMAL_PORT_CAPABILITY_PASSTHROUGH K) <> 0)
    (Hinv : IN_TRANSIT_COUNT s p = 0 -> Core.transit_sema (core_at s p) <> 0%nat)
    (Hrun : run_send E f p b (at_send_hook p b s) = (MMAL_SUCCESS, s2))
    (Hp2 : is_Some (Port.priv (port_at s2 p))) :
  (Port.type (port_at s p) = MMAL_PORT_TYPE_OUTPUT ->
   BH.length (buffer_at (at_send_hook p b s) b) = 0)
  /\ exists s3,
       mmal_port_send_buffer K E (Some p) b s = Done MMAL_SUCCESS s3
       /\ IN_TRANSIT_COUNT s3 p = IN_TRANSIT_COUNT s2 p
       /\ Core.transit_sema (core_at s3 p) = Core.transit_sema (core_at s2 p)
       /\ rx (Core.stats (core_at s3 p))
          = update_stats
              (to_uint32 (getmicrosecs E (set_trace (call_pf_send f p b :: trace s) s2)))
              (rx (Core.stats (core_at s2 p)))
       /\ tx (Core.stats (core_at s3 p)) = tx (Core.stats (core_at s2 p))
       /\ buffers s3 = buffers s2
       /\ trace s3 = call_pf_send f p b :: trace s.
Proof.
  split.
  - intros Hout. unfold at_send_hook. rewrite Hout. cbn [is_output andb].
    destruct (nonzero (BH.length (buffer_at s b))) eqn:Hlen.
    + change (buffer_at (in_transit_claimed p (upd_buffer b (BH.set_length 0) s)) b)
        with (buffer_at (upd_buffer b (BH.set_length 0) s) b).
      rewrite buffer_at_upd_buffer. destruct (decide (b = b)); [| congruence].
      destruct (buffers s !! b); reflexivity.
    + apply nonzero_false in Hlen. exact Hlen.
  - rewrite (send_buffer_run K E s p pr f b Hpriv Hhook Hen Hbuf Hinv), Hrun.
    cbv zeta. cbn [fst snd is_success].
    set (s2' := set_trace (call_pf_send f p b :: trace s) s2).
    unfold mmal_port_update_port_stats. run_steps.
    eexists. split; [reflexivity |].
    assert (Hp2' : is_Some (Port.priv (port_at s2' p))) by exact Hp2.
    unfold IN_TRANSIT_COUNT.
    rewrite (core_field_upd_core Core.transit_buffer_headers) by reflexivity.
    rewrite (core_field_upd_core Core.transit_sema) by reflexivity.
    rewrite core_at_upd_core_is_Some by exact Hp2'.
    repeat split.
Qed.

(** Port 1 of the sample store, enabled, sent buffer 7. *)
Lemma send_buffer_success_witness :
  exists s3,
    mmal_port_send_buffer sample_constants sample_externals (Some 1%nat) 7%nat
      (sample_state 1 0 [])
    = Done MMAL_SUCCESS s3
    /\ IN_TRANSIT_COUNT s3 1%nat = 1
    /\ buffer_count (rx (Core.stats (core_at s3 1%nat))) = 4.
Proof.
  assert (Hen : Port.is_enabled (port_at (sample_state 1 0 []) 1%nat) <> 0)
    by (vm_compute; discriminate).
  assert (Hbuf : BH.data (buffer_at (sample_state 1 0 []) 7%nat) <> None)
    by (vm_compute; discriminate).
  assert (Hinv : IN_TRANSIT_COUNT (sample_state 1 0 []) 1%nat = 0 ->
                 Core.transit_sema (core_at (sample_state 1 0 []) 1%nat) <> 0%nat)
    by (intros _; vm_compute; discriminate).
  assert (Hrun : run_send sample_externals 0%nat 1%nat 7%nat
                   (at_send_hook 1%nat 7%nat (sample_state 1 0 []))
                 = (MMAL_SUCCESS, at_send_hook 1%nat 7%nat (sample_state 1 0 [])))
    by reflexivity.
  assert (Hp2 : is_Some (Port.priv (port_at (at_send_hook 1%nat 7%nat (sample_state 1 0 []))
                                      1%nat)))
    by (vm_compute; eexists; reflexivity).
  destruct (send_buffer_success sample_constants sample_externals (sample_state 1 0 [])
              1%nat (sample_priv 0%nat (sample_core 1%nat)) 0%nat 7%nat _ eq_refl eq_refl
              Hen (or_introl Hbuf) Hinv Hrun Hp2)
    as (_ & s3 & Hgo & Hc & _ & Hrx & _).
  exists s3. split; [exact Hgo |]. split.
  - rewrite Hc. vm_compute. reflexivity.
  - rewrite Hrx. vm_compute. reflexivity.
Defined.

(** [mmal_port_buffer_header_callback] up to the call of the stored
    callback. *)
Lemma buffer_header_callback_run (K : Constants) (E : Externals) (C : Collaborators)
    (s : State) (p : port_id) (pr : Priv.t) (b : buf_id) :
  Port.priv (port_at s p) = Some pr ->
  exists s2,
    mmal_port_buffer_header_callback K E C p b s
    = call_buffer_header_callback K E C (Core.buffer_header_callback (core_at s p)) p b s2
    /\ IN_TRANSIT_COUNT s2 p = to_int32 (IN_TRANSIT_COUNT s p - 1)
    /\ Core.transit_sema (core_at s2 p)
       = (if to_int32 (IN_TRANSIT_COUNT s p - 1) =? 0
          then S (Core.transit_sema (core_at s p))
          else Core.transit_sema (core_at s p))
    /\ tx (Core.stats (core_at s2 p))
       = (if MMAL_COLLECT_PORT_STATS_ENABLED C
          then update_stats (to_uint32 (getmicrosecs E (in_transit_returned p s)))
                 (tx (Core.stats (core_at s p)))
          else tx (Core.stats (core_at s p)))
    /\ rx (Core.stats (core_at s2 p)) = rx (Core.stats (core_at s p))
    /\ Core.buffer_header_callback (core_at s2 p) = Core.buffer_header_callback (core_at s p)
    /\ Core.connected_port (core_at s2 p) = Core.connected_port (core_at s p)
    /\ (forall q, Port.is_enabled (port_at s2 q) = Port.is_enabled (port_at s q))
    /\ (forall q, q <> p -> port_at s2 q = port_at s q)
    /\ buffers s2 = buffers s
    /\ trace s2 = trace s.
Proof.
  intros Hpriv.
  destruct (in_transit_returned_facts s p pr Hpriv) as (Hc & Hs & Ht).
  assert (Hp1 : is_Some (Port.priv (port_at (in_transit_returned p s) p))).
  { unfold in_transit_returned. apply priv_is_Some_upd_core. eauto. }
  assert (Hcore1 : forall {A} (g : Core.t -> A),
             (forall c v, g (Core.set_transit_sema v c) = g c) ->
             (forall c v, g (Core.set_transit_buffer_headers v c) = g c) ->
             g (core_at (in_transit_returned p s) p) = g (core_at s p)).
  { intros A g G1 G2. unfold in_transit_returned.
    apply core_field_upd_core. intros c. rewrite G1, G2. reflexivity. }
  assert (Hen1 : forall q, Port.is_enabled (port_at (in_transit_returned p s) q)
                           = Port.is_enabled (port_at s q)).
  { intros q. unfold in_transit_returned.
    apply (public_field_upd_core Port.is_enabled). reflexivity. }
  assert (Hne1 : forall q, q <> p -> port_at (in_transit_returned p s) q = port_at s q).
  { intros q Hq. unfold in_transit_returned, upd_core.
    apply port_at_upd_port_ne. congruence. }
  unfold mmal_port_buffer_header_callback. run_steps.
  rewrite (IN_TRANSIT_DECREMENT_returns _ _ _ Hpriv). cbn beta iota.
  destruct (MMAL_COLLECT_PORT_STATS_ENABLED C); cbn beta iota.
  - unfold mmal_port_update_port_stats. run_steps.
    eexists. split.
    + rewrite (core_field_upd_core Core.buffer_header_callback) by reflexivity.
      rewrite (Hcore1 _ Core.buffer_header_callback) by reflexivity. reflexivity.
    + unfold IN_TRANSIT_COUNT in *.
      rewrite (core_field_upd_core Core.transit_buffer_headers) by reflexivity.
      rewrite (core_field_upd_core Core.transit_sema) by reflexivity.
      rewrite (core_field_upd_core Core.buffer_header_callback) by reflexivity.
      rewrite (core_field_upd_core Core.connected_port) by reflexivity.
      rewrite core_at_upd_core_is_Some by exact Hp1.
      cbn [Core.stats Core.set_stats tx rx].
      rewrite (Hcore1 _ Core.stats), (Hcore1 _ Core.buffer_header_callback),
        (Hcore1 _ Core.connected_port) by reflexivity.
      repeat split; try assumption.
      * intros q. rewrite (public_field_upd_core Port.is_enabled) by reflexivity.
        apply Hen1.
      * intros q Hq. unfold upd_core. rewrite port_at_upd_port_ne by congruence.
        apply Hne1. exact Hq.
  - eexists. split.
    + rewrite (Hcore1 _ Core.buffer_header_callback) by reflexivity. reflexivity.
    + rewrite (Hcore1 _ Core.stats), (Hcore1 _ Core.buffer_header_callback),
        (Hcore1 _ Core.connected_port) by reflexivity.
      repeat split; assumption.
Qed.

(** X14.  [mmal_port_buffer_header_callback] on an allocated port counts the
    buffer as returned (the counter goes down by one, and the semaphore is
    posted when it reaches 0), updates the statistics of the TX direction
    when the build collects them, and then calls the stored callback on that
    store.  With a client callback stored, the client is called; with the
    callback of connected input ports stored, the buffer is released; with
    no callback stored, as after a disable, the call goes through a null
    pointer. *)
Theorem buffer_header_callback_outcomes (K : Constants) (E : Externals)
    (C : Collaborators) (s : State) (p : port_id) (pr : Priv.t) (b : buf_id)
    (Hpriv : Port.priv (port_at s p) = Some pr) :
  exists s2,
    (IN_TRANSIT_COUNT s2 p = to_int32 (IN_TRANSIT_COUNT s p - 1)
     /\ Core.transit_sema (core_at s2 p)
        = (if to_int32 (IN_TRANSIT_COUNT s p - 1) =? 0
           then S (Core.transit_sema (core_at s p))
           else Core.transit_sema (core_at s p))
     /\ tx (Core.stats (core_at s2 p))
        = (if MMAL_COLLECT_PORT_STATS_ENABLED C
           then update_stats (to_uint32 (getmicrosecs E (in_transit_returned p s)))
                  (tx (Core.stats (core_at s p)))
           else tx (Core.stats (core_at s p)))
     /\ rx (Core.stats (core_at s2 p)) = rx (Core.stats (core_at s p))
     /\ buffers s2 = buffers s
     /\ trace s2 = trace s)
    /\ (Core.buffer_header_callback (core_at s p) = None ->
        mmal_port_buffer_header_callback K E C p b s = Stuck null_pointer)
    /\ (forall f,
          Core.buffer_header_callback (core_at s p) = Some (client_cb f) ->
          mmal_port_buffer_header_callback K E C p b s
          = Done tt (run_client_cb C f p b s2))
    /\ (Core.buffer_header_callback (core_at s p) = Some mmal_port_connected_input_cb ->
        mmal_port_buffer_header_callback K E C p b s
        = Done tt (set_trace (call_buffer_header_release b :: trace s)
                     (buffer_header_release E b s2))).
Proof.
  destruct (buffer_header_callback_run K E C s p pr b Hpriv)
    as (s2 & Hgo & H1 & H2 & H3 & H4 & _ & _ & _ & _ & H9 & H10).
  exists s2. split; [repeat split; assumption |].
  rewrite Hgo. split; [| split].
  - intros ->. reflexivity.
  - intros f ->. reflexivity.
  - intros ->. cbn [call_buffer_header_callback]. unfold connected_input_cb,
      mmal_buffer_header_release, call. rewrite H10. reflexivity.
Qed.

(** Port 1 of the sample store with one buffer in transit and a client
    callback, and without a callback. *)
Lemma buffer_header_callback_outcomes_witness :
  mmal_port_buffer_header_callback sample_constants sample_externals sample_collaborators
    1%nat 7%nat (in_transit_claimed 1%nat (sample_state 1 0 []))
  = Stuck null_pointer
  /\ exists s',
       mmal_port_buffer_header_callback sample_constants sample_externals
         sample_collaborators 1%nat 7%nat
         (upd_core 1%nat (Core.set_buffer_header_callback (Some (client_cb 9%nat)))
            (in_transit_claimed 1%nat (sample_state 1 0 [])))
       = Done tt s'.
Proof.
  split.
  - destruct (buffer_header_callback_outcomes sample_constants sample_externals
                sample_collaborators (in_transit_claimed 1%nat (sample_state 1 0 []))
                1%nat _ 7%nat eq_refl) as (s2 & _ & Hnone & _).
    exact (Hnone eq_refl).
  - destruct (buffer_header_callback_outcomes sample_constants sample_externals
                sample_collaborators
                (upd_core 1%nat (Core.set_buffer_header_callback (Some (client_cb 9%nat)))
                   (in_transit_claimed 1%nat (sample_state 1 0 [])))
                1%nat _ 7%nat eq_refl) as (s2 & _ & _ & Hcb & _).
    eexists. exact (Hcb 9%nat eq_refl).
Defined.

Lemma at_send_hook_facts (s : State) (p : port_id) (pr : Priv.t) (b : buf_id) :
  Port.priv (port_at s p) = Some pr ->
  IN_TRANSIT_COUNT (at_send_hook p b s) p = to_int32 (IN_TRANSIT_COUNT s p + 1)
  /\ Core.transit_sema (core_at (at_send_hook p b s) p)
     = (if IN_TRANSIT_COUNT s p =? 0
        then pred (Core.transit_sema (core_at s p))
        else Core.transit_sema (core_at s p))
  /\ Core.buffer_header_callback (core_at (at_send_hook p b s) p)
     = Core.buffer_header_callback (core_at s p)
  /\ Core.stats (core_at (at_send_hook p b s) p) = Core.stats (core_at s p).
Proof.
  intros Hpriv. unfold at_send_hook.
  set (s0 := if is_output (Port.type (port_at s p)) && nonzero (BH.length (buffer_at s b))
             then upd_buffer b (BH.set_length 0) s else s).
  assert (Hport0 : forall q, port_at s0 q = port_at s q).
  { intros q. subst s0. destruct (_ && _); reflexivity. }
  assert (Hpriv0 : Port.priv (port_at s0 p) = Some pr) by (rewrite Hport0; exact Hpriv).
  destruct (in_transit_claimed_facts s0 p pr Hpriv0) as (Hc & Hs & _ & _).
  unfold IN_TRANSIT_COUNT, core_at in *. rewrite Hport0 in Hc, Hs.
  split; [exact Hc |]. split; [exact Hs |].
  unfold in_transit_claimed.
  change (Port.core (port_at (upd_core p ?f s0) p)) with (core_at (upd_core p f s0) p).
  rewrite (core_at_upd_core_eq _ _ _ _ Hpriv0). unfold core_at. rewrite Hport0.
  split; reflexivity.
Qed.

(** X15.  A buffer sent and returned: on an enabled port with balanced
    in-transit accounting and a client callback, whose send hook succeeds
    and leaves the core structure of the port as it found it,
    [mmal_port_send_buffer] returns [MMAL_SUCCESS] with the buffer counted
    in transit, and a following [mmal_port_buffer_header_callback] calls the
    client on a store where the counter and the semaphore are back at their
    values from before the send and the accounting is balanced; the buffer
    was counted once in the RX statistics. *)
Theorem send_then_callback_restores_accounting (K : Constants) (E : Externals)
    (C : Collaborators) (s : State) (p : port_id) (pr : Priv.t) (f g : code_ptr)
    (b : buf_id) (s2 : State)
    (Hpriv : Port.priv (port_at s p) = Some pr)
    (Hhook : Priv.pf_send pr = Some f)
    (Hen : Port.is_enabled (port_at s p) <> 0)
    (Hbuf : BH.data (buffer_at s b) <> None
            \/ Z.land (Port.capabilities (port_at s p))
                 (MMAL_PORT_CAPABILITY_PASSTHROUGH K) <> 0)
    (Hbal : transit_balanced s p)
    (Hmax : IN_TRANSIT_COUNT s p < 2 ^ 31 - 1)
    (Hcb : Core.buffer_header_callback (core_at s p) = Some (client_cb g))
    (Hrun : run_send E f p b (at_send_hook p b s) = (MMAL_SUCCESS, s2))
    (Hp2 : is_Some (Port.priv (port_at s2 p)))
    (Hframe : core_at s2 p = core_at (at_send_hook p b s) p) :
  exists s3 s4,
    mmal_port_send_buffer K E (Some p) b s = Done MMAL_SUCCESS s3
    /\ IN_TRANSIT_COUNT s3 p = IN_TRANSIT_COUNT s p + 1
    /\ mmal_port_buffer_header_callback K E C p b s3 = Done tt (run_client_cb C g p b s4)
    /\ IN_TRANSIT_COUNT s4 p = IN_TRANSIT_COUNT s p
    /\ Core.transit_sema (core_at s4 p) = Core.transit_sema (core_at s p)
    /\ transit_balanced s4 p
    /\ buffer_count (rx (Core.stats (core_at s4 p)))
       = to_uint32 (buffer_count (rx (Core.stats (core_at s p))) + 1).
Proof.
  destruct Hbal as [Hge Hsema].
  assert (Hinv : IN_TRANSIT_COUNT s p = 0 -> Core.transit_sema (core_at s p) <> 0%nat).
  { intros Hz. rewrite Hsema, Hz. discriminate. }
  destruct (at_send_hook_facts s p pr b Hpriv) as (A1 & A2 & A3 & A4).
  unfold IN_TRANSIT_COUNT in A1 at 1.
  rewrite <- Hframe in A1, A2, A3, A4.
  assert (H1 : is_int32 (IN_TRANSIT_COUNT s p + 1)) by (unfold is_int32; lia).
  rewrite (to_int32_id _ H1) in A1.
  set (s2' := set_trace (call_pf_send f p b :: trace s) s2).
  set (stc := to_uint32 (getmicrosecs E s2')).
  set (s3 := upd_core p
               (fun c => Core.set_stats
                           (mkPortStats (update_stats stc (rx (Core.stats c)))
                              (tx (Core.stats c))) c) s2').
  assert (Hp2' : is_Some (Port.priv (port_at s2' p))) by exact Hp2.
  assert (Hgo : mmal_port_send_buffer K E (Some p) b s = Done MMAL_SUCCESS s3).
  { rewrite (send_buffer_run K E s p pr f b Hpriv Hhook Hen Hbuf Hinv), Hrun.
    cbv zeta. cbn [fst snd is_success]. unfold mmal_port_update_port_stats. run_steps.
    reflexivity. }
  assert (Hc3 : IN_TRANSIT_COUNT s3 p = IN_TRANSIT_COUNT s p + 1).
  { unfold IN_TRANSIT_COUNT, s3.
    rewrite (core_field_upd_core Core.transit_buffer_headers) by reflexivity. exact A1. }
  assert (Hs3 : Core.transit_sema (core_at s3 p)
                = (if IN_TRANSIT_COUNT s p =? 0
                   then pred (Core.transit_sema (core_at s p))
                   else Core.transit_sema (core_at s p))).
  { unfold s3. rewrite (core_field_upd_core Core.transit_sema) by reflexivity. exact A2. }
  assert (Hcb3 : Core.buffer_header_callback (core_at s3 p) = Some (client_cb g)).
  { unfold s3. rewrite (core_field_upd_core Core.buffer_header_callback) by reflexivity.
    change (core_at s2' p) with (core_at s2 p). rewrite A3. exact Hcb. }
  assert (Hrx3 : rx (Core.stats (core_at s3 p))
                 = update_stats stc (rx (Core.stats (core_at s p)))).
  { unfold s3. rewrite core_at_upd_core_is_Some by exact Hp2'.
    change (core_at s2' p) with (core_at s2 p). cbn [Core.stats Core.set_stats rx].
    rewrite A4. reflexivity. }
  assert (Hp3 : is_Some (Port.priv (port_at s3 p))) by (unfold s3; alloc).
  destruct Hp3 as [pr3 Hp3].
  destruct (buffer_header_callback_run K E C s3 p pr3 b Hp3)
    as (s4 & Hgo4 & B1 & B2 & _ & B4 & _).
  rewrite Hcb3 in Hgo4. cbn [call_buffer_header_callback] in Hgo4.
  rewrite Hc3 in B1, B2.
  replace (IN_TRANSIT_COUNT s p + 1 - 1) with (IN_TRANSIT_COUNT s p) in B1, B2 by lia.
  assert (H0 : is_int32 (IN_TRANSIT_COUNT s p)) by (unfold is_int32; lia).
  rewrite (to_int32_id _ H0) in B1, B2.
  assert (Hs4 : Core.transit_sema (core_at s4 p) = Core.transit_sema (core_at s p)).
  { rewrite B2, Hs3, Hsema. destruct (IN_TRANSIT_COUNT s p =? 0); reflexivity. }
  exists s3, s4. split; [exact Hgo |]. split; [exact Hc3 |]. split; [exact Hgo4 |].
  split; [exact B1 |]. split; [exact Hs4 |]. split.
  - unfold transit_balanced. rewrite B1, Hs4. split; assumption.
  - rewrite B4, Hrx3. unfold update_stats.
    destruct (nonzero (first_buffer_time (rx (Core.stats (core_at s p))))); reflexivity.
Qed.

(** Port 1 of the sample store, enabled, with a client callback; buffer 7 is
    sent and returned. *)
Lemma send_then_callback_restores_accounting_witness :
  let s := upd_core 1%nat (Core.set_buffer_header_callback (Some (client_cb 9%nat)))
             (sample_state 1 0 []) in
  exists s3 s4,
    mmal_port_send_buffer sample_constants sample_externals (Some 1%nat) 7%nat s
    = Done MMAL_SUCCESS s3
    /\ IN_TRANSIT_COUNT s3 1%nat = 1
    /\ mmal_port_buffer_header_callback sample_constants sample_externals
         sample_collaborators 1%nat 7%nat s3
       = Done tt (run_client_cb sample_collaborators 9%nat 1%nat 7%nat s4)
    /\ IN_TRANSIT_COUNT s4 1%nat = 0
    /\ Core.transit_sema (core_at s4 1%nat) = 1%nat.
Proof.
  intros s.
  assert (Hen : Port.is_enabled (port_at s 1%nat) <> 0) by (vm_compute; discriminate).
  assert (Hbuf : BH.data (buffer_at s 7%nat) <> None) by (vm_compute; discriminate).
  assert (Hbal : transit_balanced s 1%nat).
  { unfold transit_balanced. vm_compute. split; [discriminate | reflexivity]. }
  assert (Hmax : IN_TRANSIT_COUNT s 1%nat < 2 ^ 31 - 1) by (vm_compute; reflexivity).
  assert (Hrun : run_send sample_externals 0%nat 1%nat 7%nat (at_send_hook 1%nat 7%nat s)
                 = (MMAL_SUCCESS, at_send_hook 1%nat 7%nat s)) by reflexivity.
  assert (Hp2 : is_Some (Port.priv (port_at (at_send_hook 1%nat 7%nat s) 1%nat)))
    by (vm_compute; eexists; reflexivity).
  destruct (send_then_callback_restores_accounting sample_constants sample_externals
              sample_collaborators s 1%nat _ 0%nat 9%nat 7%nat _
              eq_refl eq_refl Hen (or_introl Hbuf) Hbal Hmax eq_refl Hrun Hp2 eq_refl)
    as (s3 & s4 & H1 & H2 & H3 & H4 & H5 & _).
  exists s3, s4. split; [exact H1 |]. split; [exact H2 |]. split; [exact H3 |].
  split; [exact H4 |]. rewrite H5. vm_compute. reflexivity.
Defined.

(** ** Events and connected callbacks *)

(** X16.  [mmal_port_event_send] never touches the in-transit accounting or
    the statistics.  With no callback stored, the event is lost: the buffer
    is released and nothing else changes.  With a client callback stored,
    the client is called on the store as it is. *)
Theorem event_send_outcomes (K : Constants) (E : Externals) (C : Collaborators)
    (s : State) (p : port_id) (b : buf_id) :
  (Core.buffer_header_callback (core_at s p) = None ->
   mmal_port_event_send K E C p b s
   = Done tt (set_trace (call_buffer_header_release b :: trace s)
                (buffer_header_release E b s)))
  /\ (forall f,
        Core.buffer_header_callback (core_at s p) = Some (client_cb f) ->
        mmal_port_event_send K E C p b s = Done tt (run_client_cb C f p b s))
  /\ (Core.buffer_header_callback (core_at s p) = Some mmal_port_connected_input_cb ->
      mmal_port_event_send K E C p b s
      = Done tt (set_trace (call_buffer_header_release b :: trace s)
                   (buffer_header_release E b s))).
Proof.
  unfold mmal_port_event_send. run_steps.
  split; [| split].
  - intros Hcb. rewrite Hcb. reflexivity.
  - intros f Hcb. rewrite !Hcb. reflexivity.
  - intros Hcb. rewrite !Hcb. reflexivity.
Qed.

(** Port 1 of the sample store without a callback: the event buffer is
    released, and the port has no buffer in transit afterwards. *)
Lemma event_send_outcomes_witness :
  exists s',
    mmal_port_event_send sample_constants sample_externals sample_collaborators
      1%nat 7%nat (sample_state 1 0 [])
    = Done tt s'
    /\ trace s' = [call_buffer_header_release 7%nat]
    /\ IN_TRANSIT_COUNT s' 1%nat = 0.
Proof.
  eexists. split.
  - exact (proj1 (event_send_outcomes sample_constants sample_externals sample_collaborators
                    (sample_state 1 0 []) 1%nat 7%nat) eq_refl).
  - split; reflexivity.
Defined.

Lemma send_buffer_disabled (K : Constants) (E : Externals) (s : State) (p : port_id)
    (pr : Priv.t) (f : code_ptr) (b : buf_id) :
  Port.priv (port_at s p) = Some pr ->
  Priv.pf_send pr = Some f ->
  Port.is_enabled (port_at s p) = 0 ->
  mmal_port_send_buffer K E (Some p) b s = Done MMAL_EINVAL s.
Proof.
  intros Hpriv Hhook Hdis.
  assert (Hslot : slot Priv.pf_send s p = Some f).
  { unfold slot. rewrite Hpriv. exact Hhook. }
  unfold mmal_port_send_buffer. run_steps.
  unfold valid_port. rewrite Hpriv. cbn beta iota.
  match goal with |- context [if ?c then _ else _] => destruct c end;
    [reflexivity |].
  cbn beta iota. rewrite Hslot. cbn beta iota. rewrite Hdis. reflexivity.
Qed.

(** X17.  [mmal_port_connected_output_cb], the callback of a connected
    output port.  A data buffer (command 0) that comes back while the port
    is disabled is released and not forwarded.  An event buffer that is not
    a FORMAT_CHANGED event is released and not forwarded.  A data buffer
    that comes back while the port is enabled is sent to the connected
    port: when that send succeeds nothing more is done, and when it fails
    the buffer is released; so a buffer forwarded to a connected port that
    has a send hook but is disabled is released with the store
    unchanged. *)
Theorem connected_output_cb_forwards_or_releases (K : Constants) (E : Externals)
    (C : Collaborators) (s : State) (p : port_id) (b : buf_id) :
  let released s' :=
    set_trace (call_buffer_header_release b :: trace s') (buffer_header_release E b s') in
  (BH.cmd (buffer_at s b) = 0 ->
   Port.is_enabled (port_at s p) = 0 ->
   connected_output_cb K E C p b s = Done tt (released s))
  /\ (BH.cmd (buffer_at s b) <> 0 ->
      event_format_changed_get C b s = None ->
      connected_output_cb K E C p b s = Done tt (released s))
  /\ (forall q,
        BH.cmd (buffer_at s b) = 0 ->
        Port.is_enabled (port_at s p) <> 0 ->
        Core.connected_port (core_at s p) = Some q ->
        connected_output_cb K E C p b s
        = match mmal_port_send_buffer K E (Some q) b s with
          | Done st s' => if is_success st then Done tt s' else Done tt (released s')
          | Stuck w => Stuck w
          end)
  /\ (forall q pq f,
        BH.cmd (buffer_at s b) = 0 ->
        Port.is_enabled (port_at s p) <> 0 ->
        Core.connected_port (core_at s p) = Some q ->
        Port.priv (port_at s q) = Some pq ->
        Priv.pf_send pq = Some f ->
        Port.is_enabled (port_at s q) = 0 ->
        connected_output_cb K E C p b s = Done tt (released s)).
Proof.
  intros released.
  assert (Hfwd : forall q,
             BH.cmd (buffer_at s b) = 0 ->
             Port.is_enabled (port_at s p) <> 0 ->
             Core.connected_port (core_at s p) = Some q ->
             connected_output_cb K E C p b s
             = match mmal_port_send_buffer K E (Some q) b s with
               | Done st s' => if is_success st then Done tt s' else Done tt (released s')
               | Stuck w => Stuck w
               end).
  { intros q Hcmd Hen Hcon. apply nonzero_true in Hen.
    unfold connected_output_cb. run_steps. rewrite Hcmd, Hcon.
    change (nonzero 0) with false. cbn beta iota. rewrite Hen. cbn beta iota.
    destruct (mmal_port_send_buffer K E (Some q) b s) as [st s' |]; [| reflexivity].
    cbn beta iota. destruct (is_success st); reflexivity. }
  split; [| split; [| split]].
  - intros Hcmd Hdis. apply nonzero_false in Hdis.
    unfold connected_output_cb. run_steps. rewrite Hcmd.
    change (nonzero 0) with false. cbn beta iota. rewrite Hdis. reflexivity.
  - intros Hcmd Hev. apply nonzero_true in Hcmd.
    unfold connected_output_cb. run_steps. rewrite Hcmd. cbn beta iota.
    rewrite Hev. reflexivity.
  - exact Hfwd.
  - intros q pq f Hcmd Hen Hcon Hq Hf Hdis.
    rewrite (Hfwd q Hcmd Hen Hcon), (send_buffer_disabled K E s q pq f b Hq Hf Hdis).
    reflexivity.
Qed.

(** Ports 1 and 2 of the sample store, connected; port 1 is enabled, port 2
    is not; buffer 7 with command 0 comes back on port 1. *)
Lemma connected_output_cb_forwards_or_releases_witness :
  let s := upd_buffer 7%nat (BH.set_cmd 0) (connected_state 1 0) in
  exists s',
    connected_output_cb sample_constants sample_externals sample_collaborators
      1%nat 7%nat s
    = Done tt s'
    /\ trace s' = [call_buffer_header_release 7%nat]
    /\ IN_TRANSIT_COUNT s' 2%nat = 0.
Proof.
  intros s.
  assert (Hen : Port.is_enabled (port_at s 1%nat) <> 0) by (vm_compute; discriminate).
  eexists. split.
  - exact (proj2 (proj2 (proj2 (connected_output_cb_forwards_or_releases sample_constants
                                  sample_externals sample_collaborators s 1%nat 7%nat)))
             2%nat _ 0%nat eq_refl Hen eq_refl eq_refl eq_refl eq_refl).
  - split; reflexivity.
Defined.

(** ** Statistics *)

(** X18.  [mmal_port_update_port_stats] on an allocated port updates the
    statistics of the given direction and leaves those of the other
    direction alone.  In the updated direction the buffer count goes up by
    one modulo 2^32 and the last buffer time is the time read.  Once the
    first buffer time is not 0 it is kept, and the maximum delay does not go
    down and is at least the time since the last buffer (modulo 2^32).
    While the first buffer time is 0, which includes a first buffer that
    arrived at time 0, the buffer is taken as the first one: the first
    buffer time is the time read and the maximum delay is kept. *)
Theorem update_port_stats_properties (E : Externals) (s : State) (p : port_id)
    (pr : Priv.t) (dir : MMAL_CORE_STATS_DIR)
    (Hpriv : Port.priv (port_at s p) = Some pr) :
  let pick (st : MMAL_CORE_PORT_STATISTICS_T) :=
    match dir with MMAL_CORE_STATS_RX => rx st | _ => tx st end in
  let other (st : MMAL_CORE_PORT_STATISTICS_T) :=
    match dir with MMAL_CORE_STATS_RX => tx st | _ => rx st end in
  let stc := to_uint32 (getmicrosecs E s) in
  let old := pick (Core.stats (core_at s p)) in
  exists s',
    mmal_port_update_port_stats E p dir s = Done tt s'
    /\ other (Core.stats (core_at s' p)) = other (Core.stats (core_at s p))
    /\ pick (Core.stats (core_at s' p)) = update_stats stc old
    /\ buffer_count (update_stats stc old) = to_uint32 (buffer_count old + 1)
    /\ last_buffer_time (update_stats stc old) = stc
    /\ (first_buffer_time old <> 0 ->
        first_buffer_time (update_stats stc old) = first_buffer_time old
        /\ max_delay old <= max_delay (update_stats stc old)
        /\ to_uint32 (stc - last_buffer_time old) <= max_delay (update_stats stc old))
    /\ (first_buffer_time old = 0 ->
        first_buffer_time (update_stats stc old) = stc
        /\ max_delay (update_stats stc old) = max_delay old)
    /\ IN_TRANSIT_COUNT s' p = IN_TRANSIT_COUNT s p
    /\ trace s' = trace s.
Proof.
  intros pick other stc old.
  unfold mmal_port_update_port_stats. run_steps. fold stc.
  eexists. split; [reflexivity |].
  rewrite core_at_upd_core_is_Some by eauto.
  unfold IN_TRANSIT_COUNT.
  rewrite (core_field_upd_core Core.transit_buffer_headers)
    by (intros c; destruct dir; reflexivity).
  split; [subst other; destruct dir; reflexivity |].
  split; [subst pick old; destruct dir; reflexivity |].
  unfold update_stats.
  split; [destruct (nonzero (first_buffer_time old)); reflexivity |].
  split; [destruct (nonzero (first_buffer_time old)); reflexivity |].
  split; [| split; [| split; reflexivity]].
  - intros Hnz. apply nonzero_true in Hnz. rewrite Hnz. cbn.
    split; [reflexivity |]. split; lia.
  - intros Hz. apply nonzero_false in Hz. rewrite Hz. cbn. split; reflexivity.
Qed.

(** Port 1 of the sample store, RX direction, at time 0. *)
Lemma update_port_stats_properties_witness :
  exists s',
    mmal_port_update_port_stats sample_externals 1%nat MMAL_CORE_STATS_RX
      (sample_state 1 0 [])
    = Done tt s'
    /\ rx (Core.stats (core_at s' 1%nat)) = mkStats 4 10 0 4294967266
    /\ tx (Core.stats (core_at s' 1%nat)) = mkStats 2 12 28 16.
Proof.
  destruct (update_port_stats_properties sample_externals (sample_state 1 0 []) 1%nat _
              MMAL_CORE_STATS_RX eq_refl) as (s' & Hgo & Ho & Hp & _).
  exists s'. split; [exact Hgo |]. split.
  - etransitivity; [exact Hp | vm_compute; reflexivity].
  - exact Ho.
Defined.

(** ** Format commit *)

Lemma clamp_to_minima_meets (x : Port.t) : meets_minima (clamp_to_minima x).
Proof.
  unfold meets_minima, clamp_to_minima.
  destruct (Z.ltb_spec (Port.buffer_size x) (Port.buffer_size_min x));
    cbn [Port.buffer_num Port.buffer_num_min Port.set_buffer_size];
    destruct (Z.ltb_spec (Port.buffer_num x) (Port.buffer_num_min x)); cbn; lia.
Qed.

Lemma clamp_to_minima_public {A} (g : Port.t -> A) :
  (forall x v, g (Port.set_buffer_size v x) = g x) ->
  (forall x v, g (Port.set_buffer_num v x) = g x) ->
  forall x, g (clamp_to_minima x) = g x.
Proof.
  intros G1 G2 x. unfold clamp_to_minima.
  destruct (Port.buffer_size x <? Port.buffer_size_min x);
    match goal with |- context [if ?c then _ else _] => destruct c end;
    rewrite ?G2, ?G1; reflexivity.
Qed.

Lemma meets_minima_upd_clamp (s : State) (o q : port_id) :
  o = q \/ meets_minima (port_at s q) ->
  meets_minima (port_at (upd_port o clamp_to_minima s) q).
Proof.
  intros H. rewrite port_at_upd_port.
  destruct (decide (o = q)) as [-> | Hne].
  - destruct (ports s !! q); [apply clamp_to_minima_meets |].
    unfold meets_minima. cbn. lia.
  - destruct H as [? | H]; [congruence | exact H].
Qed.

Lemma meets_minima_clamp_outputs (l : list port_id) (s : State) (q : port_id) :
  q ∈ l \/ meets_minima (port_at s q) ->
  meets_minima (port_at (foldl (fun s o => upd_port o clamp_to_minima s) s l) q).
Proof.
  revert s. induction l as [| o l IH]; intros s H.
  - destruct H as [H | H]; [| exact H]. apply elem_of_nil in H. destruct H.
  - cbn [foldl]. apply IH. destruct H as [H | H].
    + apply elem_of_cons in H. destruct H as [-> | H]; [| left; exact H].
      right. apply meets_minima_upd_clamp. left. reflexivity.
    + right. apply meets_minima_upd_clamp. right. exact H.
Qed.

(** X19.  [mmal_port_format_commit] on a valid port whose format pointer is
    intact and whose set_format hook is present calls the hook once and
    returns its status, whatever it is.  Also when the hook fails, the name
    of the port is updated and the buffer settings are made sensible: in the
    store returned, [buffer_num] and [buffer_size] of the port are not below
    their minima, and when the port is an input, the same holds for every
    output port of its component. *)
Theorem format_commit_clamps_buffers (E : Externals) (s : State) (p : port_id)
    (pr : Priv.t) (f : code_ptr) (fm : fmt_id) (st : MMAL_STATUS_T) (s2 : State)
    (Hpriv : Port.priv (port_at s p) = Some pr)
    (Hfmt : Port.format (port_at s p) = Some fm)
    (Hcopy : Core.format_ptr_copy (core_at s p) = Some fm)
    (Hhook : Priv.pf_set_format pr = Some f)
    (Hrun : run_set_format E f p s = (st, s2))
    (Hname : is_Some (Core.name (core_at s2 p))) :
  exists s',
    mmal_port_format_commit E (Some p) s = Done st s'
    /\ trace s' = call_pf_set_format f p :: trace s
    /\ meets_minima (port_at s' p)
    /\ (Port.type (port_at s2 p) = MMAL_PORT_TYPE_INPUT ->
        forall o,
          o ∈ Component.output (component_at s2 (Port.component (port_at s2 p))) ->
          meets_minima (port_at s' o))
    /\ (Port.type (port_at s2 p) <> MMAL_PORT_TYPE_INPUT ->
        forall o, o <> p -> Port.buffer_num (port_at s' o) = Port.buffer_num (port_at s2 o)
                            /\ Port.buffer_size (port_at s' o) = Port.buffer_size (port_at s2 o)).
Proof.
  destruct Hname as [area Harea].
  set (s2' := set_trace (call_pf_set_format f p :: trace s) s2).
  unfold mmal_port_format_commit. run_steps.
  unfold valid_port. rewrite Hpriv. cbn beta iota.
  rewrite bool_decide_eq_false_2 by (rewrite Hfmt, Hcopy; intros H; apply H; reflexivity).
  cbn beta iota. rewrite Hfmt. cbn beta iota.
  replace (slot Priv.pf_set_format s p) with (Some f)
    by (unfold slot; rewrite Hpriv; auto).
  unfold call. rewrite Hrun. fold s2'. cbn beta iota.
  unfold mmal_port_name_update.
  change (port_at s2' p) with (port_at s2 p).
  change (Port.core (port_at s2 p)) with (core_at s2 p). rewrite Harea.
  cbn beta iota.
  match goal with
  | |- context [upd_port area (Port.set_name ?n) s2'] =>
      set (s3 := upd_port area (Port.set_name n) s2')
  end.
  set (s4 := upd_port p clamp_to_minima s3).
  assert (Hpub : forall {A} (g : Port.t -> A) q,
             (forall x v, g (Port.set_name v x) = g x) ->
             (forall x v, g (Port.set_buffer_size v x) = g x) ->
             (forall x v, g (Port.set_buffer_num v x) = g x) ->
             g (port_at s4 q) = g (port_at s2 q)).
  { intros A g q G1 G2 G3. unfold s4, s3.
    rewrite (port_field_upd_port g) by (apply clamp_to_minima_public; assumption).
    rewrite (port_field_upd_port g) by (intros x; apply G1). reflexivity. }
  assert (Hty : Port.type (port_at s4 p) = Port.type (port_at s2 p)).
  { apply Hpub; reflexivity. }
  assert (Hcomp : Port.component (port_at s4 p) = Port.component (port_at s2 p)).
  { apply Hpub; reflexivity. }
  assert (Hm4 : meets_minima (port_at s4 p)).
  { unfold s4. apply meets_minima_upd_clamp. left. reflexivity. }
  assert (Hother : forall o, o <> p ->
             Port.buffer_num (port_at s4 o) = Port.buffer_num (port_at s2 o)
             /\ Port.buffer_size (port_at s4 o) = Port.buffer_size (port_at s2 o)).
  { intros o Ho. unfold s4. rewrite port_at_upd_port_ne by congruence. unfold s3.
    rewrite (port_field_upd_port Port.buffer_num) by reflexivity.
    rewrite (port_field_upd_port Port.buffer_size) by reflexivity. split; reflexivity. }
  rewrite Hty.
  destruct (Port.type (port_at s2 p)) eqn:Htype; cbn [is_input]; cbn beta iota.
  1, 2, 4: eexists; (split; [reflexivity |]); (split; [reflexivity |]);
    (split; [exact Hm4 |]); (split; [discriminate |]); intros _; exact Hother.
  rewrite Hcomp.
  change (component_at s4 (Port.component (port_at s2 p)))
    with (component_at s2 (Port.component (port_at s2 p))).
  eexists. split; [reflexivity |]. split; [apply trace_clamp_outputs |].
  split; [apply meets_minima_clamp_outputs; right; exact Hm4 |].
  split; [| intros H; congruence].
  intros _ o Ho. apply meets_minima_clamp_outputs. left. exact Ho.
Qed.

(** Port 2 of the sample store, an input of component 0, whose output port 1
    has one buffer of 512 bytes. *)
Lemma format_commit_clamps_buffers_witness :
  let s := upd_port 1%nat (fun x => Port.set_buffer_size 512 (Port.set_buffer_num 1 x))
             (sample_state 0 0 []) in
  exists s',
    mmal_port_format_commit sample_externals (Some 2%nat) s = Done MMAL_SUCCESS s'
    /\ Port.buffer_num (port_at s 1%nat) = 1
    /\ meets_minima (port_at s' 1%nat)
    /\ meets_minima (port_at s' 2%nat).
Proof.
  intros s.
  assert (Hname : is_Some (Core.name (core_at s 2%nat))) by (eexists; reflexivity).
  destruct (format_commit_clamps_buffers sample_externals s 2%nat _ 0%nat 100%nat
              MMAL_SUCCESS s eq_refl eq_refl eq_refl eq_refl eq_refl Hname)
    as (s' & Hgo & _ & Hm & Hin & _).
  exists s'. split; [exact Hgo |]. split; [reflexivity |].
  split; [| exact Hm].
  apply (Hin eq_refl). vm_compute. apply elem_of_cons. left. reflexivity.
Defined.

(** ** Allocation *)

Lemma upd_port_insert (s : State) (m : gmap port_id Port.t) (p : port_id) (x : Port.t)
    (f : Port.t -> Port.t) :
  upd_port p f (set_ports (<[p := x]> m) s) = set_ports (<[p := f x]> m) s.
Proof.
  unfold upd_port. cbn [ports set_ports]. rewrite alter_insert_eq. reflexivity.
Qed.

Lemma port_at_insert (s : State) (m : gmap port_id Port.t) (p : port_id) (x : Port.t) :
  port_at (set_ports (<[p := x]> m) s) p = x.
Proof. unfold port_at. cbn [ports set_ports]. rewrite lookup_insert_eq. reflexivity. Qed.

(** X20.  [mmal_port_alloc], when the memory, the five VCOS objects and the
    format are all obtained, returns a port of the given type and component
    that is disabled, not connected, has no callback and no buffer in
    transit with the semaphore available (balanced accounting).  Its vtable
    holds the default connect function and no other function; its format
    pointer and the copy the core keeps are the same, newly allocated
    format; its name area is its own; the five objects are alive; no other
    port has changed and no call was made into a component. *)
Theorem alloc_establishes_invariants (E : Externals) (s : State) (component : comp_id)
    (type : MMAL_PORT_TYPE_T) (extra_size : Z) (p : port_id) (fm : fmt_id)
    (Hmem : calloc_port E s = Some p)
    (Hvcos : forall o s', create_succeeds E p o s' = true)
    (Hformat : forall s', formats s' = formats s -> format_alloc E s' = Some fm) :
  exists s' pr,
    mmal_port_alloc E component type extra_size s = Done (Some p) s'
    /\ Port.priv (port_at s' p) = Some pr
    /\ (Priv.pf_connect pr = Some mmal_port_connect_default_ptr
        /\ Priv.pf_set_format pr = None /\ Priv.pf_enable pr = None
        /\ Priv.pf_disable pr = None /\ Priv.pf_send pr = None
        /\ Priv.pf_parameter_set pr = None /\ Priv.pf_parameter_get pr = None)
    /\ (Port.type (port_at s' p) = type
        /\ Port.component (port_at s' p) = component
        /\ Port.is_enabled (port_at s' p) = 0)
    /\ (Port.format (port_at s' p) = Some fm
        /\ Core.format_ptr_copy (core_at s' p) = Some fm
        /\ formats s' !! fm = Some Format.zero)
    /\ (Core.connected_port (core_at s' p) = None
        /\ Core.buffer_header_callback (core_at s' p) = None
        /\ Core.pool_for_connection (core_at s' p) = None
        /\ Core.name (core_at s' p) = Some p)
    /\ (IN_TRANSIT_COUNT s' p = 0 /\ transit_balanced s' p)
    /\ vcos_objs s'
       = [(p, obj_stats_lock); (p, obj_transit_sema); (p, obj_transit_lock);
          (p, obj_send_lock); (p, obj_lock)] ++ vcos_objs s
    /\ (forall q, q <> p -> ports s' !! q = ports s !! q)
    /\ trace s' = trace s.
Proof.
  unfold mmal_port_alloc. run_steps. rewrite Hmem. cbn beta iota.
  set (name_size := to_uint32 _). clearbody name_size.
  unfold upd_core, upd_port, mmal_port_name_update, port_at, vcos_create. cbn.
  rewrite ?alter_insert_eq, ?lookup_insert_eq. cbn.
  rewrite ?alter_insert_eq, ?lookup_insert_eq. cbn.
  set (cname := Component.name _). clearbody cname.
  set (nm := snprintf_port_name _ _ _ _ _ _). clearbody nm.
  do 5 (rewrite ?alter_insert_eq, ?lookup_insert_eq, ?Hvcos; cbn).
  unfold mmal_format_alloc. rewrite Hformat by reflexivity. cbn.
  rewrite ?alter_insert_eq, ?lookup_insert_eq. cbn.
  eexists. eexists. split; [reflexivity |].
  unfold IN_TRANSIT_COUNT, transit_balanced, IN_TRANSIT_COUNT, core_at, port_at. cbn.
  rewrite ?lookup_insert_eq. cbn.
  split; [reflexivity |].
  repeat split; try reflexivity; try lia.
  intros q Hq. apply lookup_insert_ne. congruence.
Qed.

(** Allocation of an input port of component 0 on the sample store; the
    fresh port has no enable hook and is not connected. *)
Lemma alloc_establishes_invariants_witness :
  exists s',
    mmal_port_alloc sample_externals 0%nat MMAL_PORT_TYPE_INPUT 0 (sample_state 0 0 [])
    = Done (Some 15%nat) s'
    /\ Port.type (port_at s' 15%nat) = MMAL_PORT_TYPE_INPUT
    /\ Port.format (port_at s' 15%nat) = Some 101%nat
    /\ Core.format_ptr_copy (core_at s' 15%nat) = Some 101%nat
    /\ transit_balanced s' 15%nat.
Proof.
  destruct (alloc_establishes_invariants sample_externals (sample_state 0 0 []) 0%nat
              MMAL_PORT_TYPE_INPUT 0 15%nat 101%nat eq_refl (fun _ _ => eq_refl)
              (fun s' H => f_equal (fun m => Some (100 + size m)%nat) H))
    as (s' & pr & Hgo & _ & _ & (Hty & _) & (Hf & Hc & _) & _ & (_ & Hbal) & _).
  exists s'. repeat split; try assumption; apply Hbal.
Defined.

Lemma vcos_filter_fresh (a : port_id * vcos_obj) (l : list (port_id * vcos_obj)) :
  a ∉ l -> filter (fun x => x <> a) l = l.
Proof.
  induction l as [| b l IH]; intros H; [reflexivity |].
  apply not_elem_of_cons in H. destruct H as [Hne Hl].
  rewrite filter_cons_True by congruence. rewrite IH by exact Hl. reflexivity.
Qed.

Lemma vcos_filter_here (a : port_id * vcos_obj) (l : list (port_id * vcos_obj)) :
  filter (fun x => x <> a) (a :: l) = filter (fun x => x <> a) l.
Proof. apply filter_cons_False. intros H. apply H. reflexivity. Qed.

Lemma vcos_filter_other (a b : port_id * vcos_obj) (l : list (port_id * vcos_obj)) :
  b <> a -> filter (fun x => x <> a) (b :: l) = b :: filter (fun x => x <> a) l.
Proof. intros H. apply filter_cons_True. exact H. Qed.

(** The error exit of [mmal_port_alloc] undoes what was done: [X] is the
    port structure and the flags say which objects were created. *)
Lemma alloc_error_path_back (s : State) (p : port_id) (X : Port.t)
    (lock lock_send lock_transit sema_transit lock_stats : bool) :
  ports s !! p = None ->
  (forall o, (p, o) ∉ vcos_objs s) ->
  Port.format X = None ->
  mmal_port_alloc_error p lock lock_send lock_transit sema_transit lock_stats
    (set_vcos_objs
       ((if lock_stats then [(p, obj_stats_lock)] else [])
        ++ (if sema_transit then [(p, obj_transit_sema)] else [])
        ++ (if lock_transit then [(p, obj_transit_lock)] else [])
        ++ (if lock_send then [(p, obj_send_lock)] else [])
        ++ (if lock then [(p, obj_lock)] else [])
        ++ vcos_objs s)
       (set_ports (<[p := X]> (ports s)) s))
  = Done None s.
Proof.
  intros Hfresh Hobjs Hfmt.
  unfold mmal_port_alloc_error, vcos_delete, mmal_format_free, vcos_free, port_at.
  run_steps.
  destruct lock, lock_send, lock_transit, sema_transit, lock_stats;
    cbn [app]; cbn beta iota;
    cbn [vcos_objs set_vcos_objs set_ports ports];
    rewrite ?lookup_insert_eq; cbn [default from_option id]; rewrite ?Hfmt;
    cbn beta iota;
    cbn [vcos_objs set_vcos_objs set_ports ports];
    repeat first
      [ rewrite vcos_filter_here
      | rewrite vcos_filter_other by congruence
      | rewrite (vcos_filter_fresh _ (vcos_objs _)) by apply Hobjs ];
    rewrite delete_insert_eq, (delete_id _ _ Hfresh);
    apply (f_equal (Done None));
    destruct s; reflexivity.
Qed.

Ltac store_step :=
  cbn -[filter mmal_port_alloc_error];
  rewrite ?alter_insert_eq, ?lookup_insert_eq;
  cbn -[filter mmal_port_alloc_error].

Ltac alloc_undone s p Hfresh Hobjs :=
  right;
  match goal with
  | |- mmal_port_alloc_error p ?a ?b ?c ?d ?e ?st = _ =>
      let m := eval cbn [ports set_ports set_vcos_objs set_formats] in (ports st) in
      match m with
      | <[p := ?X]> _ =>
          exact (alloc_error_path_back s p X a b c d e Hfresh Hobjs eq_refl)
      end
  end.

(** X21.  [mmal_port_alloc] leaks nothing when it fails.  Given memory for a
    port that is not in the store and owns no VCOS object there, the call
    either returns that port, or it returns null with the store exactly as
    it was before the call: whichever of the five VCOS objects or the format
    could not be obtained, the objects that were created are deleted again
    and the memory is freed. *)
Theorem alloc_failure_leaves_store (E : Externals) (s : State) (component : comp_id)
    (type : MMAL_PORT_TYPE_T) (extra_size : Z) (p : port_id)
    (Hmem : calloc_port E s = Some p)
    (Hfresh : ports s !! p = None)
    (Hobjs : forall o, (p, o) ∉ vcos_objs s) :
  (exists s', mmal_port_alloc E component type extra_size s = Done (Some p) s')
  \/ mmal_port_alloc E component type extra_size s = Done None s.
Proof.
  unfold mmal_port_alloc. run_steps. rewrite Hmem. cbn beta iota.
  set (name_size := to_uint32 _). clearbody name_size.
  unfold upd_core, upd_port, mmal_port_name_update, port_at, vcos_create. store_step.
  store_step.
  set (cname := Component.name _). clearbody cname.
  set (nm := snprintf_port_name _ _ _ _ _ _). clearbody nm.
  store_step.
  destruct (create_succeeds E p obj_lock _); store_step;
  destruct (create_succeeds E p obj_send_lock _); store_step;
  destruct (create_succeeds E p obj_transit_lock _); store_step;
  destruct (create_succeeds E p obj_transit_sema _); store_step;
  destruct (create_succeeds E p obj_stats_lock _); store_step.
  2-32: alloc_undone s p Hfresh Hobjs.
  unfold mmal_format_alloc.
  destruct (format_alloc E _) as [fm |]; cbn beta iota.
  - left. eexists. reflexivity.
  - store_step. alloc_undone s p Hfresh Hobjs.
Qed.

(** Allocation on the sample store with a format allocator that is out of
    memory. *)
Lemma alloc_failure_leaves_store_witness :
  (exists s', mmal_port_alloc no_format_externals 0%nat MMAL_PORT_TYPE_INPUT 0
                (sample_state 0 0 [])
              = Done (Some 15%nat) s')
  \/ mmal_port_alloc no_format_externals 0%nat MMAL_PORT_TYPE_INPUT 0 (sample_state 0 0 [])
     = Done None (sample_state 0 0 []).
Proof.
  apply alloc_failure_leaves_store.
  - reflexivity.
  - vm_compute. reflexivity.
  - intros o. apply not_elem_of_nil.
Defined.

(** ** Populating a port from a pool *)

(** X22.  [mmal_port_populate_from_pool] on an allocated port: without a
    send hook it returns [MMAL_ENOSYS]; with one, it returns [MMAL_SUCCESS]
    when the port asks for no buffer, and [MMAL_ENOMEM] when it asks for
    buffers and the pool is empty, each time with the store as it was.  When
    the port asks for buffers, the pool has one and the port is disabled,
    the first buffer is taken from the queue, the send is turned down with
    [MMAL_EINVAL], the buffer is released and the loop ends with that
    status. *)
Theorem populate_from_pool_edges (K : Constants) (E : Externals) (rounds : nat)
    (s : State) (p : port_id) (q : pool_id) (pr : Priv.t)
    (Hpriv : Port.priv (port_at s p) = Some pr) :
  (Priv.pf_send pr = None ->
   mmal_port_populate_from_pool K E rounds p q s = Done MMAL_ENOSYS s)
  /\ (forall f,
        Priv.pf_send pr = Some f ->
        (Port.buffer_num (port_at s p) <= 0 ->
         mmal_port_populate_from_pool K E (S rounds) p q s = Done MMAL_SUCCESS s)
        /\ (0 < Port.buffer_num (port_at s p) ->
            Pool.queue (pool_at s q) = [] ->
            mmal_port_populate_from_pool K E (S rounds) p q s = Done MMAL_ENOMEM s)
        /\ (forall b rest,
              0 < Port.buffer_num (port_at s p) ->
              Pool.queue (pool_at s q) = b :: rest ->
              Port.is_enabled (port_at s p) = 0 ->
              let s1 := upd_pool q (Pool.set_queue rest) s in
              mmal_port_populate_from_pool K E (S rounds) p q s
              = Done MMAL_EINVAL
                  (set_trace (call_buffer_header_release b :: trace s)
                     (buffer_header_release E b s1)))).
Proof.
  split.
  - intros Hnone. unfold mmal_port_populate_from_pool. run_steps.
    unfold slot. rewrite Hpriv, Hnone. reflexivity.
  - intros f Hf.
    assert (Hslot : slot Priv.pf_send s p = Some f).
    { unfold slot. rewrite Hpriv. exact Hf. }
    unfold mmal_port_populate_from_pool. run_steps. rewrite Hslot. cbn beta iota.
    cbn [populate_loop]. run_steps.
    split; [| split].
    + intros Hle. apply Z.ltb_ge in Hle. rewrite Hle. reflexivity.
    + intros Hlt Hq. apply Z.ltb_lt in Hlt. rewrite Hlt. cbn [negb]. cbn beta iota.
      unfold mmal_queue_get. rewrite Hq. reflexivity.
    + intros b rest Hlt Hq Hdis. apply Z.ltb_lt in Hlt. rewrite Hlt.
      cbn [negb]. cbn beta iota.
      unfold mmal_queue_get. rewrite Hq. cbn beta iota.
      set (s1 := upd_pool q (Pool.set_queue rest) s).
      rewrite (send_buffer_disabled K E s1 p pr f b Hpriv Hf Hdis).
      cbn [is_success]. cbn beta iota.
      unfold mmal_buffer_header_release, call. run_steps. reflexivity.
Qed.

(** Port 3 of the sample store has no send hook; port 1 is disabled and asks
    for 3 buffers; pool 0 holds buffer 7. *)
Lemma populate_from_pool_edges_witness :
  mmal_port_populate_from_pool sample_constants sample_externals 4 3%nat 0%nat
    (sample_state 0 0 [7%nat])
  = Done MMAL_ENOSYS (sample_state 0 0 [7%nat])
  /\ mmal_port_populate_from_pool sample_constants sample_externals 4 1%nat 0%nat
       (sample_state 0 0 [])
     = Done MMAL_ENOMEM (sample_state 0 0 [])
  /\ exists s',
       mmal_port_populate_from_pool sample_constants sample_externals 4 1%nat 0%nat
         (sample_state 0 0 [7%nat])
       = Done MMAL_EINVAL s'
       /\ trace s' = [call_buffer_header_release 7%nat]
       /\ Pool.queue (pool_at s' 0%nat) = [].
Proof.
  split; [| split].
  - exact (proj1 (populate_from_pool_edges sample_constants sample_externals 4
                    (sample_state 0 0 [7%nat]) 3%nat 0%nat _ eq_refl) eq_refl).
  - refine (proj1 (proj2 (proj2 (populate_from_pool_edges sample_constants sample_externals 3
                                   (sample_state 0 0 []) 1%nat 0%nat _ eq_refl)
                            0%nat eq_refl)) _ eq_refl).
    vm_compute. reflexivity.
  - eexists. split.
    + refine (proj2 (proj2 (proj2 (populate_from_pool_edges sample_constants sample_externals 3
                                     (sample_state 0 0 [7%nat]) 1%nat 0%nat _ eq_refl)
                              0%nat eq_refl)) 7%nat [] _ eq_refl eq_refl).
      vm_compute. reflexivity.
    + split; reflexivity.
Defined.

(** ** Parameters *)

Lemma is_enosys_false (st : MMAL_STATUS_T) : st <> MMAL_ENOSYS -> is_enosys st = false.
Proof. destruct st; intros H; try reflexivity. congruence. Qed.

(** X23.  A status other than [MMAL_ENOSYS] from the parameter hook of the
    component is final: [mmal_port_parameter_get] and
    [mmal_port_parameter_set] return it with the store (and, for get, the
    parameter block) as the hook left them, and the core's own parameters
    are not consulted.  In particular a CORE_STATISTICS request with the
    reset flag that the component answers does not read or reset the
    statistics of the core. *)
Theorem parameter_hook_status_is_final (K : Constants) (E : Externals) (s : State)
    (p : port_id) (pr : Priv.t) (prm : Param.t)
    (Hpriv : Port.priv (port_at s p) = Some pr) :
  (forall f st prm' s2,
     Priv.pf_parameter_get pr = Some f ->
     run_parameter_get E f p prm s = ((st, prm'), s2) ->
     st <> MMAL_ENOSYS ->
     mmal_port_parameter_get K E (Some p) (Some prm) s
     = Done (st, Some prm') (set_trace (call_pf_parameter_get f p :: trace s) s2))
  /\ (forall f st s2,
        Priv.pf_parameter_set pr = Some f ->
        run_parameter_set E f p prm s = (st, s2) ->
        st <> MMAL_ENOSYS ->
        mmal_port_parameter_set E (Some p) (Some prm) s
        = Done st (set_trace (call_pf_parameter_set f p :: trace s) s2)).
Proof.
  split.
  - intros f st prm' s2 Hf Hrun Hst.
    unfold mmal_port_parameter_get. run_steps.
    unfold valid_port. rewrite Hpriv. cbn beta iota.
    unfold slot. rewrite Hpriv, Hf. cbn beta iota.
    unfold call. rewrite Hrun. cbn beta iota. cbn [fst snd].
    rewrite (is_enosys_false _ Hst). reflexivity.
  - intros f st s2 Hf Hrun Hst.
    unfold mmal_port_parameter_set. run_steps.
    rewrite Hpriv. cbn beta iota.
    unfold slot. rewrite Hpriv, Hf. cbn beta iota.
    unfold call. rewrite Hrun. cbn beta iota.
    rewrite (is_enosys_false _ Hst). reflexivity.
Qed.

(** Port 1 of the sample store, whose hooks succeed: the statistics of the
    core are not reset by a CORE_STATISTICS request with the reset flag. *)
Lemma parameter_hook_status_is_final_witness :
  exists s',
    mmal_port_parameter_get sample_constants sample_externals (Some 1%nat)
      (Some rx_reset_request) (sample_state 0 0 [])
    = Done (MMAL_SUCCESS, Some rx_reset_request) s'
    /\ rx (Core.stats (core_at s' 1%nat)) = mkStats 3 10 30 15.
Proof.
  eexists. split.
  - refine (proj1 (parameter_hook_status_is_final sample_constants sample_externals
                     (sample_state 0 0 []) 1%nat _ rx_reset_request eq_refl)
              0%nat MMAL_SUCCESS _ _ eq_refl eq_refl _).
    discriminate.
  - reflexivity.
Defined.

(** X24.  [mmal_port_parameter_get] on a port without a parameter_get hook:
    a CORE_STATISTICS request without the reset flag returns
    [MMAL_SUCCESS] with the statistics of the requested direction (RX for
    [MMAL_CORE_STATS_RX], TX for any other value) and leaves the store as it
    was; a request for any other parameter returns [MMAL_ENOSYS] with the
    block and the store as they were.  A null port, a port without private
    structure or a null parameter gives [MMAL_EINVAL] with the store as it
    was. *)
Theorem parameter_get_reads_statistics (K : Constants) (E : Externals) (s : State)
    (p : port_id) (pr : Priv.t) (prm : Param.t)
    (Hpriv : Port.priv (port_at s p) = Some pr)
    (Hhook : Priv.pf_parameter_get pr = None) :
  (Param.id prm = MMAL_PARAMETER_CORE_STATISTICS K ->
   Param.reset prm = 0 ->
   mmal_port_parameter_get K E (Some p) (Some prm) s
   = Done (MMAL_SUCCESS,
           Some (Param.set_stats
                   (match Param.dir prm with
                    | MMAL_CORE_STATS_RX => rx (Core.stats (core_at s p))
                    | _ => tx (Core.stats (core_at s p))
                    end) prm)) s)
  /\ (Param.id prm <> MMAL_PARAMETER_CORE_STATISTICS K ->
      mmal_port_parameter_get K E (Some p) (Some prm) s = Done (MMAL_ENOSYS, Some prm) s)
  /\ mmal_port_parameter_get K E (Some p) None s = Done (MMAL_EINVAL, None) s
  /\ mmal_port_parameter_get K E None (Some prm) s = Done (MMAL_EINVAL, Some prm) s.
Proof.
  split; [| split; [| split]].
  - intros Hid Hreset.
    unfold mmal_port_parameter_get. run_steps.
    unfold valid_port. rewrite Hpriv. cbn beta iota.
    unfold slot. rewrite Hpriv, Hhook. cbn beta iota. cbn [fst snd is_enosys].
    unfold mmal_port_private_parameter_get. rewrite Hid, Z.eqb_refl.
    rewrite get_core_stats_run. apply nonzero_false in Hreset. rewrite Hreset.
    reflexivity.
  - intros Hid.
    unfold mmal_port_parameter_get. run_steps.
    unfold valid_port. rewrite Hpriv. cbn beta iota.
    unfold slot. rewrite Hpriv, Hhook. cbn beta iota. cbn [fst snd is_enosys].
    unfold mmal_port_private_parameter_get.
    apply Z.eqb_neq in Hid. rewrite Hid. reflexivity.
  - unfold mmal_port_parameter_get. run_steps.
    unfold valid_port. rewrite Hpriv. reflexivity.
  - reflexivity.
Qed.

(** Port 3 of the sample store, which has no hooks. *)
Lemma parameter_get_reads_statistics_witness :
  mmal_port_parameter_get sample_constants sample_externals (Some 3%nat)
    (Some (Param.mk 19 0 MMAL_CORE_STATS_TX 0 stats_zero)) (sample_state 0 0 [])
  = Done (MMAL_SUCCESS, Some (Param.mk 19 0 MMAL_CORE_STATS_TX 0 (mkStats 2 12 28 16)))
      (sample_state 0 0 [])
  /\ mmal_port_parameter_get sample_constants sample_externals (Some 3%nat)
       (Some (Param.mk 20 0 MMAL_CORE_STATS_TX 0 stats_zero)) (sample_state 0 0 [])
     = Done (MMAL_ENOSYS, Some (Param.mk 20 0 MMAL_CORE_STATS_TX 0 stats_zero))
         (sample_state 0 0 []).
Proof.
  split.
  - exact (proj1 (parameter_get_reads_statistics sample_constants sample_externals
                    (sample_state 0 0 []) 3%nat _
                    (Param.mk 19 0 MMAL_CORE_STATS_TX 0 stats_zero) eq_refl eq_refl)
             eq_refl eq_refl).
  - refine (proj1 (proj2 (parameter_get_reads_statistics sample_constants sample_externals
                            (sample_state 0 0 []) 3%nat _
                            (Param.mk 20 0 MMAL_CORE_STATS_TX 0 stats_zero) eq_refl eq_refl))
              _).
    discriminate.
Defined.

(** ** Event buffers *)

(** X25.  [mmal_port_event_get] on a valid port with a location for the
    buffer: when the event pool of the component is empty it returns
    [MMAL_ENOSPC], stores null in the location and leaves the store as it
    was; for an event other than FORMAT_CHANGED it takes the first buffer of
    the pool, sets its command to the event and its length to 0, leaves its
    payload, its allocated size and its other fields alone, and returns
    [MMAL_SUCCESS] with the buffer in the location.  A null port or a null
    location gives [MMAL_EINVAL] with the store as it was. *)
Theorem event_get_other_events (K : Constants) (E : Externals) (s : State)
    (p : port_id) (pr : Priv.t) (held : option buf_id) (event : Z)
    (Hpriv : Port.priv (port_at s p) = Some pr) :
  (Pool.queue (pool_at s (event_pool_of s p)) = [] ->
   mmal_port_event_get K E (Some p) (Some held) event s = Done (MMAL_ENOSPC, Some None) s)
  /\ (forall b rest h,
        event <> MMAL_EVENT_FORMAT_CHANGED K ->
        Pool.queue (pool_at s (event_pool_of s p)) = b :: rest ->
        buffers s !! b = Some h ->
        let s1 := upd_buffer b (fun x => BH.set_length 0 (BH.set_cmd event x))
                    (upd_pool (event_pool_of s p) (Pool.set_queue rest) s) in
        mmal_port_event_get K E (Some p) (Some held) event s
        = Done (MMAL_SUCCESS, Some (Some b)) s1
        /\ buffer_at s1 b = BH.set_length 0 (BH.set_cmd event h)
        /\ Pool.queue (pool_at s1 (event_pool_of s p)) = rest
        /\ trace s1 = trace s)
  /\ mmal_port_event_get K E (Some p) None event s = Done (MMAL_EINVAL, None) s
  /\ mmal_port_event_get K E None (Some held) event s = Done (MMAL_EINVAL, Some held) s.
Proof.
  split; [| split; [| split]].
  - intros Hq. unfold mmal_port_event_get. run_steps.
    unfold valid_port. rewrite Hpriv. cbn beta iota.
    unfold mmal_queue_get. fold (event_pool_of s p). rewrite Hq. reflexivity.
  - intros b rest h Hev Hq Hb. cbv zeta.
    split; [| split; [| split]].
    + unfold mmal_port_event_get. run_steps.
      unfold valid_port. rewrite Hpriv. cbn beta iota.
      unfold mmal_queue_get. fold (event_pool_of s p). rewrite Hq. cbn beta iota.
      apply Z.eqb_neq in Hev. rewrite Hev. rewrite upd_buffer_compose. reflexivity.
    + apply (buffer_at_upd_buffer_eq _ b h (fun x => BH.set_length 0 (BH.set_cmd event x))).
      exact Hb.
    + unfold pool_at, upd_buffer, upd_pool. cbn [pools set_buffers set_pools].
      rewrite lookup_alter_eq.
      unfold pool_at in Hq. destruct (pools s !! event_pool_of s p) as [x |]; cbn in *.
      * reflexivity.
      * discriminate.
    + reflexivity.
  - unfold mmal_port_event_get. run_steps.
    unfold valid_port. rewrite Hpriv. reflexivity.
  - reflexivity.
Qed.

(** Port 1 of the sample store; the event pool is empty, or holds
    buffer 7. *)
Lemma event_get_other_events_witness :
  mmal_port_event_get sample_constants sample_externals (Some 1%nat) (Some (Some 8%nat)) 5
    (sample_state 0 0 [])
  = Done (MMAL_ENOSPC, Some None) (sample_state 0 0 [])
  /\ exists s',
       mmal_port_event_get sample_constants sample_externals (Some 1%nat) (Some None) 5
         (sample_state 0 0 [7%nat])
       = Done (MMAL_SUCCESS, Some (Some 7%nat)) s'
       /\ buffer_at s' 7%nat = BH.mk 5 (Some (replicate 200 255)) 200 0 1 2 3 4.
Proof.
  split.
  - exact (proj1 (event_get_other_events sample_constants sample_externals
                    (sample_state 0 0 []) 1%nat _ (Some 8%nat) 5 eq_refl) eq_refl).
  - destruct (proj1 (proj2 (event_get_other_events sample_constants sample_externals
                              (sample_state 0 0 [7%nat]) 1%nat _ None 5 eq_refl))
                7%nat [] sample_buffer ltac:(discriminate) eq_refl eq_refl)
      as (Hgo & Hb & _).
    eexists. split; [exact Hgo | exact Hb].
Defined.

(** ** Enable, then disable *)

Lemma port_eta_priv (x : Port.t) (pr : Priv.t) :
  Port.priv x = Some pr ->
  Port.is_enabled x = 0 ->
  Core.buffer_header_callback (Priv.core pr) = None ->
  Core.pool_for_connection (Priv.core pr) = None ->
  forall c,
    Port.upd_core (Core.set_pool_for_connection None)
      (Port.upd_core (Core.set_buffer_header_callback None)
         (Port.set_is_enabled 0
            (Port.set_is_enabled 1
               (Port.upd_core (Core.set_buffer_header_callback c) x)))) = x.
Proof.
  intros Hpriv Hen Hcb Hpool c.
  destruct x as [priv name type index is_enabled format nmin smin num size comp caps].
  cbn in *. subst priv is_enabled.
  destruct pr as [core f1 f2 f3 f4 f5 f6 f7].
  destruct core as [cb n sema fc cp own ap pool st nm ns]. cbn in *. subst cb pool.
  reflexivity.
Qed.

(** X26.  Enable, then disable: on an allocated, disabled, unconnected port
    that meets its buffer minima, has no buffer in transit, no stored
    callback and no connection pool, and whose enable and disable hooks
    succeed without changing the store, [mmal_port_enable] with a client
    callback returns [MMAL_SUCCESS] with the port enabled and the callback
    stored, and a following [mmal_port_disable] returns [MMAL_SUCCESS] and
    gives back the store from before the two calls, but for the two hook
    calls entered in the trace. *)
Theorem enable_disable_round_trip (K : Constants) (E : Externals) (fuel : nat)
    (s : State) (p : port_id) (pr : Priv.t) (f g : code_ptr) (c : MMAL_PORT_BH_CB_T)
    (Hpriv : Port.priv (port_at s p) = Some pr)
    (Hen : Priv.pf_enable pr = Some f)
    (Hdi : Priv.pf_disable pr = Some g)
    (Hdis : Port.is_enabled (port_at s p) = 0)
    (Hcon : Core.connected_port (core_at s p) = None)
    (Hcb : Core.buffer_header_callback (core_at s p) = None)
    (Hpool : Core.pool_for_connection (core_at s p) = None)
    (Hsema : Core.transit_sema (core_at s p) <> 0%nat)
    (Hnum : Port.buffer_num_min (port_at s p) <= Port.buffer_num (port_at s p))
    (Hsize : Port.buffer_size_min (port_at s p) <= Port.buffer_size (port_at s p))
    (Henable : forall s', run_enable E f p (Some c) s' = (MMAL_SUCCESS, s'))
    (Hdisable : forall s', run_disable E g p s' = (MMAL_SUCCESS, s')) :
  exists s1,
    mmal_port_enable K E (S fuel) (Some p) (Some c) s = Done MMAL_SUCCESS s1
    /\ Port.is_enabled (port_at s1 p) = 1
    /\ Core.buffer_header_callback (core_at s1 p) = Some c
    /\ mmal_port_disable E (S (S fuel)) (Some p) s1
       = Done MMAL_SUCCESS
           (set_trace (call_pf_disable g p :: call_pf_enable f p (Some c) :: trace s) s).
Proof.
  set (s0 := upd_core p (Core.set_buffer_header_callback (Some c)) s).
  set (s1 := upd_port p (Port.set_is_enabled 1)
               (set_trace (call_pf_enable f p (Some c) :: trace s) s0)).
  assert (Hgo : mmal_port_enable K E (S fuel) (Some p) (Some c) s = Done MMAL_SUCCESS s1).
  { rewrite (enable_run K E (S fuel) s p pr f _ Hpriv Hen).
    rewrite (enable_locked_run K E fuel s p pr f (Some c) Hpriv Hen Hdis
               (or_introl Hcon) Hnum Hsize
               (conj (fun _ => ex_intro _ c eq_refl) (fun _ => Hcon))).
    rewrite Henable, Hcon. reflexivity. }
  assert (Hp0 : is_Some (Port.priv (port_at s0 p))) by (unfold s0; alloc).
  destruct Hp0 as [pr0 Hp0].
  assert (Hport1 : port_at s1 p = Port.set_is_enabled 1 (port_at s0 p)).
  { unfold s1.
    apply (port_at_upd_port_eq (set_trace (call_pf_enable f p (Some c) :: trace s) s0) p pr0).
    exact Hp0. }
  assert (Hpriv1 : Port.priv (port_at s1 p) = Some pr0).
  { rewrite Hport1. exact Hp0. }
  assert (Hcore1 : core_at s1 p = core_at s0 p).
  { unfold core_at. rewrite Hport1. reflexivity. }
  assert (Hcore0 : core_at s0 p = Core.set_buffer_header_callback (Some c) (core_at s p)).
  { unfold s0. apply (core_at_upd_core_eq _ _ _ _ Hpriv). }
  assert (Hdi0 : Priv.pf_disable pr0 = Some g).
  { assert (H : slot Priv.pf_disable s0 p = slot Priv.pf_disable s p)
      by (unfold s0; apply slot_upd_core; reflexivity).
    unfold slot in H. rewrite Hp0, Hpriv in H. rewrite H. exact Hdi. }
  exists s1. split; [exact Hgo |].
  split; [rewrite Hport1; reflexivity |].
  split; [rewrite Hcore1, Hcore0; reflexivity |].
  assert (Hhook1 : at_disable_hook p s1 = upd_port p (Port.set_is_enabled 0) s1).
  { unfold at_disable_hook. cbv zeta.
    replace (Core.pool_for_connection (core_at (upd_port p (Port.set_is_enabled 0) s1) p))
      with (@None pool_id); [reflexivity |].
    unfold core_at. rewrite (port_at_upd_port_eq _ _ _ _ Hpriv1), Hport1.
    change (Port.core (Port.set_is_enabled 0 (Port.set_is_enabled 1 (port_at s0 p))))
      with (core_at s0 p).
    rewrite Hcore0. symmetry. exact Hpool. }
  set (s2 := upd_port p (Port.set_is_enabled 0) s1) in *.
  assert (Hport2 : port_at s2 p = Port.set_is_enabled 0 (port_at s1 p)).
  { unfold s2. apply (port_at_upd_port_eq _ _ _ _ Hpriv1). }
  assert (Hcore2 : core_at s2 p = core_at s0 p).
  { unfold core_at. rewrite Hport2, Hport1. reflexivity. }
  assert (Hlocked : mmal_port_disable_locked E (S fuel) p s1
                    = Done MMAL_SUCCESS
                        (upd_core p (Core.set_buffer_header_callback None)
                           (set_trace (call_pf_disable g p :: trace s1) s2))).
  { apply (disable_locked_succeeds E fuel s1 p pr0 g s2 Hpriv1 Hdi0).
    - rewrite Hport1. discriminate.
    - rewrite Hhook1. apply Hdisable.
    - rewrite Hport2, Hport1. eauto.
    - rewrite Hcore2, Hcore0. exact Hsema.
    - left. rewrite Hcore2, Hcore0. exact Hcon. }
  rewrite (disable_run E (S fuel) s1 p pr0 g Hpriv1 Hdi0), Hlocked.
  cbv zeta. cbn [is_success].
  set (s3 := upd_core p (Core.set_buffer_header_callback None)
               (set_trace (call_pf_disable g p :: trace s1) s2)).
  assert (Hpool3 : Core.pool_for_connection (core_at s3 p) = None).
  { unfold s3. rewrite (core_field_upd_core Core.pool_for_connection) by reflexivity.
    change (core_at (set_trace (call_pf_disable g p :: trace s1) s2) p) with (core_at s2 p).
    rewrite Hcore2, Hcore0. exact Hpool. }
  rewrite Hpool3. apply (f_equal (Done MMAL_SUCCESS)).
  change (upd_core p (Core.set_pool_for_connection None) s3)
    with (set_trace (call_pf_disable g p :: call_pf_enable f p (Some c) :: trace s)
            (upd_port p (Port.upd_core (Core.set_pool_for_connection None))
               (upd_port p (Port.upd_core (Core.set_buffer_header_callback None))
                  (upd_port p (Port.set_is_enabled 0)
                     (upd_port p (Port.set_is_enabled 1)
                        (upd_port p (Port.upd_core
                                       (Core.set_buffer_header_callback (Some c))) s)))))).
  rewrite !upd_port_compose. f_equal. apply upd_port_id. intros x Hx.
  assert (port_at s p = x) as <- by (unfold port_at; rewrite Hx; reflexivity).
  apply (port_eta_priv _ pr Hpriv Hdis).
  - rewrite <- (core_at_priv _ _ _ Hpriv). exact Hcb.
  - rewrite <- (core_at_priv _ _ _ Hpriv). exact Hpool.
Qed.

(** Port 1 of the sample store. *)
Lemma enable_disable_round_trip_witness :
  exists s1,
    mmal_port_enable sample_constants sample_externals 1 (Some 1%nat)
      (Some (client_cb 9%nat)) (sample_state 0 0 [])
    = Done MMAL_SUCCESS s1
    /\ Port.is_enabled (port_at s1 1%nat) = 1
    /\ mmal_port_disable sample_externals 2 (Some 1%nat) s1
       = Done MMAL_SUCCESS
           (set_trace [call_pf_disable 0%nat 1%nat;
                       call_pf_enable 0%nat 1%nat (Some (client_cb 9%nat))]
              (sample_state 0 0 [])).
Proof.
  assert (Hsema : Core.transit_sema (core_at (sample_state 0 0 []) 1%nat) <> 0%nat)
    by (vm_compute; discriminate).
  assert (Hnum : Port.buffer_num_min (port_at (sample_state 0 0 []) 1%nat)
                 <= Port.buffer_num (port_at (sample_state 0 0 []) 1%nat))
    by (vm_compute; discriminate).
  assert (Hsize : Port.buffer_size_min (port_at (sample_state 0 0 []) 1%nat)
                  <= Port.buffer_size (port_at (sample_state 0 0 []) 1%nat))
    by (vm_compute; discriminate).
  destruct (enable_disable_round_trip sample_constants sample_externals 0
              (sample_state 0 0 []) 1%nat _ 0%nat 0%nat (client_cb 9%nat)
              eq_refl eq_refl eq_refl eq_refl eq_refl eq_refl eq_refl
              Hsema Hnum Hsize (fun _ => eq_refl) (fun _ => eq_refl))
    as (s1 & H1 & H2 & _ & H4).
  exists s1. split; [exact H1 |]. split; [exact H2 | exact H4].
Defined.

(** ** Enabling a connected output port *)

(** [mmal_port_enable_locked] on a connected output port, behind its
    checks. *)
Lemma enable_locked_run_output (K : Constants) (E : Externals) (fuel : nat) (s : State)
    (o i : port_id) (pr : Priv.t) (f : code_ptr) :
  Port.priv (port_at s o) = Some pr ->
  Priv.pf_enable pr = Some f ->
  Port.is_enabled (port_at s o) = 0 ->
  Port.type (port_at s o) = MMAL_PORT_TYPE_OUTPUT ->
  Core.connected_port (core_at s o) = Some i ->
  Port.buffer_num_min (port_at s o)
  <= Z.max (Port.buffer_num (port_at s o)) (Port.buffer_num (port_at s i)) ->
  Port.buffer_size_min (port_at s o)
  <= Z.max (Port.buffer_size (port_at s o)) (Port.buffer_size (port_at s i)) ->
  mmal_port_enable_locked K E (S fuel) o None s
  = let s1 := with_maxima o i s in
    let r := run_enable E f o None (upd_core o (Core.set_buffer_header_callback None) s1) in
    let s3 := set_trace (call_pf_enable f o None :: trace s) (snd r) in
    if negb (is_success (fst r)) then Done (fst r) s3
    else
      let s4 := upd_port o (Port.set_is_enabled 1) s3 in
      if is_input (Port.type (port_at s4 o))
      then Done (fst r)
             (upd_core o (Core.set_buffer_header_callback
                            (Some mmal_port_connected_input_cb)) s4)
      else mmal_port_enable_locked_connected K E fuel o i s4.
Proof.
  intros Hpriv Hhook Hdis Hout Hcon Hnum Hsize.
  assert (Hp1 : port_at (with_maxima o i s) o
                = Port.set_buffer_size
                    (Z.max (Port.buffer_size (port_at s o)) (Port.buffer_size (port_at s i)))
                    (Port.set_buffer_num
                       (Z.max (Port.buffer_num (port_at s o)) (Port.buffer_num (port_at s i)))
                       (port_at s o))).
  { unfold with_maxima. rewrite (port_at_upd_port_eq _ _ _ _ Hpriv). reflexivity. }
  cbn [mmal_port_enable_locked]. run_steps.
  rewrite Hcon, Hdis. change (nonzero 0) with false. cbn beta iota.
  rewrite Hout. change (is_output MMAL_PORT_TYPE_OUTPUT) with true. cbn beta iota.
  rewrite adopt_maxima_spec. cbn beta iota.
  set (s1 := with_maxima o i s) in *.
  assert (Hn : Port.buffer_num (port_at s1 o)
               = Z.max (Port.buffer_num (port_at s o)) (Port.buffer_num (port_at s i)))
    by (rewrite Hp1; reflexivity).
  assert (Hz : Port.buffer_size (port_at s1 o)
               = Z.max (Port.buffer_size (port_at s o)) (Port.buffer_size (port_at s i)))
    by (rewrite Hp1; reflexivity).
  assert (Hnm : Port.buffer_num_min (port_at s1 o) = Port.buffer_num_min (port_at s o))
    by (rewrite Hp1; reflexivity).
  assert (Hzm : Port.buffer_size_min (port_at s1 o) = Port.buffer_size_min (port_at s o))
    by (rewrite Hp1; reflexivity).
  apply Z.ltb_ge in Hnum, Hsize. rewrite Hn, Hnm, Hnum. cbn beta iota.
  rewrite Hz, Hzm, Hsize. cbn beta iota.
  rewrite bool_decide_eq_true_2 by (eexists; reflexivity).
  rewrite bool_decide_eq_false_2 by (intros [? ?]; discriminate).
  cbn [negb eqb]. cbn beta iota.
  unfold call_enable, call. run_steps.
  rewrite slot_upd_core by reflexivity.
  assert (Hf1 : slot Priv.pf_enable s1 o = Some f).
  { unfold slot. rewrite Hp1. cbn. rewrite Hpriv. exact Hhook. }
  rewrite Hf1.
  destruct (run_enable E f o None _) as [st s2]. cbn [fst snd]. cbv zeta.
  replace (trace (upd_core o (Core.set_buffer_header_callback None) s1)) with (trace s)
    by reflexivity.
  destruct (is_success st); cbn [negb]; cbn beta iota; [| reflexivity].
  destruct (is_input _); reflexivity.
Qed.

(** X27.  Enabling a connected output port whose connection the component
    manages (no pool to allocate), while the connected input port is
    disabled, with enable hooks that succeed without changing the store:
    [mmal_port_enable] without a callback returns [MMAL_SUCCESS]; the output
    port has adopted the maxima of the two buffer configurations and the
    input port has been given the same configuration; both ports are
    enabled; the core has installed its callback for connected output ports
    on the output and the one for connected input ports on the input; the
    hook of the output was called first, then the hook of the input, each
    with a null callback. *)
Theorem enable_connected_output_enables_both (K : Constants) (E : Externals) (fuel : nat)
    (s : State) (o i : port_id) (pro pri : Priv.t) (fo fi : code_ptr)
    (Hpo : Port.priv (port_at s o) = Some pro)
    (Hpi : Port.priv (port_at s i) = Some pri)
    (Hfo : Priv.pf_enable pro = Some fo)
    (Hfi : Priv.pf_enable pri = Some fi)
    (Hto : Port.type (port_at s o) = MMAL_PORT_TYPE_OUTPUT)
    (Hti : Port.type (port_at s i) = MMAL_PORT_TYPE_INPUT)
    (Hco : Core.connected_port (core_at s o) = Some i)
    (Hci : is_Some (Core.connected_port (core_at s i)))
    (Hdo : Port.is_enabled (port_at s o) = 0)
    (Hdi : Port.is_enabled (port_at s i) = 0)
    (Hap : Core.allocate_pool (core_at s o) = 0)
    (Hno : Port.buffer_num_min (port_at s o)
           <= Z.max (Port.buffer_num (port_at s o)) (Port.buffer_num (port_at s i)))
    (Hso : Port.buffer_size_min (port_at s o)
           <= Z.max (Port.buffer_size (port_at s o)) (Port.buffer_size (port_at s i)))
    (Hni : Port.buffer_num_min (port_at s i)
           <= Z.max (Port.buffer_num (port_at s o)) (Port.buffer_num (port_at s i)))
    (Hsi : Port.buffer_size_min (port_at s i)
           <= Z.max (Port.buffer_size (port_at s o)) (Port.buffer_size (port_at s i)))
    (Heo : forall s', run_enable E fo o None s' = (MMAL_SUCCESS, s'))
    (Hei : forall s', run_enable E fi i None s' = (MMAL_SUCCESS, s')) :
  exists s',
    mmal_port_enable K E (S (S (S fuel))) (Some o) None s = Done MMAL_SUCCESS s'
    /\ (Port.is_enabled (port_at s' o) = 1 /\ Port.is_enabled (port_at s' i) = 1)
    /\ (Core.buffer_header_callback (core_at s' o) = Some mmal_port_connected_output_cb
        /\ Core.buffer_header_callback (core_at s' i) = Some mmal_port_connected_input_cb)
    /\ (Port.buffer_num (port_at s' o)
        = Z.max (Port.buffer_num (port_at s o)) (Port.buffer_num (port_at s i))
        /\ Port.buffer_num (port_at s' i) = Port.buffer_num (port_at s' o)
        /\ Port.buffer_size (port_at s' o)
           = Z.max (Port.buffer_size (port_at s o)) (Port.buffer_size (port_at s i))
        /\ Port.buffer_size (port_at s' i) = Port.buffer_size (port_at s' o))
    /\ trace s' = call_pf_enable fi i None :: call_pf_enable fo o None :: trace s.
Proof.
  assert (Hne : o <> i) by (intros ->; congruence).
  set (N := Z.max (Port.buffer_num (port_at s o)) (Port.buffer_num (port_at s i))) in *.
  set (Zs := Z.max (Port.buffer_size (port_at s o)) (Port.buffer_size (port_at s i))) in *.
  set (s1 := with_maxima o i s).
  set (s3 := set_trace (call_pf_enable fo o None :: trace s)
               (upd_core o (Core.set_buffer_header_callback None) s1)).
  set (s4 := upd_port o (Port.set_is_enabled 1) s3).
  set (t1 := upd_core o (Core.set_buffer_header_callback (Some mmal_port_connected_output_cb))
               s4).
  (* the output port in [t1] *)
  assert (Hp1 : port_at s1 o = Port.set_buffer_size Zs (Port.set_buffer_num N (port_at s o))).
  { unfold s1, with_maxima. rewrite (port_at_upd_port_eq _ _ _ _ Hpo). reflexivity. }
  assert (Hpriv1 : Port.priv (port_at s1 o) = Some pro) by (rewrite Hp1; exact Hpo).
  assert (Hp3 : port_at s3 o
                = Port.upd_core (Core.set_buffer_header_callback None) (port_at s1 o)).
  { unfold s3, upd_core.
    change (port_at (set_trace ?t ?x) o) with (port_at x o).
    apply (port_at_upd_port_eq _ _ _ _ Hpriv1). }
  assert (Hpriv3 : is_Some (Port.priv (port_at s3 o))).
  { unfold s3. change (port_at (set_trace ?t ?x) o) with (port_at x o). alloc. }
  destruct Hpriv3 as [pr3 Hpriv3].
  assert (Hp4 : port_at s4 o = Port.set_is_enabled 1 (port_at s3 o)).
  { unfold s4. apply (port_at_upd_port_eq _ _ _ _ Hpriv3). }
  assert (Hpriv4 : Port.priv (port_at s4 o) = Some pr3) by (rewrite Hp4; exact Hpriv3).
  assert (Hpt1 : port_at t1 o
                 = Port.upd_core (Core.set_buffer_header_callback
                                    (Some mmal_port_connected_output_cb)) (port_at s4 o)).
  { unfold t1, upd_core. apply (port_at_upd_port_eq _ _ _ _ Hpriv4). }
  assert (Hpub_o : forall {A} (g : Port.t -> A),
             (forall x v, g (Port.set_priv v x) = g x) ->
             (forall x v, g (Port.set_is_enabled v x) = g x) ->
             g (port_at t1 o) = g (port_at s1 o)).
  { intros A g G1 G2. rewrite Hpt1, upd_core_public by exact G1.
    rewrite Hp4, G2, Hp3, upd_core_public by exact G1. reflexivity. }
  (* the input port in [t1] *)
  assert (Hi1 : port_at t1 i = port_at s i).
  { unfold t1, s4, s3, s1, with_maxima, upd_core.
    rewrite port_at_upd_port_ne by exact Hne.
    rewrite port_at_upd_port_ne by exact Hne.
    change (port_at (set_trace ?t ?x) i) with (port_at x i).
    rewrite port_at_upd_port_ne by exact Hne.
    rewrite port_at_upd_port_ne by exact Hne. reflexivity. }
  assert (Hnum1 : Port.buffer_num (port_at t1 o) = N).
  { rewrite (Hpub_o _ Port.buffer_num) by reflexivity. rewrite Hp1. reflexivity. }
  assert (Hsize1 : Port.buffer_size (port_at t1 o) = Zs).
  { rewrite (Hpub_o _ Port.buffer_size) by reflexivity. rewrite Hp1. reflexivity. }
  set (t2 := upd_port i (Port.set_buffer_num N) (upd_port i (Port.set_buffer_size Zs) t1)).
  assert (Hpi1 : Port.priv (port_at t1 i) = Some pri) by (rewrite Hi1; exact Hpi).
  assert (Hi2 : port_at t2 i
                = Port.set_buffer_num N (Port.set_buffer_size Zs (port_at s i))).
  { unfold t2. rewrite upd_port_compose.
    rewrite (port_at_upd_port_eq _ _ _ _ Hpi1), Hi1. reflexivity. }
  assert (Ho2 : port_at t2 o = port_at t1 o).
  { unfold t2. rewrite !port_at_upd_port_ne by congruence. reflexivity. }
  assert (Hpi2 : Port.priv (port_at t2 i) = Some pri) by (rewrite Hi2; exact Hpi).
  assert (Hci2 : core_at t2 i = core_at s i).
  { unfold core_at. rewrite Hi2. reflexivity. }
  set (u3 := set_trace (call_pf_enable fi i None :: trace t2)
               (upd_core i (Core.set_buffer_header_callback None) t2)).
  set (u4 := upd_port i (Port.set_is_enabled 1) u3).
  set (t5 := upd_core i (Core.set_buffer_header_callback (Some mmal_port_connected_input_cb))
               u4).
  assert (Hpu3 : port_at u3 i
                 = Port.upd_core (Core.set_buffer_header_callback None) (port_at t2 i)).
  { unfold u3, upd_core. change (port_at (set_trace ?t ?x) i) with (port_at x i).
    apply (port_at_upd_port_eq _ _ _ _ Hpi2). }
  assert (Hpriv_u3 : is_Some (Port.priv (port_at u3 i))).
  { unfold u3. change (port_at (set_trace ?t ?x) i) with (port_at x i). alloc. }
  destruct Hpriv_u3 as [pru3 Hpriv_u3].
  assert (Hpu4 : port_at u4 i = Port.set_is_enabled 1 (port_at u3 i)).
  { unfold u4. apply (port_at_upd_port_eq _ _ _ _ Hpriv_u3). }
  assert (Hpriv_u4 : Port.priv (port_at u4 i) = Some pru3) by (rewrite Hpu4; exact Hpriv_u3).
  assert (Hpt5 : port_at t5 i
                 = Port.upd_core (Core.set_buffer_header_callback
                                    (Some mmal_port_connected_input_cb)) (port_at u4 i)).
  { unfold t5, upd_core. apply (port_at_upd_port_eq _ _ _ _ Hpriv_u4). }
  assert (Hpub_i : forall {A} (g : Port.t -> A),
             (forall x v, g (Port.set_priv v x) = g x) ->
             (forall x v, g (Port.set_is_enabled v x) = g x) ->
             g (port_at t5 i) = g (port_at t2 i)).
  { intros A g G1 G2. rewrite Hpt5, upd_core_public by exact G1.
    rewrite Hpu4, G2, Hpu3, upd_core_public by exact G1. reflexivity. }
  assert (Ho5 : port_at t5 o = port_at t1 o).
  { unfold t5, u4, u3, upd_core.
    rewrite port_at_upd_port_ne by congruence.
    rewrite port_at_upd_port_ne by congruence.
    change (port_at (set_trace ?t ?x) o) with (port_at x o).
    rewrite port_at_upd_port_ne by congruence. exact Ho2. }
  assert (Hap5 : Core.allocate_pool (core_at t5 o) = 0).
  { unfold core_at. rewrite Ho5. fold (core_at t1 o). unfold t1.
    rewrite (core_field_upd_core Core.allocate_pool) by reflexivity.
    unfold core_at. rewrite Hp4.
    change (Port.core (Port.set_is_enabled 1 (port_at s3 o))) with (core_at s3 o).
    unfold s3. change (core_at (set_trace ?t ?x) o) with (core_at x o).
    rewrite (core_field_upd_core Core.allocate_pool) by reflexivity.
    unfold core_at. rewrite Hp1. exact Hap. }
  (* the run *)
  assert (Hinput : mmal_port_enable_locked K E (S fuel) i None t2 = Done MMAL_SUCCESS t5).
  { rewrite (enable_locked_run K E fuel t2 i pri fi None Hpi2 Hfi).
    - rewrite Hei. cbv zeta. cbn [fst snd is_success negb]. rewrite Hci2.
      destruct Hci as [x Hx]. rewrite Hx. fold u3. fold u4.
      rewrite Hpu4. cbn [Port.type Port.set_is_enabled]. rewrite Hpu3.
      rewrite upd_core_public by reflexivity. rewrite Hi2.
      cbn [Port.type Port.set_buffer_num Port.set_buffer_size]. rewrite Hti.
      reflexivity.
    - rewrite Hi2. exact Hdi.
    - right. rewrite Hi2. cbn [Port.type Port.set_buffer_num Port.set_buffer_size].
      rewrite Hti. discriminate.
    - rewrite Hi2. exact Hni.
    - rewrite Hi2. exact Hsi.
    - rewrite Hci2. destruct Hci as [x Hx]. rewrite Hx.
      split; [discriminate | intros [? ?]; discriminate]. }
  exists t5. split.
  { rewrite (enable_run K E _ s o pro fo None Hpo Hfo).
    rewrite (enable_locked_run_output K E (S (S fuel)) s o i pro fo Hpo Hfo Hdo Hto Hco Hno Hso).
    cbv zeta. rewrite Heo. cbn [fst snd is_success negb]. fold s1. fold s3. fold s4.
    rewrite Hp4. cbn [Port.type Port.set_is_enabled]. rewrite Hp3.
    rewrite upd_core_public by reflexivity. rewrite Hp1.
    cbn [Port.type Port.set_buffer_num Port.set_buffer_size]. rewrite Hto.
    cbn [is_input].
    remember (S fuel) as n eqn:Hn.
    cbn [mmal_port_enable_locked_connected]. run_steps. fold t1.

    rewrite Hi1, Hdi. change (nonzero 0) with false. cbn [andb is_success negb].
    cbn beta iota.
    rewrite Hsize1.
    replace (Port.buffer_num
               (port_at (upd_port i (Port.set_buffer_size Zs) t1) o)) with N
      by (rewrite port_at_upd_port_ne by congruence; symmetry; exact Hnum1).
    fold t2. rewrite Hi2. cbn [Port.is_enabled Port.set_buffer_num Port.set_buffer_size].
    rewrite Hdi. change (nonzero 0) with false. cbn beta iota.
    match goal with
    | |- context [?F n i None t2] =>
        change (F n i None t2) with (mmal_port_enable_locked K E n i None t2)
    end.
    rewrite Hinput. cbn [is_success negb]. cbn beta iota.
    rewrite Hap5. change (nonzero 0) with false. reflexivity. }
  split; [split |].
  { rewrite Ho5, Hpt1, upd_core_public by reflexivity. rewrite Hp4. reflexivity. }
  { rewrite Hpt5, upd_core_public by reflexivity. rewrite Hpu4. reflexivity. }
  split; [split |].
  { unfold core_at. rewrite Ho5. fold (core_at t1 o). unfold t1.
    rewrite (core_at_upd_core_eq _ _ _ _ Hpriv4). reflexivity. }
  { unfold t5. rewrite (core_at_upd_core_eq _ _ _ _ Hpriv_u4). reflexivity. }
  split; [| reflexivity].
  assert (Hni5 : Port.buffer_num (port_at t5 i) = N).
  { rewrite (Hpub_i _ Port.buffer_num) by reflexivity. rewrite Hi2. reflexivity. }
  assert (Hsi5 : Port.buffer_size (port_at t5 i) = Zs).
  { rewrite (Hpub_i _ Port.buffer_size) by reflexivity. rewrite Hi2. reflexivity. }
  rewrite Ho5, Hnum1, Hsize1, Hni5, Hsi5. repeat split; reflexivity.
Qed.

(** Ports 1 and 2 of the sample store, connected: the output has 3 buffers
    of 2048 bytes, the input 5 of 4096. *)
Lemma enable_connected_output_enables_both_witness :
  exists s',
    mmal_port_enable sample_constants sample_externals 3 (Some 1%nat) None
      (connected_state 0 0)
    = Done MMAL_SUCCESS s'
    /\ Port.is_enabled (port_at s' 2%nat) = 1
    /\ Port.buffer_num (port_at s' 1%nat) = 5
    /\ Port.buffer_size (port_at s' 2%nat) = 4096
    /\ trace s' = [call_pf_enable 0%nat 2%nat None; call_pf_enable 0%nat 1%nat None].
Proof.
  assert (Hno : Port.buffer_num_min (port_at (connected_state 0 0) 1%nat)
                <= Z.max (Port.buffer_num (port_at (connected_state 0 0) 1%nat))
                     (Port.buffer_num (port_at (connected_state 0 0) 2%nat)))
    by (vm_compute; discriminate).
  assert (Hso : Port.buffer_size_min (port_at (connected_state 0 0) 1%nat)
                <= Z.max (Port.buffer_size (port_at (connected_state 0 0) 1%nat))
                     (Port.buffer_size (port_at (connected_state 0 0) 2%nat)))
    by (vm_compute; discriminate).
  assert (Hni : Port.buffer_num_min (port_at (connected_state 0 0) 2%nat)
                <= Z.max (Port.buffer_num (port_at (connected_state 0 0) 1%nat))
                     (Port.buffer_num (port_at (connected_state 0 0) 2%nat)))
    by (vm_compute; discriminate).
  assert (Hsi : Port.buffer_size_min (port_at (connected_state 0 0) 2%nat)
                <= Z.max (Port.buffer_size (port_at (connected_state 0 0) 1%nat))
                     (Port.buffer_size (port_at (connected_state 0 0) 2%nat)))
    by (vm_compute; discriminate).
  destruct (enable_connected_output_enables_both sample_constants sample_externals 0
              (connected_state 0 0) 1%nat 2%nat _ _ 0%nat 0%nat
              eq_refl eq_refl eq_refl eq_refl eq_refl eq_refl eq_refl
              (ex_intro _ _ eq_refl) eq_refl eq_refl eq_refl Hno Hso Hni Hsi
              (fun _ => eq_refl) (fun _ => eq_refl))
    as (s' & Hgo & (_ & Hei) & _ & (Hn & _ & Hzo & Hzi) & Ht).
  exists s'. split; [exact Hgo |]. split; [exact Hei |].
  split; [rewrite Hn; reflexivity |]. split; [| exact Ht].
  rewrite Hzi, Hzo. reflexivity.
Defined.
